(** * Hydro bill hub: the billing record lifecycle

    A shallow embedding of the water-billing portal:
    - the relational schema of the migration (tables [profiles], [bills],
      [payments], [complaints]; defaults, generated columns, CHECK and NOT NULL
      constraints, keys, the [update_updated_at] triggers);
    - the calls the two dashboards issue through the table API
      ([from(..).select/insert/update]);
    - the event handlers of [CustomerDashboard] and [AdminDashboard]
      ([fetchData], [makePayment], [submitComplaint], [createBill],
      [updateComplaintStatus]) and the figures they derive ([pendingBills],
      [totalOutstanding], [stats]).

    The network, the textual validity of uuid and date literals and the
    row-level policies that refuse a statement are the hosted store's
    business: a call that they refuse is a call whose [transport] carries an
    error, and such a call changes nothing.  The policy that does not refuse
    but hides rows from the one update a customer issues, "Admins can update
    bills", is part of the model.  *)

From Stdlib Require Import ZArith List Ascii String Bool Lia Permutation Sorted.
From Stdlib Require Import Floats Uint63.
Import ListNotations.

Open Scope string_scope.
Open Scope Z_scope.
Open Scope list_scope.

(** ** SQL numerics: [DECIMAL(10,2)] *)

Module Numeric.

(** A number as it is written in a request body: [mantissa * 10 ^ exponent]. *)
Record decimal := Decimal { mantissa : Z; exponent : Z }.

(** [n / d] rounded to the nearest integer, ties away from zero. *)
Definition round_half_away (n d : Z) : Z :=
  Z.sgn n * ((2 * Z.abs n + d) / (2 * d)).

(** A [DECIMAL(10,2)] value is held as its number of hundredths. *)
Definition limit : Z := 10 ^ 10.

Definition fits (h : Z) : bool := Z.abs h <? limit.

(** Storing into a [DECIMAL(10,2)] column: more than ten digits overflow. *)
Definition coerce (h : Z) : option Z := if fits h then Some h else None.

(** Assignment of a written number: rounded to two fractional digits. *)
Definition of_decimal (d : decimal) : option Z :=
  let e := exponent d + 2 in
  coerce (if 0 <=? e then mantissa d * 10 ^ e
          else round_half_away (mantissa d) (10 ^ (- e))).

(** The product of two values of scale two has scale four. *)
Definition scale4_to_scale2 (x : Z) : Z := round_half_away x 100.

(** [DEFAULT 50.00] *)
Definition default_rate : Z := 5000.

End Numeric.

(** ** Values of a request body *)

(** A key of an insert payload: left out, [null], or a value.  ([undefined]
    and a missing key are both left out of the JSON text.) *)
Inductive field (A : Type) : Type :=
| Omitted
| Null
| Value (a : A).
Arguments Omitted {A}.
Arguments Null {A}.
Arguments Value {A} a.

(** A number under a key: [NaN] and the infinities are written [null]. *)
Definition number_key (n : option Numeric.decimal) : field Numeric.decimal :=
  match n with
  | Some d => Value d
  | None => Null
  end.

Definition uuid := string.
Definition timestamp := Z.

Record PostgrestError := { message : string }.

(** What a call resolves to: [{ data, error }]. *)
Record response (A : Type) := { data : option A; error : option PostgrestError }.
Arguments data {A} r.
Arguments error {A} r.

Definition succeed {A} (a : A) : response A := {| data := Some a; error := None |}.
Definition fail {A} (msg : string) : response A :=
  {| data := None; error := Some {| message := msg |} |}.
Definition refuse {A} (e : PostgrestError) : response A :=
  {| data := None; error := Some e |}.

(** What the surroundings decide for one call: whether the request reaches
    the tables at all, the value of [NOW()], of [gen_random_uuid()] and of
    [auth.uid()], the signed-in user the call is made for. *)
Record call := {
  transport : option PostgrestError;
  now : timestamp;
  fresh : uuid;
  auth_uid : uuid
}.

Definition text_in (s : string) (allowed : list string) : bool :=
  existsb (String.eqb s) allowed.

(** A CHECK constraint over a nullable text column passes on NULL. *)
Definition check_in (v : option string) (allowed : list string) : bool :=
  match v with
  | None => true
  | Some s => text_in s allowed
  end.

(** [v === s] for a text column read back as [string | null]. *)
Definition is_text (v : option string) (s : string) : bool :=
  match v with
  | None => false
  | Some t => String.eqb t s
  end.

(** ** The tables *)

Module profiles.
Record row := {
  id : uuid;
  user_id : uuid;
  full_name : string;
  phone_number : option string;
  address : option string;
  meter_number : option string;
  is_admin : option bool;
  created_at : timestamp;
  updated_at : timestamp
}.
End profiles.

Module bills.
Record row := {
  id : uuid;
  customer_id : uuid;
  meter_number : string;
  previous_reading : Z;
  current_reading : Z;
  units_consumed : Z;
  rate_per_unit : Z;
  amount : Z;
  bill_month : string;
  due_date : string;
  status : option string;
  created_at : timestamp;
  updated_at : timestamp
}.

Record Insert := {
  new_customer_id : field uuid;
  new_meter_number : field string;
  new_previous_reading : field Numeric.decimal;
  new_current_reading : field Numeric.decimal;
  new_rate_per_unit : field Numeric.decimal;
  new_bill_month : field string;
  new_due_date : field string;
  new_status : field string
}.

Definition statuses : list string := ["pending"; "paid"; "overdue"].

(** [GENERATED ALWAYS AS (current_reading - previous_reading) STORED] *)
Definition generated_units_consumed (previous current : Z) : option Z :=
  Numeric.coerce (current - previous).

(** [GENERATED ALWAYS AS ((current_reading - previous_reading) * rate_per_unit) STORED] *)
Definition generated_amount (previous current rate : Z) : option Z :=
  Numeric.coerce (Numeric.scale4_to_scale2 ((current - previous) * rate)).

Definition with_status (s : option string) (t : timestamp) (b : row) : row :=
  {| id := id b; customer_id := customer_id b; meter_number := meter_number b;
     previous_reading := previous_reading b; current_reading := current_reading b;
     units_consumed := units_consumed b; rate_per_unit := rate_per_unit b;
     amount := amount b; bill_month := bill_month b; due_date := due_date b;
     status := s; created_at := created_at b; updated_at := t |}.
End bills.

Module payments.
Record row := {
  id : uuid;
  bill_id : uuid;
  customer_id : uuid;
  amount : Z;
  payment_method : string;
  transaction_id : option string;
  payment_date : timestamp;
  status : option string;
  created_at : timestamp
}.

Record Insert := {
  new_bill_id : field uuid;
  new_customer_id : field uuid;
  new_amount : field Numeric.decimal;
  new_payment_method : field string;
  new_transaction_id : field string;
  new_status : field string
}.

Definition methods : list string := ["mpesa"; "bank_transfer"; "cash"].
Definition statuses : list string := ["pending"; "completed"; "failed"].
End payments.

Module complaints.
Record row := {
  id : uuid;
  customer_id : uuid;
  subject : string;
  description : string;
  status : option string;
  priority : option string;
  admin_response : option string;
  created_at : timestamp;
  updated_at : timestamp
}.

Record Insert := {
  new_customer_id : field uuid;
  new_subject : field string;
  new_description : field string;
  new_status : field string;
  new_priority : field string;
  new_admin_response : field string
}.

(** The keys of the one update the application issues. *)
Record Update := { set_status : string; set_admin_response : string }.

Definition statuses : list string := ["open"; "in_progress"; "resolved"; "closed"].
Definition priorities : list string := ["low"; "medium"; "high"; "urgent"].

Definition updated (u : Update) (t : timestamp) (c : row) : row :=
  {| id := id c; customer_id := customer_id c; subject := subject c;
     description := description c; status := Some (set_status u);
     priority := priority c; admin_response := Some (set_admin_response u);
     created_at := created_at c; updated_at := t |}.
End complaints.

Record database := {
  tbl_profiles : list profiles.row;
  tbl_bills : list bills.row;
  tbl_payments : list payments.row;
  tbl_complaints : list complaints.row
}.

Definition empty_database : database :=
  {| tbl_profiles := []; tbl_bills := []; tbl_payments := []; tbl_complaints := [] |}.

Definition with_profiles (l : list profiles.row) (db : database) : database :=
  {| tbl_profiles := l; tbl_bills := tbl_bills db;
     tbl_payments := tbl_payments db; tbl_complaints := tbl_complaints db |}.

Definition with_bills (l : list bills.row) (db : database) : database :=
  {| tbl_profiles := tbl_profiles db; tbl_bills := l;
     tbl_payments := tbl_payments db; tbl_complaints := tbl_complaints db |}.

Definition with_payments (l : list payments.row) (db : database) : database :=
  {| tbl_profiles := tbl_profiles db; tbl_bills := tbl_bills db;
     tbl_payments := l; tbl_complaints := tbl_complaints db |}.

Definition with_complaints (l : list complaints.row) (db : database) : database :=
  {| tbl_profiles := tbl_profiles db; tbl_bills := tbl_bills db;
     tbl_payments := tbl_payments db; tbl_complaints := l |}.

(** ** Building a row from a payload *)

(** Constraint checking either gives a value or the message of the violation. *)
Definition checked (A : Type) : Type := (string + A)%type.

Definition bind {A B} (c : checked A) (f : A -> checked B) : checked B :=
  match c with
  | inl msg => inl msg
  | inr a => f a
  end.

Declare Scope checked_scope.
Delimit Scope checked_scope with checked.
Notation "x <- c ;; k" := (bind c (fun x => k))
  (at level 100, c at next level, right associativity) : checked_scope.

Definition need {A} (msg : string) (o : option A) : checked A :=
  match o with
  | Some a => inr a
  | None => inl msg
  end.

Definition ensure (msg : string) (b : bool) : checked unit :=
  if b then inr tt else inl msg.

Definition not_null : string := "null value violates not-null constraint".
Definition overflow : string := "numeric field overflow".
Definition check_violation : string := "new row violates check constraint".
Definition duplicate_key : string := "duplicate key value violates unique constraint".
Definition foreign_key : string := "insert violates foreign key constraint".

(** A NOT NULL column; [default] is [None] when the column has none. *)
Definition not_null_column {A} (default : option A) (f : field A) : checked A :=
  match f with
  | Omitted => need not_null default
  | Null => inl not_null
  | Value a => inr a
  end.

(** A NOT NULL [DECIMAL(10,2)] column. *)
Definition numeric_column (default : option Z) (f : field Numeric.decimal) : checked Z :=
  match f with
  | Omitted => need not_null default
  | Null => inl not_null
  | Value d => need overflow (Numeric.of_decimal d)
  end.

(** A nullable column. *)
Definition nullable_column {A} (default : option A) (f : field A) : option A :=
  match f with
  | Omitted => default
  | Null => None
  | Value a => Some a
  end.

Definition has_key {A} (key : A -> uuid) (k : uuid) (l : list A) : bool :=
  existsb (fun r => String.eqb (key r) k) l.

Definition build_bill (k : call) (new : bills.Insert) : checked bills.row :=
  (cid <- not_null_column None (bills.new_customer_id new) ;;
   meter <- not_null_column None (bills.new_meter_number new) ;;
   prev <- numeric_column (Some 0) (bills.new_previous_reading new) ;;
   cur <- numeric_column None (bills.new_current_reading new) ;;
   rate <- numeric_column (Some Numeric.default_rate) (bills.new_rate_per_unit new) ;;
   month <- not_null_column None (bills.new_bill_month new) ;;
   due <- not_null_column None (bills.new_due_date new) ;;
   units <- need overflow (bills.generated_units_consumed prev cur) ;;
   amt <- need overflow (bills.generated_amount prev cur rate) ;;
   let st := nullable_column (Some "pending") (bills.new_status new) in
   _ <- ensure check_violation (check_in st bills.statuses) ;;
   inr {| bills.id := fresh k; bills.customer_id := cid; bills.meter_number := meter;
          bills.previous_reading := prev; bills.current_reading := cur;
          bills.units_consumed := units; bills.rate_per_unit := rate;
          bills.amount := amt; bills.bill_month := month; bills.due_date := due;
          bills.status := st; bills.created_at := now k;
          bills.updated_at := now k |})%checked.

Definition build_payment (k : call) (new : payments.Insert) : checked payments.row :=
  (bid <- not_null_column None (payments.new_bill_id new) ;;
   cid <- not_null_column None (payments.new_customer_id new) ;;
   amt <- numeric_column None (payments.new_amount new) ;;
   method <- not_null_column None (payments.new_payment_method new) ;;
   _ <- ensure check_violation (text_in method payments.methods) ;;
   let st := nullable_column (Some "completed") (payments.new_status new) in
   _ <- ensure check_violation (check_in st payments.statuses) ;;
   inr {| payments.id := fresh k; payments.bill_id := bid; payments.customer_id := cid;
          payments.amount := amt; payments.payment_method := method;
          payments.transaction_id := nullable_column None (payments.new_transaction_id new);
          payments.payment_date := now k; payments.status := st;
          payments.created_at := now k |})%checked.

Definition build_complaint (k : call) (new : complaints.Insert) : checked complaints.row :=
  (cid <- not_null_column None (complaints.new_customer_id new) ;;
   subj <- not_null_column None (complaints.new_subject new) ;;
   descr <- not_null_column None (complaints.new_description new) ;;
   let st := nullable_column (Some "open") (complaints.new_status new) in
   _ <- ensure check_violation (check_in st complaints.statuses) ;;
   let prio := nullable_column (Some "medium") (complaints.new_priority new) in
   _ <- ensure check_violation (check_in prio complaints.priorities) ;;
   inr {| complaints.id := fresh k; complaints.customer_id := cid;
          complaints.subject := subj; complaints.description := descr;
          complaints.status := st; complaints.priority := prio;
          complaints.admin_response :=
            nullable_column None (complaints.new_admin_response new);
          complaints.created_at := now k; complaints.updated_at := now k |})%checked.

(** ** Statements *)

Definition statement (A : Type) : Type := database -> database * response A.

(** A request that does not get through changes nothing. *)
Definition served {A} (k : call) (run : statement A) : statement A :=
  fun db =>
    match transport k with
    | Some e => (db, refuse e)
    | None => run db
    end.

(** [from('bills').insert([new])] *)
Definition insert_bill (k : call) (new : bills.Insert) : statement unit :=
  served k (fun db =>
    match build_bill k new with
    | inl msg => (db, fail msg)
    | inr b =>
        if has_key bills.id (bills.id b) (tbl_bills db) then (db, fail duplicate_key)
        else if negb (has_key profiles.id (bills.customer_id b) (tbl_profiles db))
        then (db, fail foreign_key)
        else (with_bills (tbl_bills db ++ [b]) db, succeed tt)
    end).

(** [from('payments').insert([new])] *)
Definition insert_payment (k : call) (new : payments.Insert) : statement unit :=
  served k (fun db =>
    match build_payment k new with
    | inl msg => (db, fail msg)
    | inr p =>
        if has_key payments.id (payments.id p) (tbl_payments db)
        then (db, fail duplicate_key)
        else if negb (has_key bills.id (payments.bill_id p) (tbl_bills db))
        then (db, fail foreign_key)
        else if negb (has_key profiles.id (payments.customer_id p) (tbl_profiles db))
        then (db, fail foreign_key)
        else (with_payments (tbl_payments db ++ [p]) db, succeed tt)
    end).

(** [from('complaints').insert([new])] *)
Definition insert_complaint (k : call) (new : complaints.Insert) : statement unit :=
  served k (fun db =>
    match build_complaint k new with
    | inl msg => (db, fail msg)
    | inr c =>
        if has_key complaints.id (complaints.id c) (tbl_complaints db)
        then (db, fail duplicate_key)
        else if negb (has_key profiles.id (complaints.customer_id c) (tbl_profiles db))
        then (db, fail foreign_key)
        else (with_complaints (tbl_complaints db ++ [c]) db, succeed tt)
    end).

(** The policy "Admins can update bills", the only UPDATE policy of the
    table: [USING (EXISTS (SELECT 1 FROM profiles WHERE user_id = auth.uid()
    AND is_admin = TRUE))]. *)
Definition admins_can_update_bills (k : call) (db : database) : bool :=
  existsb (fun p => String.eqb (profiles.user_id p) (auth_uid k)
                    && match profiles.is_admin p with
                       | Some true => true
                       | _ => false
                       end)
          (tbl_profiles db).

(** [from('bills').update({ status }).eq('id', target)].  Row level security
    is enabled on the table: for a caller the policy does not pass, the
    statement sees no row, rewrites none and raises nothing.  The trigger
    [update_bills_updated_at] stamps every row the statement rewrites.  The
    generated columns depend on columns the statement leaves alone. *)
Definition update_bill_status (k : call) (s : string) (target : uuid) : statement unit :=
  served k (fun db =>
    if negb (admins_can_update_bills k db) then (db, succeed tt)
    else if has_key bills.id target (tbl_bills db) && negb (text_in s bills.statuses)
    then (db, fail check_violation)
    else (with_bills
            (map (fun b => if String.eqb (bills.id b) target
                           then bills.with_status (Some s) (now k) b else b)
                 (tbl_bills db)) db,
          succeed tt)).

(** [from('complaints').update({ status, admin_response }).eq('id', target)];
    the trigger [update_complaints_updated_at] stamps the rewritten rows.  The
    statement is issued from the admin dashboard only, and "Admins can update
    all complaints" lets an administrator rewrite every row. *)
Definition update_complaint (k : call) (u : complaints.Update) (target : uuid)
  : statement unit :=
  served k (fun db =>
    if has_key complaints.id target (tbl_complaints db)
       && negb (text_in (complaints.set_status u) complaints.statuses)
    then (db, fail check_violation)
    else (with_complaints
            (map (fun c => if String.eqb (complaints.id c) target
                           then complaints.updated u (now k) c else c)
                 (tbl_complaints db)) db,
          succeed tt)).

(** The trigger [on_auth_user_created] running [handle_new_user]: the name is
    [COALESCE(meta ->> 'full_name', email)]. *)
Definition handle_new_user (k : call) (new_user : uuid)
    (meta_full_name email meta_phone_number : option string) : statement unit :=
  served k (fun db =>
    match (match meta_full_name with Some n => Some n | None => email end) with
    | None => (db, fail not_null)
    | Some name =>
        if has_key profiles.id (fresh k) (tbl_profiles db) then (db, fail duplicate_key)
        else (with_profiles
                (tbl_profiles db ++
                 [{| profiles.id := fresh k; profiles.user_id := new_user;
                     profiles.full_name := name;
                     profiles.phone_number := meta_phone_number;
                     profiles.address := None; profiles.meter_number := None;
                     profiles.is_admin := Some false;
                     profiles.created_at := now k; profiles.updated_at := now k |}]) db,
              succeed tt)
    end).

(** ** Reads *)

(** [ORDER BY key DESC]: rows of equal key keep their order. *)
Fixpoint insert_desc {A} (key : A -> Z) (x : A) (l : list A) : list A :=
  match l with
  | [] => [x]
  | y :: l' => if key y <=? key x then x :: l else y :: insert_desc key x l'
  end.

Definition order_desc {A} (key : A -> Z) (l : list A) : list A :=
  fold_right (insert_desc key) [] l.

(** A read leaves the tables as they are. *)
Definition select {A} (k : call) (table : database -> list A)
    (where_ : A -> bool) (order : list A -> list A) : statement (list A) :=
  served k (fun db => (db, succeed (order (filter where_ (table db))))).

Definition unordered {A} (l : list A) : list A := l.

(** ** The client side: numbers, notifications and asynchronous handlers *)

(** A [number] of the client is a binary64 float.  A [DECIMAL(10,2)] column
    arrives as the number nearest to its decimal numeral: both the count of
    hundredths (below [10 ^ 10]) and one hundred are floats, and the division
    rounds to nearest. *)
Definition number_of_numeric (h : Z) : float :=
  let q := (PrimFloat.of_uint63 (Uint63.of_Z (Z.abs h)) / 100)%float in
  if h <? 0 then (- q)%float else q.

Record Toast := { title : string; description : string; variant : option string }.

Definition success (text : string) : Toast :=
  {| title := "Success"; description := text; variant := None |}.

Definition failure (text : string) : Toast :=
  {| title := "Error"; description := text; variant := Some "destructive" |}.

(** An [async] function over the tables and the state [S] of a component:
    it either completes or throws. *)
Section Task.

Context {S : Type}.

Definition task (A : Type) : Type :=
  database * S -> (database * S) * (PostgrestError + A).

Definition ret {A} (a : A) : task A := fun w => (w, inr a).

Definition and_then {A B} (t : task A) (f : A -> task B) : task B :=
  fun w =>
    let '(w', r) := t w in
    match r with
    | inl e => (w', inl e)
    | inr a => f a w'
    end.

Definition throw {A} (e : PostgrestError) : task A := fun w => (w, inl e).

(** [try { t } catch (error) { h error }] *)
Definition try_catch (t : task unit) (h : PostgrestError -> task unit) : task unit :=
  fun w =>
    let '(w', r) := t w in
    match r with
    | inl e => h e w'
    | inr a => (w', inr a)
    end.

(** [try { t } finally { f }] *)
Definition try_finally (t : task unit) (f : task unit) : task unit :=
  fun w =>
    let '(w', r) := t w in
    let '(w'', r') := f w' in
    match r' with
    | inl e => (w'', inl e)
    | inr _ => (w'', r)
    end.

(** [await] of a call: the call resolves, also when it carries an error. *)
Definition await {A} (q : statement A) : task (response A) :=
  fun w =>
    let '(db', r) := q (fst w) in
    ((db', snd w), inr r).

Definition set_state (f : S -> S) : task unit :=
  fun w => ((fst w, f (snd w)), inr tt).

(** [if (error) throw error] *)
Definition throw_if_error {A} (r : response A) : task unit :=
  match error r with
  | Some e => throw e
  | None => ret tt
  end.

(** Running an event handler to its end. *)
Definition run (t : task unit) (db : database) (s : S) : database * S :=
  fst (t (db, s)).

End Task.

Declare Scope task_scope.
Delimit Scope task_scope with task.
Notation "x <- c ;; k" := (and_then c (fun x => k))
  (at level 100, c at next level, right associativity) : task_scope.
Notation "c ;;; k" := (and_then c (fun _ => k))
  (at level 100, right associativity) : task_scope.

(** [data || []] *)
Definition or_empty {A} (d : option (list A)) : list A :=
  match d with
  | Some l => l
  | None => []
  end.

(** ** CustomerDashboard.tsx *)

Module CustomerDashboard.

Module Bill.
Record t := {
  id : string;
  meter_number : string;
  previous_reading : float;
  current_reading : float;
  units_consumed : float;
  amount : float;
  bill_month : string;
  due_date : string;
  status : option string;
  created_at : timestamp
}.

Definition of_row (r : bills.row) : t :=
  {| id := bills.id r; meter_number := bills.meter_number r;
     previous_reading := number_of_numeric (bills.previous_reading r);
     current_reading := number_of_numeric (bills.current_reading r);
     units_consumed := number_of_numeric (bills.units_consumed r);
     amount := number_of_numeric (bills.amount r);
     bill_month := bills.bill_month r; due_date := bills.due_date r;
     status := bills.status r; created_at := bills.created_at r |}.
End Bill.

Module Payment.
Record t := {
  id : string;
  amount : float;
  payment_method : string;
  transaction_id : option string;
  payment_date : timestamp;
  status : option string
}.

Definition of_row (r : payments.row) : t :=
  {| id := payments.id r; amount := number_of_numeric (payments.amount r);
     payment_method := payments.payment_method r;
     transaction_id := payments.transaction_id r;
     payment_date := payments.payment_date r; status := payments.status r |}.
End Payment.

Module Complaint.
Record t := {
  id : string;
  subject : string;
  description : string;
  status : option string;
  priority : option string;
  admin_response : option string;
  created_at : timestamp
}.

Definition of_row (r : complaints.row) : t :=
  {| id := complaints.id r; subject := complaints.subject r;
     description := complaints.description r; status := complaints.status r;
     priority := complaints.priority r;
     admin_response := complaints.admin_response r;
     created_at := complaints.created_at r |}.
End Complaint.

Record PaymentData := {
  bill_id : string;
  amount : string;
  payment_method : string;
  transaction_id : string
}.

Record ComplaintData := { subject : string; description : string; priority : string }.

Record state := {
  bills : list Bill.t;
  payments : list Payment.t;
  complaints : list Complaint.t;
  loading : bool;
  paymentData : PaymentData;
  complaintData : ComplaintData;
  toasts : list Toast
}.

Definition emptyPaymentData : PaymentData :=
  {| bill_id := ""; amount := ""; payment_method := ""; transaction_id := "" |}.

Definition initialComplaintData : ComplaintData :=
  {| subject := ""; description := ""; priority := "medium" |}.

(** The state of the first render. *)
Definition initial : state :=
  {| bills := []; payments := []; complaints := []; loading := false;
     paymentData := emptyPaymentData; complaintData := initialComplaintData;
     toasts := [] |}.

Definition setBills (l : list Bill.t) (s : state) : state :=
  {| bills := l; payments := payments s; complaints := complaints s;
     loading := loading s; paymentData := paymentData s;
     complaintData := complaintData s; toasts := toasts s |}.

Definition setPayments (l : list Payment.t) (s : state) : state :=
  {| bills := bills s; payments := l; complaints := complaints s;
     loading := loading s; paymentData := paymentData s;
     complaintData := complaintData s; toasts := toasts s |}.

Definition setComplaints (l : list Complaint.t) (s : state) : state :=
  {| bills := bills s; payments := payments s; complaints := l;
     loading := loading s; paymentData := paymentData s;
     complaintData := complaintData s; toasts := toasts s |}.

Definition setLoading (b : bool) (s : state) : state :=
  {| bills := bills s; payments := payments s; complaints := complaints s;
     loading := b; paymentData := paymentData s;
     complaintData := complaintData s; toasts := toasts s |}.

Definition setPaymentData (d : PaymentData) (s : state) : state :=
  {| bills := bills s; payments := payments s; complaints := complaints s;
     loading := loading s; paymentData := d;
     complaintData := complaintData s; toasts := toasts s |}.

Definition setComplaintData (d : ComplaintData) (s : state) : state :=
  {| bills := bills s; payments := payments s; complaints := complaints s;
     loading := loading s; paymentData := paymentData s;
     complaintData := d; toasts := toasts s |}.

Definition toast (t : Toast) (s : state) : state :=
  {| bills := bills s; payments := payments s; complaints := complaints s;
     loading := loading s; paymentData := paymentData s;
     complaintData := complaintData s; toasts := toasts s ++ [t] |}.

(** The three reads of one [fetchData]. *)
Record fetches := { on_bills : call; on_payments : call; on_complaints : call }.

Definition select_bills (k : call) (customer : uuid) : statement (list bills.row) :=
  select k tbl_bills (fun b => String.eqb (bills.customer_id b) customer)
         (order_desc bills.created_at).

Definition select_payments (k : call) (customer : uuid)
  : statement (list payments.row) :=
  select k tbl_payments (fun p => String.eqb (payments.customer_id p) customer)
         (order_desc payments.payment_date).

Definition select_complaints (k : call) (customer : uuid)
  : statement (list complaints.row) :=
  select k tbl_complaints (fun c => String.eqb (complaints.customer_id c) customer)
         (order_desc complaints.created_at).

Section Handlers.

(** [useProfile()]: the profile of the signed-in user, when it is loaded. *)
Variable profile : option profiles.row.

(** [parseFloat s] as the request body will carry it: [None] for [NaN]
    and the infinities, else the decimal numeral of the number. *)
Variable parseFloat : string -> option Numeric.decimal.

(** [profile?.id]: [undefined] leaves the key out. *)
Definition profile_id : field uuid :=
  match profile with
  | Some p => Value (profiles.id p)
  | None => Omitted
  end.

Definition fetchData (f : fetches) : task unit :=
  match profile with
  | None => ret tt
  | Some p =>
      (set_state (setLoading true) ;;;
       try_finally
         (try_catch
            (billsData <- await (select_bills (on_bills f) (profiles.id p)) ;;
             set_state (setBills (map Bill.of_row (or_empty (data billsData)))) ;;;
             paymentsData <- await (select_payments (on_payments f) (profiles.id p)) ;;
             set_state
               (setPayments (map Payment.of_row (or_empty (data paymentsData)))) ;;;
             complaintsData <-
               await (select_complaints (on_complaints f) (profiles.id p)) ;;
             set_state
               (setComplaints
                  (map Complaint.of_row (or_empty (data complaintsData)))))
            (fun _ => set_state (toast (failure "Failed to fetch data"))))
         (set_state (setLoading false)))%task
  end.

(** The row [makePayment] sends: five keys, the date and the status are
    left to the defaults of the table. *)
Definition paymentPayload (paymentData : PaymentData) : payments.Insert :=
  {| payments.new_bill_id := Value (bill_id paymentData);
     payments.new_customer_id := profile_id;
     payments.new_amount := number_key (parseFloat (amount paymentData));
     payments.new_payment_method := Value (payment_method paymentData);
     payments.new_transaction_id := Value (transaction_id paymentData);
     payments.new_status := Omitted |}.

(** The handler reads the [paymentData] of the render it was created in.
    The closing [fetchData()] is started without [await]; it settles on its
    own, after the notification and the reset of the form. *)
Definition makePayment (on_insert on_update : call) (f : fetches) : task unit :=
  fun w =>
    let paymentData := paymentData (snd w) in
    try_catch
      (r <- await (insert_payment on_insert (paymentPayload paymentData)) ;;
       throw_if_error r ;;;
       _ <- await (update_bill_status on_update "paid" (bill_id paymentData)) ;;
       set_state (toast (success "Payment recorded successfully")) ;;;
       set_state (setPaymentData emptyPaymentData) ;;;
       fetchData f)%task
      (fun e => set_state (toast (failure (message e))))
      w.

(** The row [submitComplaint] sends: four keys, the status is left to
    the default of the table. *)
Definition complaintPayload (complaintData : ComplaintData) : complaints.Insert :=
  {| complaints.new_customer_id := profile_id;
     complaints.new_subject := Value (subject complaintData);
     complaints.new_description := Value (description complaintData);
     complaints.new_status := Omitted;
     complaints.new_priority := Value (priority complaintData);
     complaints.new_admin_response := Omitted |}.

Definition submitComplaint (on_insert : call) (f : fetches) : task unit :=
  fun w =>
    let complaintData := complaintData (snd w) in
    try_catch
      (r <- await (insert_complaint on_insert (complaintPayload complaintData)) ;;
       throw_if_error r ;;;
       set_state (toast (success "Complaint submitted successfully")) ;;;
       set_state (setComplaintData initialComplaintData) ;;;
       fetchData f)%task
      (fun e => set_state (toast (failure (message e))))
      w.

End Handlers.

(** [bills.filter(bill => bill.status === 'pending')] *)
Definition pendingBills (bills : list Bill.t) : list Bill.t :=
  filter (fun bill => is_text (Bill.status bill) "pending") bills.

(** [pendingBills.reduce((sum, bill) => sum + bill.amount, 0)] *)
Definition totalOutstanding (bills : list Bill.t) : float :=
  fold_left (fun sum bill => (sum + Bill.amount bill)%float) (pendingBills bills) 0%float.

(** The figure of the "Outstanding Bills" card: [pendingBills.length]. *)
Definition outstandingBills (bills : list Bill.t) : nat :=
  List.length (pendingBills bills).

(** The bills offered by the "Select bill to pay" list:
    [pendingBills.map(bill => <SelectItem value={bill.id}>)]. *)
Definition selectableBills (bills : list Bill.t) : list string :=
  map Bill.id (pendingBills bills).

(** The three inputs of the complaint dialog, each
    [setComplaintData(prev => ({ ...prev, key: value }))]. *)
Inductive ComplaintEdit :=
| EditSubject (value : string)
| EditDescription (value : string)
| EditPriority (value : string).

Definition editComplaint (e : ComplaintEdit) (s : state) : state :=
  let prev := complaintData s in
  setComplaintData
    match e with
    | EditSubject v =>
        {| subject := v; description := description prev; priority := priority prev |}
    | EditDescription v =>
        {| subject := subject prev; description := v; priority := priority prev |}
    | EditPriority v =>
        {| subject := subject prev; description := description prev; priority := v |}
    end s.

End CustomerDashboard.

(** ** AdminDashboard.tsx *)

Module AdminDashboard.

Module Customer.
Record t := {
  id : string;
  full_name : string;
  phone_number : option string;
  meter_number : option string;
  address : option string
}.

Definition of_row (r : profiles.row) : t :=
  {| id := profiles.id r; full_name := profiles.full_name r;
     phone_number := profiles.phone_number r;
     meter_number := profiles.meter_number r; address := profiles.address r |}.
End Customer.

(** The embedded [profiles(full_name)] of a row: the profile its
    [customer_id] refers to. *)
Definition embedded_profile (db : database) (customer : uuid) : option string :=
  option_map profiles.full_name
    (find (fun p => String.eqb (profiles.id p) customer) (tbl_profiles db)).

Module Bill.
Record t := {
  id : string;
  customer_id : string;
  meter_number : string;
  previous_reading : float;
  current_reading : float;
  units_consumed : float;
  amount : float;
  bill_month : string;
  due_date : string;
  status : option string;
  profiles : option string
}.

Definition of_row (r : bills.row * option string) : t :=
  {| id := bills.id (fst r); customer_id := bills.customer_id (fst r);
     meter_number := bills.meter_number (fst r);
     previous_reading := number_of_numeric (bills.previous_reading (fst r));
     current_reading := number_of_numeric (bills.current_reading (fst r));
     units_consumed := number_of_numeric (bills.units_consumed (fst r));
     amount := number_of_numeric (bills.amount (fst r));
     bill_month := bills.bill_month (fst r); due_date := bills.due_date (fst r);
     status := bills.status (fst r); profiles := snd r |}.
End Bill.

Module Payment.
Record t := {
  id : string;
  amount : float;
  payment_method : string;
  transaction_id : option string;
  payment_date : timestamp;
  status : option string;
  profiles : option string
}.

Definition of_row (r : payments.row * option string) : t :=
  {| id := payments.id (fst r); amount := number_of_numeric (payments.amount (fst r));
     payment_method := payments.payment_method (fst r);
     transaction_id := payments.transaction_id (fst r);
     payment_date := payments.payment_date (fst r);
     status := payments.status (fst r); profiles := snd r |}.
End Payment.

Module Complaint.
Record t := {
  id : string;
  subject : string;
  description : string;
  status : option string;
  priority : option string;
  admin_response : option string;
  created_at : timestamp;
  profiles : option string
}.

Definition of_row (r : complaints.row * option string) : t :=
  {| id := complaints.id (fst r); subject := complaints.subject (fst r);
     description := complaints.description (fst r);
     status := complaints.status (fst r); priority := complaints.priority (fst r);
     admin_response := complaints.admin_response (fst r);
     created_at := complaints.created_at (fst r); profiles := snd r |}.
End Complaint.

Record NewBill := {
  customer_id : string;
  meter_number : string;
  previous_reading : string;
  current_reading : string;
  bill_month : string;
  due_date : string
}.

(** The state the handlers below read or write; the text of the response
    boxes is handed to [updateComplaintStatus] as its argument. *)
Record state := {
  customers : list Customer.t;
  bills : list Bill.t;
  payments : list Payment.t;
  complaints : list Complaint.t;
  loading : bool;
  newBill : NewBill;
  toasts : list Toast
}.

Definition emptyNewBill : NewBill :=
  {| customer_id := ""; meter_number := ""; previous_reading := "";
     current_reading := ""; bill_month := ""; due_date := "" |}.

Definition initial : state :=
  {| customers := []; bills := []; payments := []; complaints := [];
     loading := false; newBill := emptyNewBill; toasts := [] |}.

Definition setCustomers (l : list Customer.t) (s : state) : state :=
  {| customers := l; bills := bills s; payments := payments s;
     complaints := complaints s; loading := loading s; newBill := newBill s;
     toasts := toasts s |}.

Definition setBills (l : list Bill.t) (s : state) : state :=
  {| customers := customers s; bills := l; payments := payments s;
     complaints := complaints s; loading := loading s; newBill := newBill s;
     toasts := toasts s |}.

Definition setPayments (l : list Payment.t) (s : state) : state :=
  {| customers := customers s; bills := bills s; payments := l;
     complaints := complaints s; loading := loading s; newBill := newBill s;
     toasts := toasts s |}.

Definition setComplaints (l : list Complaint.t) (s : state) : state :=
  {| customers := customers s; bills := bills s; payments := payments s;
     complaints := l; loading := loading s; newBill := newBill s;
     toasts := toasts s |}.

Definition setLoading (b : bool) (s : state) : state :=
  {| customers := customers s; bills := bills s; payments := payments s;
     complaints := complaints s; loading := b; newBill := newBill s;
     toasts := toasts s |}.

Definition setNewBill (n : NewBill) (s : state) : state :=
  {| customers := customers s; bills := bills s; payments := payments s;
     complaints := complaints s; loading := loading s; newBill := n;
     toasts := toasts s |}.

Definition toast (t : Toast) (s : state) : state :=
  {| customers := customers s; bills := bills s; payments := payments s;
     complaints := complaints s; loading := loading s; newBill := newBill s;
     toasts := toasts s ++ [t] |}.

(** The four reads of one [fetchData]. *)
Record fetches := {
  on_customers : call;
  on_bills : call;
  on_payments : call;
  on_complaints : call
}.

(** [.eq('is_admin', false)]: a NULL flag is not equal to [false]. *)
Definition select_customers (k : call) : statement (list profiles.row) :=
  select k tbl_profiles
         (fun p => match profiles.is_admin p with Some false => true | _ => false end)
         unordered.

(** A read with the embedded profile name. *)
Definition select_embedding {A} (k : call) (table : database -> list A)
    (customer : A -> uuid) (key : A -> Z) : statement (list (A * option string)) :=
  served k (fun db =>
    (db, succeed (map (fun r => (r, embedded_profile db (customer r)))
                      (order_desc key (table db))))).

Definition fetchData (f : fetches) : task unit :=
  (set_state (setLoading true) ;;;
   try_finally
     (try_catch
        (customersData <- await (select_customers (on_customers f)) ;;
         set_state (setCustomers (map Customer.of_row (or_empty (data customersData)))) ;;;
         billsData <-
           await (select_embedding (on_bills f) tbl_bills
                    bills.customer_id bills.created_at) ;;
         set_state (setBills (map Bill.of_row (or_empty (data billsData)))) ;;;
         paymentsData <-
           await (select_embedding (on_payments f) tbl_payments
                    payments.customer_id payments.payment_date) ;;
         set_state (setPayments (map Payment.of_row (or_empty (data paymentsData)))) ;;;
         complaintsData <-
           await (select_embedding (on_complaints f) tbl_complaints
                    complaints.customer_id complaints.created_at) ;;
         set_state
           (setComplaints (map Complaint.of_row (or_empty (data complaintsData)))))
        (fun _ => set_state (toast (failure "Failed to fetch data"))))
     (set_state (setLoading false)))%task.

Section Handlers.

(** [parseFloat s] as the request body will carry it: [None] for [NaN]
    and the infinities, else the decimal numeral of the number. *)
Variable parseFloat : string -> option Numeric.decimal.

(** The payload of [createBill]: six keys, the rate and the status are
    left to the defaults of the table. *)
Definition billPayload (newBill : NewBill) : bills.Insert :=
  {| bills.new_customer_id := Value (customer_id newBill);
     bills.new_meter_number := Value (meter_number newBill);
     bills.new_previous_reading := number_key (parseFloat (previous_reading newBill));
     bills.new_current_reading := number_key (parseFloat (current_reading newBill));
     bills.new_rate_per_unit := Omitted;
     bills.new_bill_month := Value (bill_month newBill);
     bills.new_due_date := Value (due_date newBill);
     bills.new_status := Omitted |}.

Definition createBill (on_insert : call) (f : fetches) : task unit :=
  fun w =>
    let newBill := newBill (snd w) in
    try_catch
      (r <- await (insert_bill on_insert (billPayload newBill)) ;;
       throw_if_error r ;;;
       set_state (toast (success "Bill created successfully")) ;;;
       set_state (setNewBill emptyNewBill) ;;;
       fetchData f)%task
      (fun e => set_state (toast (failure (message e))))
      w.

End Handlers.

Definition updateComplaintStatus (complaintId status response : string)
    (on_update : call) (f : fetches) : task unit :=
  try_catch
    (r <- await
            (update_complaint on_update
               {| complaints.set_status := status;
                  complaints.set_admin_response := response |}
               complaintId) ;;
     throw_if_error r ;;;
     set_state (toast (success "Complaint updated successfully")) ;;;
     fetchData f)%task
    (fun e => set_state (toast (failure (message e)))).

Record Stats := {
  totalCustomers : nat;
  totalBills : nat;
  totalRevenue : float;
  pendingComplaints : nat
}.

Definition stats (s : state) : Stats :=
  {| totalCustomers := List.length (customers s);
     totalBills := List.length (bills s);
     totalRevenue :=
       fold_left (fun sum payment => (sum + Payment.amount payment)%float)
                 (payments s) 0%float;
     pendingComplaints :=
       List.length (filter (fun c => is_text (Complaint.status c) "open")
                           (complaints s)) |}.

End AdminDashboard.

(** * Properties *)

(** ** Rounding *)

Section Rounding.

Import Numeric.

Lemma round_half_away_error (n d : Z) :
  0 < d -> 2 * Z.abs (d * round_half_away n d - n) <= d.
Proof.
  intros Hd. unfold round_half_away.
  pose proof (Z.mul_div_le (2 * Z.abs n + d) (2 * d) ltac:(lia)) as Hle.
  pose proof (Z.mul_succ_div_gt (2 * Z.abs n + d) (2 * d) ltac:(lia)) as Hgt.
  set (q := (2 * Z.abs n + d) / (2 * d)) in *.
  destruct (Z.sgn_spec n) as [[Hn ->] | [[Hn ->] | [Hn ->]]]; nia.
Qed.

Lemma round_half_away_exact (n d : Z) :
  0 < d -> (d | n) -> d * round_half_away n d = n.
Proof.
  intros Hd [k ->]. unfold round_half_away.
  rewrite Z.abs_mul, (Z.abs_eq d) by lia.
  replace (2 * (Z.abs k * d) + d) with (d + Z.abs k * (2 * d)) by ring.
  rewrite Z.div_add by lia.
  rewrite (Z.div_small d (2 * d)) by lia.
  rewrite Z.sgn_mul, (Z.sgn_pos d) by lia.
  pose proof (Z.abs_sgn k). nia.
Qed.

Lemma fits_opp (h : Z) : fits (- h) = fits h.
Proof. unfold fits. now rewrite Z.abs_opp. Qed.

Lemma coerce_some (h v : Z) : coerce h = Some v -> v = h /\ Z.abs h < limit.
Proof.
  unfold coerce, fits. destruct (Z.ltb_spec (Z.abs h) limit); intros E;
    inversion E; subst; auto.
Qed.

(** At the default rate the amount is fifty times the consumption, with
    nothing to round. *)
Lemma default_rate_amount (x : Z) :
  scale4_to_scale2 (x * default_rate) = 50 * x.
Proof.
  unfold scale4_to_scale2, default_rate.
  pose proof (round_half_away_exact (x * 5000) 100 ltac:(lia)) as H.
  assert (Hdiv : (100 | x * 5000)) by (exists (x * 50); ring).
  specialize (H Hdiv). lia.
Qed.

End Rounding.

(** ** Requests and the states they lead to *)

(** The writes that reach the tables: the registration trigger and the
    statements of the two dashboards. *)
Inductive request :=
| NewUser (new_user : uuid) (meta_full_name email meta_phone_number : option string)
| InsertBill (new : bills.Insert)
| InsertPayment (new : payments.Insert)
| InsertComplaint (new : complaints.Insert)
| UpdateBillStatus (s : string) (target : uuid)
| UpdateComplaint (u : complaints.Update) (target : uuid).

Definition execute (k : call) (r : request) : statement unit :=
  match r with
  | NewUser u n e p => handle_new_user k u n e p
  | InsertBill new => insert_bill k new
  | InsertPayment new => insert_payment k new
  | InsertComplaint new => insert_complaint k new
  | UpdateBillStatus s target => update_bill_status k s target
  | UpdateComplaint u target => update_complaint k u target
  end.

Inductive reachable : database -> Prop :=
| reachable_empty : reachable empty_database
| reachable_step (db : database) (k : call) (r : request) :
    reachable db -> reachable (fst (execute k r db)).

(** Runs a sequence of requests, each with its own surroundings. *)
Definition replay (l : list (call * request)) (db : database) : database :=
  fold_left (fun d kr => fst (execute (fst kr) (snd kr) d)) l db.

Lemma replay_reachable (l : list (call * request)) (db : database) :
  reachable db -> reachable (replay l db).
Proof.
  revert db. induction l as [| [k r] l IH]; intros db H; cbn; auto.
  apply IH. now apply reachable_step.
Qed.

(** ** What a bill row holds *)

Definition bill_generated (b : bills.row) : Prop :=
  bills.units_consumed b = bills.current_reading b - bills.previous_reading b
  /\ bills.amount b =
     Numeric.scale4_to_scale2
       ((bills.current_reading b - bills.previous_reading b) * bills.rate_per_unit b).

Ltac invert_checked H :=
  repeat match type of H with
         | bind ?c _ = inr _ =>
             let E := fresh "E" in
             destruct c eqn:E; cbn [bind] in H; [discriminate H |]
         end.

Lemma build_bill_generated (k : call) (new : bills.Insert) (b : bills.row) :
  build_bill k new = inr b -> bill_generated b.
Proof.
  unfold build_bill. intros H. invert_checked H.
  inversion H; subst; clear H. unfold bill_generated; cbn.
  unfold bills.generated_units_consumed, bills.generated_amount, need in *.
  repeat match goal with
         | H : match ?o with Some _ => _ | None => _ end = inr _ |- _ =>
             destruct o eqn:?; [inversion H; subst; clear H | discriminate H]
         end.
  repeat match goal with
         | H : Numeric.coerce _ = Some _ |- _ =>
             apply coerce_some in H; destruct H as [-> _]
         end.
  split; reflexivity.
Qed.

(** ** Keys *)

Lemma has_key_false {A} (key : A -> uuid) (k : uuid) (l : list A) :
  has_key key k l = false -> ~ In k (map key l).
Proof.
  unfold has_key. intros H Hin. apply in_map_iff in Hin as [r [Hr Hin]].
  assert (existsb (fun r => String.eqb (key r) k) l = true) as Ht.
  { apply existsb_exists. exists r. split; auto. now apply String.eqb_eq. }
  congruence.
Qed.

Lemma NoDup_keys_snoc {A} (key : A -> uuid) (l : list A) (x : A) :
  NoDup (map key l) -> has_key key (key x) l = false -> NoDup (map key (l ++ [x])).
Proof.
  intros Hnd Hk. rewrite map_app. cbn.
  apply NoDup_app; auto.
  - constructor; [intros [] | constructor].
  - intros a Ha [<- | []]. now apply has_key_false in Hk.
Qed.

Lemma map_key_rewrite {A} (key : A -> uuid) (f : A -> A) (target : uuid) (l : list A) :
  (forall r, key (f r) = key r) ->
  map key (map (fun r => if String.eqb (key r) target then f r else r) l) = map key l.
Proof.
  intros Hf. rewrite map_map. apply map_ext. intros r.
  destruct (String.eqb (key r) target); auto.
Qed.

Lemma has_key_in {A} (key : A -> uuid) (k : uuid) (l : list A) :
  has_key key k l = true <-> exists r, In r l /\ key r = k.
Proof.
  unfold has_key. rewrite existsb_exists. split; intros [r [Hin Hr]]; exists r;
    (split; [exact Hin |]); now apply String.eqb_eq.
Qed.

Lemma has_key_map {A} (key : A -> uuid) (k : uuid) (l : list A) :
  has_key key k l = true <-> In k (map key l).
Proof.
  rewrite has_key_in, in_map_iff. split; intros [r [H1 H2]]; exists r; auto.
Qed.

Lemma has_key_not_map {A} (key : A -> uuid) (k : uuid) (l : list A) :
  has_key key k l = false <-> ~ In k (map key l).
Proof.
  rewrite <- has_key_map. destruct (has_key key k l); split; congruence.
Qed.

Lemma fits_bound (h : Z) : Numeric.fits h = true <-> Z.abs h < 10 ^ 10.
Proof. unfold Numeric.fits, Numeric.limit. apply Z.ltb_lt. Qed.

(** ** The outcome of each statement *)

Lemma served_refused {A} (k : call) (run : statement A) (db : database)
    (e : PostgrestError) :
  transport k = Some e -> served k run db = (db, refuse e).
Proof. unfold served. now intros ->. Qed.

Lemma served_through {A} (k : call) (run : statement A) (db : database) :
  transport k = None -> served k run db = run db.
Proof. unfold served. now intros ->. Qed.

Lemma insert_bill_outcome (k : call) (new : bills.Insert) (db : database) :
  (fst (insert_bill k new db) = db /\ error (snd (insert_bill k new db)) <> None)
  \/ (exists b, build_bill k new = inr b
                /\ transport k = None
                /\ has_key bills.id (bills.id b) (tbl_bills db) = false
                /\ has_key profiles.id (bills.customer_id b) (tbl_profiles db) = true
                /\ insert_bill k new db = (with_bills (tbl_bills db ++ [b]) db, succeed tt)).
Proof.
  unfold insert_bill, served.
  destruct (transport k); [left; cbn; split; [auto | discriminate] |].
  destruct (build_bill k new) as [msg | b] eqn:Eb;
    [left; cbn; split; [auto | discriminate] |].
  destruct (has_key bills.id (bills.id b) (tbl_bills db)) eqn:Ek;
    [left; cbn; split; [auto | discriminate] |].
  destruct (has_key profiles.id (bills.customer_id b) (tbl_profiles db)) eqn:Ep; cbn;
    [| left; cbn; split; [auto | discriminate]].
  right. exists b. auto.
Qed.

Lemma insert_payment_outcome (k : call) (new : payments.Insert) (db : database) :
  (fst (insert_payment k new db) = db /\ error (snd (insert_payment k new db)) <> None)
  \/ (exists p, build_payment k new = inr p
                /\ transport k = None
                /\ has_key payments.id (payments.id p) (tbl_payments db) = false
                /\ has_key bills.id (payments.bill_id p) (tbl_bills db) = true
                /\ has_key profiles.id (payments.customer_id p) (tbl_profiles db) = true
                /\ insert_payment k new db =
                   (with_payments (tbl_payments db ++ [p]) db, succeed tt)).
Proof.
  unfold insert_payment, served.
  destruct (transport k); [left; cbn; split; [auto | discriminate] |].
  destruct (build_payment k new) as [msg | p] eqn:Eb;
    [left; cbn; split; [auto | discriminate] |].
  destruct (has_key payments.id (payments.id p) (tbl_payments db)) eqn:Ek;
    [left; cbn; split; [auto | discriminate] |].
  destruct (has_key bills.id (payments.bill_id p) (tbl_bills db)) eqn:Ebill; cbn;
    [| left; cbn; split; [auto | discriminate]].
  destruct (has_key profiles.id (payments.customer_id p) (tbl_profiles db)) eqn:Ep; cbn;
    [| left; cbn; split; [auto | discriminate]].
  right. exists p. auto 10.
Qed.

Lemma insert_complaint_outcome (k : call) (new : complaints.Insert) (db : database) :
  (fst (insert_complaint k new db) = db
   /\ error (snd (insert_complaint k new db)) <> None)
  \/ (exists c, build_complaint k new = inr c
                /\ transport k = None
                /\ has_key complaints.id (complaints.id c) (tbl_complaints db) = false
                /\ has_key profiles.id (complaints.customer_id c) (tbl_profiles db) = true
                /\ insert_complaint k new db =
                   (with_complaints (tbl_complaints db ++ [c]) db, succeed tt)).
Proof.
  unfold insert_complaint, served.
  destruct (transport k); [left; cbn; split; [auto | discriminate] |].
  destruct (build_complaint k new) as [msg | c] eqn:Eb;
    [left; cbn; split; [auto | discriminate] |].
  destruct (has_key complaints.id (complaints.id c) (tbl_complaints db)) eqn:Ek;
    [left; cbn; split; [auto | discriminate] |].
  destruct (has_key profiles.id (complaints.customer_id c) (tbl_profiles db)) eqn:Ep; cbn;
    [| left; cbn; split; [auto | discriminate]].
  right. exists c. auto.
Qed.

Definition rewrite_bills (k : call) (s : string) (target : uuid) (db : database)
  : database :=
  if admins_can_update_bills k db
  then with_bills
         (map (fun b => if String.eqb (bills.id b) target
                        then bills.with_status (Some s) (now k) b else b)
              (tbl_bills db)) db
  else db.

Lemma update_bill_status_outcome (k : call) (s : string) (target : uuid)
    (db : database) :
  (fst (update_bill_status k s target db) = db
   /\ error (snd (update_bill_status k s target db)) <> None)
  \/ (transport k = None
      /\ update_bill_status k s target db = (rewrite_bills k s target db, succeed tt)).
Proof.
  unfold update_bill_status, served, rewrite_bills.
  destruct (transport k); [left; cbn; split; [auto | discriminate] |].
  destruct (admins_can_update_bills k db); cbn [negb]; [| right; auto].
  destruct (has_key bills.id target (tbl_bills db) && negb (text_in s bills.statuses));
    [left; cbn; split; [auto | discriminate] | right; auto].
Qed.

(** The policy reads the profiles only. *)
Lemma policy_with_payments (k : call) (l : list payments.row) (db : database) :
  admins_can_update_bills k (with_payments l db) = admins_can_update_bills k db.
Proof. reflexivity. Qed.

(** The statement of [makePayment]: ['paid'] is a status the table admits, so
    the update raises nothing of its own. *)
Lemma update_bill_status_paid (k : call) (target : uuid) (db : database) :
  update_bill_status k "paid" target db =
  match transport k with
  | Some e => (db, refuse e)
  | None =>
      if admins_can_update_bills k db
      then (with_bills
              (map (fun b => if String.eqb (bills.id b) target
                             then bills.with_status (Some "paid") (now k) b else b)
                   (tbl_bills db)) db,
            succeed tt)
      else (db, succeed tt)
  end.
Proof.
  unfold update_bill_status, served.
  destruct (transport k); [reflexivity |].
  destruct (admins_can_update_bills k db); cbn [negb]; [| reflexivity].
  change (text_in "paid" bills.statuses) with true. cbn [negb].
  now rewrite andb_false_r.
Qed.


Definition rewrite_complaints (k : call) (u : complaints.Update) (target : uuid)
    (db : database) : database :=
  with_complaints
    (map (fun c => if String.eqb (complaints.id c) target
                   then complaints.updated u (now k) c else c)
         (tbl_complaints db)) db.

Lemma update_complaint_outcome (k : call) (u : complaints.Update) (target : uuid)
    (db : database) :
  (fst (update_complaint k u target db) = db
   /\ error (snd (update_complaint k u target db)) <> None)
  \/ (transport k = None
      /\ update_complaint k u target db = (rewrite_complaints k u target db, succeed tt)).
Proof.
  unfold update_complaint, served, rewrite_complaints.
  destruct (transport k); [left; cbn; split; [auto | discriminate] |].
  destruct (has_key complaints.id target (tbl_complaints db)
            && negb (text_in (complaints.set_status u) complaints.statuses));
    [left; cbn; split; [auto | discriminate] | right; auto].
Qed.

(** No statement of the application makes an administrator: in the states
    the requests reach from the empty tables, the policy passes nobody. *)
Lemma reachable_no_admin (db : database) :
  reachable db ->
  Forall (fun p => profiles.is_admin p = Some false) (tbl_profiles db).
Proof.
  induction 1 as [| db k r Hreach IH]; [constructor |].
  destruct r as [uid name email phone | new | new | new | s target | change target];
    cbn [execute].
  - unfold handle_new_user, served.
    destruct (transport k); [exact IH |].
    destruct (match name with Some n => Some n | None => email end); [| exact IH].
    destruct (has_key profiles.id (fresh k) (tbl_profiles db)); [exact IH |].
    cbn. apply Forall_app. split; [exact IH |]. constructor; [reflexivity | constructor].
  - destruct (insert_bill_outcome k new db) as [[-> _] | [b [_ [_ [_ [_ ->]]]]]];
      exact IH.
  - destruct (insert_payment_outcome k new db)
      as [[-> _] | [p [_ [_ [_ [_ [_ ->]]]]]]]; exact IH.
  - destruct (insert_complaint_outcome k new db) as [[-> _] | [c [_ [_ [_ [_ ->]]]]]];
      exact IH.
  - destruct (update_bill_status_outcome k s target db) as [[-> _] | [_ ->]];
      [exact IH |].
    unfold rewrite_bills. destruct (admins_can_update_bills k db); exact IH.
  - destruct (update_complaint_outcome k change target db) as [[-> _] | [_ ->]];
      exact IH.
Qed.

Lemma reachable_policy_fails (db : database) (k : call) :
  reachable db -> admins_can_update_bills k db = false.
Proof.
  intros Hreach. apply reachable_no_admin in Hreach.
  unfold admins_can_update_bills.
  induction Hreach as [| p l Hp _ IH]; [reflexivity |].
  cbn [existsb]. rewrite Hp, IH. now rewrite andb_false_r.
Qed.

(** ** Invariants of the reachable states *)

Record consistent (db : database) : Prop := {
  bills_generated : Forall bill_generated (tbl_bills db);
  bills_key : NoDup (map bills.id (tbl_bills db));
  payments_key : NoDup (map payments.id (tbl_payments db));
  complaints_key : NoDup (map complaints.id (tbl_complaints db))
}.

Lemma reachable_consistent (db : database) : reachable db -> consistent db.
Proof.
  induction 1 as [| db k r _ IH].
  - constructor; cbn; constructor.
  - destruct IH as [Hg Hb Hp Hc]. destruct r; cbn [execute].
    + unfold handle_new_user, served.
      destruct (transport k); [now constructor |].
      destruct (match meta_full_name with Some n => Some n | None => email end);
        [| now constructor].
      destruct (has_key profiles.id (fresh k) (tbl_profiles db)); now constructor.
    + destruct (insert_bill_outcome k new db)
        as [[-> _] | [b [Hb1 [_ [Hb2 [_ ->]]]]]]; [now constructor |].
      constructor; cbn; auto.
      * apply Forall_app. split; auto. constructor; auto.
        eapply build_bill_generated; eauto.
      * now apply NoDup_keys_snoc.
    + destruct (insert_payment_outcome k new db)
        as [[-> _] | [p [_ [_ [Hp2 [_ [_ ->]]]]]]]; [now constructor |].
      constructor; cbn; auto. now apply NoDup_keys_snoc.
    + destruct (insert_complaint_outcome k new db)
        as [[-> _] | [c [_ [_ [Hc2 [_ ->]]]]]]; [now constructor |].
      constructor; cbn; auto. now apply NoDup_keys_snoc.
    + destruct (update_bill_status_outcome k s target db) as [[-> _] | [_ ->]];
        [now constructor |].
      unfold rewrite_bills. destruct (admins_can_update_bills k db); [| now constructor].
      constructor; cbn; auto.
      * apply Forall_map. eapply Forall_impl; [| exact Hg].
        intros b Hgen. destruct (String.eqb (bills.id b) target); auto.
      * now rewrite (map_key_rewrite bills.id).
    + destruct (update_complaint_outcome k u target db) as [[-> _] | [_ ->]];
        [now constructor |].
      constructor; cbn; auto.
      now rewrite (map_key_rewrite complaints.id).
Qed.

(** ** Reads change nothing *)

Lemma select_reads {A} (k : call) (table : database -> list A) (where_ : A -> bool)
    (order : list A -> list A) (db : database) :
  fst (select k table where_ order db) = db.
Proof. unfold select, served. destruct (transport k); reflexivity. Qed.

Lemma select_served {A} (k : call) (table : database -> list A) (where_ : A -> bool)
    (order : list A -> list A) (db : database) :
  transport k = None ->
  or_empty (data (snd (select k table where_ order db))) =
  order (filter where_ (table db)).
Proof. unfold select, served. now intros ->. Qed.

Lemma select_embedding_reads {A} (k : call) (table : database -> list A)
    (customer : A -> uuid) (key : A -> Z) (db : database) :
  fst (AdminDashboard.select_embedding k table customer key db) = db.
Proof.
  unfold AdminDashboard.select_embedding, served. destruct (transport k); reflexivity.
Qed.

Lemma await_read {S A} (q : statement A) (db : database) (s : S) :
  fst (q db) = db -> await q (db, s) = ((db, s), inr (snd (q db))).
Proof.
  unfold await. cbn. destruct (q db) as [db' r]. cbn. now intros ->.
Qed.

Module CustomerFacts.

Import CustomerDashboard.

(** The lists one [fetchData] puts on the screen. *)
Definition shown_bills (k : call) (customer : uuid) (db : database) : list Bill.t :=
  map Bill.of_row (or_empty (data (snd (select_bills k customer db)))).

Definition shown_payments (k : call) (customer : uuid) (db : database)
  : list Payment.t :=
  map Payment.of_row (or_empty (data (snd (select_payments k customer db)))).

Definition shown_complaints (k : call) (customer : uuid) (db : database)
  : list Complaint.t :=
  map Complaint.of_row (or_empty (data (snd (select_complaints k customer db)))).

Definition refreshed (p : profiles.row) (f : fetches) (db : database) (s : state)
  : state :=
  setLoading false
    (setComplaints (shown_complaints (on_complaints f) (profiles.id p) db)
       (setPayments (shown_payments (on_payments f) (profiles.id p) db)
          (setBills (shown_bills (on_bills f) (profiles.id p) db)
             (setLoading true s)))).

Lemma fetchData_loaded (p : profiles.row) (f : fetches) (db : database) (s : state) :
  fetchData (Some p) f (db, s) = ((db, refreshed p f db s), inr tt).
Proof.
  unfold fetchData, and_then, try_finally, try_catch, set_state. cbn [fst snd].
  unfold select_bills, select_payments, select_complaints.
  repeat (rewrite await_read by apply select_reads; cbn [fst snd]).
  reflexivity.
Qed.

Lemma fetchData_unloaded (f : fetches) (db : database) (s : state) :
  fetchData None f (db, s) = ((db, s), inr tt).
Proof. reflexivity. Qed.

(** Whether the profile is loaded or not, [fetchData] completes and leaves
    the tables alone. *)
Lemma fetchData_reads (profile : option profiles.row) (f : fetches)
    (db : database) (s : state) :
  exists s', fetchData profile f (db, s) = ((db, s'), inr tt)
             /\ toasts s' = toasts s
             /\ paymentData s' = paymentData s
             /\ complaintData s' = complaintData s.
Proof.
  destruct profile as [p |].
  - exists (refreshed p f db s). rewrite fetchData_loaded. auto.
  - exists s. rewrite fetchData_unloaded. auto.
Qed.

(** *** [makePayment], step by step *)

Section MakePayment.

Variable profile : option profiles.row.
Variable parseFloat : string -> option Numeric.decimal.
Variables on_insert on_update : call.
Variable f : fetches.
Variable db : database.
Variable s : state.

Let payload := paymentPayload profile parseFloat (paymentData s).
Let inserted := insert_payment on_insert payload db.
Let updated :=
  update_bill_status on_update "paid" (bill_id (paymentData s)) (fst inserted).

(** The insert is refused: the handler stops there and shows the error. *)
Lemma makePayment_refused (e : PostgrestError) :
  error (snd inserted) = Some e ->
  makePayment profile parseFloat on_insert on_update f (db, s) =
  ((fst inserted, toast (failure (message e)) s), inr tt).
Proof.
  subst inserted payload. intros He.
  unfold makePayment, try_catch, and_then, await, throw_if_error. cbn [fst snd].
  destruct (insert_payment _ _ db) as [db1 r1]. cbn [fst snd] in *.
  rewrite He. reflexivity.
Qed.

(** The insert is accepted: the update is issued, its response is
    dropped, and the handler goes on to the notification. *)
Lemma makePayment_recorded :
  error (snd inserted) = None ->
  makePayment profile parseFloat on_insert on_update f (db, s) =
  fetchData profile f
    (fst updated,
     setPaymentData emptyPaymentData
       (toast (success "Payment recorded successfully") s)).
Proof.
  subst updated inserted payload. intros He.
  unfold makePayment, try_catch, and_then, await, throw_if_error, set_state.
  cbn [fst snd].
  destruct (insert_payment _ _ db) as [db1 r1]. cbn [fst snd] in *.
  rewrite He. unfold ret. cbn [fst snd].
  destruct (update_bill_status _ _ _ db1) as [db2 r2]. cbn [fst snd].
  destruct (fetchData_reads profile f db2
              (setPaymentData emptyPaymentData
                 (toast (success "Payment recorded successfully") s)))
    as [s' [-> _]].
  reflexivity.
Qed.

End MakePayment.

End CustomerFacts.

Module AdminFacts.

Import AdminDashboard.

Definition shown_customers (k : call) (db : database) : list Customer.t :=
  map Customer.of_row (or_empty (data (snd (select_customers k db)))).

Definition shown_bills (k : call) (db : database) : list Bill.t :=
  map Bill.of_row
    (or_empty (data (snd (select_embedding k tbl_bills bills.customer_id
                            bills.created_at db)))).

Definition shown_payments (k : call) (db : database) : list Payment.t :=
  map Payment.of_row
    (or_empty (data (snd (select_embedding k tbl_payments payments.customer_id
                            payments.payment_date db)))).

Definition shown_complaints (k : call) (db : database) : list Complaint.t :=
  map Complaint.of_row
    (or_empty (data (snd (select_embedding k tbl_complaints complaints.customer_id
                            complaints.created_at db)))).

Definition refreshed (f : fetches) (db : database) (s : state) : state :=
  setLoading false
    (setComplaints (shown_complaints (on_complaints f) db)
       (setPayments (shown_payments (on_payments f) db)
          (setBills (shown_bills (on_bills f) db)
             (setCustomers (shown_customers (on_customers f) db)
                (setLoading true s))))).

Lemma admin_fetchData_reads (f : fetches) (db : database) (s : state) :
  fetchData f (db, s) = ((db, refreshed f db s), inr tt).
Proof.
  unfold fetchData, and_then, try_finally, try_catch, set_state. cbn [fst snd].
  unfold select_customers.
  rewrite await_read by apply select_reads. cbn [fst snd].
  repeat (rewrite await_read by apply select_embedding_reads; cbn [fst snd]).
  reflexivity.
Qed.

(** *** [createBill], step by step *)

Section CreateBill.

Variable parseFloat : string -> option Numeric.decimal.
Variable on_insert : call.
Variable f : fetches.
Variable db : database.
Variable s : state.

Let inserted := insert_bill on_insert (billPayload parseFloat (newBill s)) db.

Lemma createBill_refused (e : PostgrestError) :
  error (snd inserted) = Some e ->
  createBill parseFloat on_insert f (db, s) =
  ((fst inserted, toast (failure (message e)) s), inr tt).
Proof.
  subst inserted. intros He.
  unfold createBill, try_catch, and_then, await, throw_if_error. cbn [fst snd].
  destruct (insert_bill _ _ db) as [db1 r1]. cbn [fst snd] in *.
  rewrite He. reflexivity.
Qed.

Lemma createBill_recorded :
  error (snd inserted) = None ->
  createBill parseFloat on_insert f (db, s) =
  ((fst inserted,
    refreshed f (fst inserted)
      (setNewBill emptyNewBill (toast (success "Bill created successfully") s))),
   inr tt).
Proof.
  subst inserted. intros He.
  unfold createBill, try_catch, and_then, await, throw_if_error, set_state.
  cbn [fst snd].
  destruct (insert_bill _ _ db) as [db1 r1]. cbn [fst snd] in *.
  rewrite He. unfold ret. cbn [fst snd].
  rewrite admin_fetchData_reads. reflexivity.
Qed.

(** Either way the tables are those the insert leaves. *)
Lemma createBill_tables :
  fst (run (createBill parseFloat on_insert f) db s) = fst inserted.
Proof.
  unfold run. destruct (error (snd inserted)) as [e |] eqn:He.
  - now rewrite (createBill_refused e He).
  - now rewrite (createBill_recorded He).
Qed.

End CreateBill.

(** *** [updateComplaintStatus], step by step *)

Section UpdateComplaintStatus.

Variables complaintId status response : string.
Variable on_update : call.
Variable f : fetches.
Variable db : database.
Variable s : state.

Let written :=
  update_complaint on_update
    {| complaints.set_status := status; complaints.set_admin_response := response |}
    complaintId db.

Lemma updateComplaintStatus_refused (e : PostgrestError) :
  error (snd written) = Some e ->
  updateComplaintStatus complaintId status response on_update f (db, s) =
  ((fst written, toast (failure (message e)) s), inr tt).
Proof.
  subst written. intros He.
  unfold updateComplaintStatus, try_catch, and_then, await, throw_if_error.
  cbn [fst snd].
  destruct (update_complaint _ _ _ db) as [db1 r1]. cbn [fst snd] in *.
  rewrite He. reflexivity.
Qed.

Lemma updateComplaintStatus_recorded :
  error (snd written) = None ->
  updateComplaintStatus complaintId status response on_update f (db, s) =
  ((fst written,
    refreshed f (fst written)
      (toast (success "Complaint updated successfully") s)),
   inr tt).
Proof.
  subst written. intros He.
  unfold updateComplaintStatus, try_catch, and_then, await, throw_if_error, set_state.
  cbn [fst snd].
  destruct (update_complaint _ _ _ db) as [db1 r1]. cbn [fst snd] in *.
  rewrite He. unfold ret. cbn [fst snd].
  rewrite admin_fetchData_reads. reflexivity.
Qed.

Lemma updateComplaintStatus_tables :
  fst (run (updateComplaintStatus complaintId status response on_update f) db s) =
  fst written.
Proof.
  unfold run. destruct (error (snd written)) as [e |] eqn:He.
  - now rewrite (updateComplaintStatus_refused e He).
  - now rewrite (updateComplaintStatus_recorded He).
Qed.

End UpdateComplaintStatus.

End AdminFacts.

(** ** A worked scenario *)

Module Scenario.

(** Plain decimal numerals (digits with an optional sign and fraction): on
    such a text [parseFloat] gives the number written. *)
Fixpoint read_digits (s : string) (acc : Z) (fraction : option Z)
  : option Numeric.decimal :=
  match s with
  | EmptyString =>
      Some (Numeric.Decimal acc (match fraction with Some n => - n | None => 0 end))
  | String c rest =>
      let d := Z.of_N (Ascii.N_of_ascii c) - 48 in
      if Ascii.eqb c "."%char then
        match fraction with
        | None => read_digits rest acc (Some 0)
        | Some _ => None
        end
      else if (0 <=? d) && (d <=? 9) then
        read_digits rest (10 * acc + d) (option_map Z.succ fraction)
      else None
  end.

Definition plain_numeral (s : string) : option Numeric.decimal :=
  match s with
  | EmptyString => None
  | String c rest =>
      if Ascii.eqb c "-"%char then
        match read_digits rest 0 None with
        | Some d => Some (Numeric.Decimal (- Numeric.mantissa d) (Numeric.exponent d))
        | None => None
        end
      else read_digits s 0 None
  end.

(** The calls of the scenarios.  [auth_uid] is read by one statement only,
    the update of a bill's status that the customer dashboard issues: the
    calls carry the session of the customer, "user-1". *)
Definition reaching (t : timestamp) (id : uuid) : call :=
  {| transport := None; now := t; fresh := id; auth_uid := "user-1" |}.

Definition failing (t : timestamp) (id : uuid) : call :=
  {| transport := Some {| message := "Failed to fetch" |}; now := t; fresh := id;
     auth_uid := "user-1" |}.

(** One registered customer. *)
Definition registered : database :=
  replay [(reaching 1 "profile-1", NewUser "user-1" (Some "Amina") None None)]
         empty_database.

Definition amina : profiles.row :=
  {| profiles.id := "profile-1"; profiles.user_id := "user-1";
     profiles.full_name := "Amina"; profiles.phone_number := None;
     profiles.address := None; profiles.meter_number := None;
     profiles.is_admin := Some false; profiles.created_at := 1;
     profiles.updated_at := 1 |}.

Definition admin_reads (t : timestamp) : AdminDashboard.fetches :=
  {| AdminDashboard.on_customers := reaching t ""; AdminDashboard.on_bills := reaching t "";
     AdminDashboard.on_payments := reaching t "";
     AdminDashboard.on_complaints := reaching t "" |}.

Definition customer_reads (t : timestamp) : CustomerDashboard.fetches :=
  {| CustomerDashboard.on_bills := reaching t "";
     CustomerDashboard.on_payments := reaching t "";
     CustomerDashboard.on_complaints := reaching t "" |}.

Definition bill_form (previous current : string) : AdminDashboard.NewBill :=
  {| AdminDashboard.customer_id := "profile-1"; AdminDashboard.meter_number := "M-1";
     AdminDashboard.previous_reading := previous;
     AdminDashboard.current_reading := current;
     AdminDashboard.bill_month := "January 2024";
     AdminDashboard.due_date := "2024-02-15" |}.

(** The administrator bills the customer: readings 100 and 150. *)
Definition billed : database :=
  fst (run (AdminDashboard.createBill plain_numeral (reaching 2 "bill-1") (admin_reads 3))
           registered
           (AdminDashboard.setNewBill (bill_form "100" "150") AdminDashboard.initial)).

Definition january : bills.row :=
  {| bills.id := "bill-1"; bills.customer_id := "profile-1";
     bills.meter_number := "M-1"; bills.previous_reading := 10000;
     bills.current_reading := 15000; bills.units_consumed := 5000;
     bills.rate_per_unit := 5000; bills.amount := 250000;
     bills.bill_month := "January 2024"; bills.due_date := "2024-02-15";
     bills.status := Some "pending"; bills.created_at := 2; bills.updated_at := 2 |}.

(** [handle_new_user] leaves [is_admin] at its default [FALSE] and no
    statement of the application sets it: the flag is set by hand in the
    database.  [promoted uid db] is [db] after
    [UPDATE profiles SET is_admin = TRUE WHERE user_id = uid]. *)
Definition promoted (uid : uuid) (db : database) : database :=
  with_profiles
    (map (fun p =>
            if String.eqb (profiles.user_id p) uid
            then {| profiles.id := profiles.id p; profiles.user_id := profiles.user_id p;
                    profiles.full_name := profiles.full_name p;
                    profiles.phone_number := profiles.phone_number p;
                    profiles.address := profiles.address p;
                    profiles.meter_number := profiles.meter_number p;
                    profiles.is_admin := Some true;
                    profiles.created_at := profiles.created_at p;
                    profiles.updated_at := profiles.updated_at p |}
            else p)
         (tbl_profiles db)) db.

Lemma registered_reachable : reachable registered.
Proof. apply replay_reachable, reachable_empty. Qed.

Lemma billed_tables : billed = with_bills [january] registered.
Proof. vm_compute. reflexivity. Qed.

Lemma billed_reachable : reachable billed.
Proof.
  unfold billed. rewrite AdminFacts.createBill_tables.
  apply (reachable_step registered (reaching 2 "bill-1") (InsertBill _)).
  exact registered_reachable.
Qed.

End Scenario.

(** * The bill computation rule *)

(** C1. Every bill the tables can hold has [units_consumed] equal to the
    current reading minus the previous one, and [amount] equal to that
    difference times the rate, as a decimal of two fractional digits: the
    stored amount is the product rounded to hundredths, within half a
    hundredth of it, and equal to it whenever the product has no more than two
    fractional digits.  With readings 100 and 150 and the rate 50 (the
    default), the row holds 50 units and the amount 2500.  (Columns in
    hundredths: 100.00 is [10000].) *)
Theorem bill_derived_fields (db : database) (b : bills.row) :
  reachable db -> In b (tbl_bills db) ->
  let p := bills.previous_reading b in
  let c := bills.current_reading b in
  let r := bills.rate_per_unit b in
  bills.units_consumed b = c - p
  /\ bills.amount b = Numeric.round_half_away ((c - p) * r) 100
  /\ 2 * Z.abs (100 * bills.amount b - (c - p) * r) <= 100
  /\ ((100 | (c - p) * r) -> 100 * bills.amount b = (c - p) * r)
  /\ (p = 10000 -> c = 15000 -> r = Numeric.default_rate ->
      bills.units_consumed b = 5000 /\ bills.amount b = 250000).
Proof.
  intros Hreach Hin p c r.
  apply reachable_consistent in Hreach. destruct Hreach as [Hg _ _ _].
  rewrite Forall_forall in Hg. destruct (Hg b Hin) as [Hu Ha].
  fold p c r in Hu, Ha. unfold Numeric.scale4_to_scale2 in Ha.
  split; [exact Hu |]. split; [exact Ha |]. split; [| split].
  - rewrite Ha. apply round_half_away_error. lia.
  - intros Hdiv. rewrite Ha. apply round_half_away_exact; [lia | exact Hdiv].
  - intros Hp Hc Hr. rewrite Hu, Ha, Hp, Hc, Hr. split; reflexivity.
Qed.

Lemma bill_derived_fields_scenario :
  In Scenario.january (tbl_bills Scenario.billed)
  /\ bills.units_consumed Scenario.january = 5000
  /\ bills.amount Scenario.january = 250000.
Proof.
  assert (Hin : In Scenario.january (tbl_bills Scenario.billed)).
  { rewrite Scenario.billed_tables. left. reflexivity. }
  split; [exact Hin |].
  destruct (bill_derived_fields Scenario.billed Scenario.january
              Scenario.billed_reachable Hin) as [_ [_ [_ [_ H]]]].
  apply H; reflexivity.
Defined.

(** * Payment and bill status *)

(** C2. [makePayment] is two writes in sequence: the insert of the payment
    row for the chosen bill, then, when the insert went through, the
    statement that sets the status of the bills with that id to 'paid', issued
    on the tables the insert left.  When that statement gets through for a
    caller the policy "Admins can update bills" passes, every bill with the
    chosen id ends 'paid', stamped with the time of the update, and every
    other bill is as it was.  Nothing ties the two writes together: when the
    insert is accepted and the update comes back with an error, or rewrites
    no row because the policy does not pass the caller, the tables end with
    the payment recorded against the bill while the bill is as it was, still
    'pending'. *)
Theorem makePayment_two_writes
    (profile : option profiles.row) (parseFloat : string -> option Numeric.decimal)
    (on_insert on_update : call) (f : CustomerDashboard.fetches)
    (db : database) (s : CustomerDashboard.state) (bill : bills.row) :
  let form := CustomerDashboard.paymentData s in
  let inserted :=
    insert_payment on_insert (CustomerDashboard.paymentPayload profile parseFloat form) db in
  let updated :=
    update_bill_status on_update "paid" (CustomerDashboard.bill_id form) (fst inserted) in
  let db' :=
    fst (run (CustomerDashboard.makePayment profile parseFloat on_insert on_update f) db s) in
  In bill (tbl_bills db) ->
  bills.id bill = CustomerDashboard.bill_id form ->
  bills.status bill = Some "pending" ->
  error (snd inserted) = None ->
  db' = fst updated
  /\ (exists p, tbl_payments db' = tbl_payments db ++ [p]
                /\ payments.bill_id p = bills.id bill)
  /\ (transport on_update = None -> admins_can_update_bills on_update db = true ->
      error (snd updated) = None
      /\ tbl_bills db' =
         map (fun b => if String.eqb (bills.id b) (CustomerDashboard.bill_id form)
                       then bills.with_status (Some "paid") (now on_update) b else b)
             (tbl_bills db)
      /\ In (bills.with_status (Some "paid") (now on_update) bill) (tbl_bills db')
      /\ (forall b, In b (tbl_bills db') ->
                    bills.id b = CustomerDashboard.bill_id form ->
                    bills.status b = Some "paid"))
  /\ (forall e, transport on_update = Some e -> error (snd updated) = Some e)
  /\ (transport on_update <> None \/ admins_can_update_bills on_update db = false ->
      tbl_bills db' = tbl_bills db
      /\ (exists b, In b (tbl_bills db')
                    /\ bills.id b = CustomerDashboard.bill_id form
                    /\ bills.status b = Some "pending")).
Proof.
  intros form inserted updated db' Hin Hid Hst Hok.
  assert (Hdb : db' = fst updated).
  { subst db'. unfold run.
    rewrite (CustomerFacts.makePayment_recorded profile parseFloat on_insert on_update
               f db s Hok).
    destruct (CustomerFacts.fetchData_reads profile f (fst updated)
                (CustomerDashboard.setPaymentData CustomerDashboard.emptyPaymentData
                   (CustomerDashboard.toast (success "Payment recorded successfully") s)))
      as [s' [Hs' _]].
    fold form inserted updated. rewrite Hs'. reflexivity. }
  destruct (insert_payment_outcome on_insert
              (CustomerDashboard.paymentPayload profile parseFloat form) db)
    as [[_ Hbad] | [p [Hp [_ [_ [_ [_ Hins]]]]]]].
  { now elim Hbad. }
  assert (Hbid : payments.bill_id p = CustomerDashboard.bill_id form).
  { unfold build_payment in Hp. cbn in Hp. invert_checked Hp.
    inversion Hp; subst; clear Hp. cbn. reflexivity. }
  assert (Hfst : fst inserted = with_payments (tbl_payments db ++ [p]) db).
  { subst inserted. now rewrite Hins. }
  assert (Hupd := update_bill_status_paid on_update (CustomerDashboard.bill_id form)
                    (fst inserted)).
  fold updated in Hupd. rewrite Hfst in Hupd.
  change (admins_can_update_bills on_update
            (with_payments (tbl_payments db ++ [p]) db))
    with (admins_can_update_bills on_update db) in Hupd.
  split; [exact Hdb |]. rewrite Hdb. split; [| split; [| split]].
  - exists p. split; [| congruence].
    destruct (transport on_update); [rewrite Hupd; reflexivity |].
    destruct (admins_can_update_bills on_update db); rewrite Hupd; reflexivity.
  - intros Hthrough Hpass. rewrite Hthrough, Hpass in Hupd. rewrite Hupd.
    cbn [fst snd error succeed tbl_bills with_bills with_payments].
    split; [reflexivity |]. split; [reflexivity |]. split.
    + apply in_map_iff. exists bill. split; [| exact Hin].
      rewrite Hid, String.eqb_refl. reflexivity.
    + intros b Hb Hsame. apply in_map_iff in Hb. destruct Hb as [b0 [Hb0 _]].
      destruct (String.eqb (bills.id b0) (CustomerDashboard.bill_id form)) eqn:Heq.
      * subst b. reflexivity.
      * subst b. apply String.eqb_neq in Heq. contradiction.
  - intros e He. rewrite He in Hupd. rewrite Hupd. reflexivity.
  - intros Hfail.
    assert (Hsame : fst updated = with_payments (tbl_payments db ++ [p]) db).
    { destruct (transport on_update) as [e |]; [rewrite Hupd; reflexivity |].
      destruct Hfail as [Hno | Hpolicy]; [now elim Hno |].
      rewrite Hpolicy in Hupd. rewrite Hupd. reflexivity. }
    rewrite Hsame. cbn [tbl_bills with_payments].
    split; [reflexivity |]. exists bill. auto.
Qed.

(** C10. [makePayment] drops the response of the status update: whenever the
    insert of the payment is accepted, the handler shows the success
    notification and empties the payment form, whatever the update answers;
    and an update that comes back with an error has marked nothing paid. *)
Theorem makePayment_reports_success
    (profile : option profiles.row) (parseFloat : string -> option Numeric.decimal)
    (on_insert on_update : call) (f : CustomerDashboard.fetches)
    (db : database) (s : CustomerDashboard.state) :
  let form := CustomerDashboard.paymentData s in
  let inserted :=
    insert_payment on_insert (CustomerDashboard.paymentPayload profile parseFloat form) db in
  let updated :=
    update_bill_status on_update "paid" (CustomerDashboard.bill_id form) (fst inserted) in
  let done :=
    run (CustomerDashboard.makePayment profile parseFloat on_insert on_update f) db s in
  error (snd inserted) = None ->
  CustomerDashboard.toasts (snd done) =
    CustomerDashboard.toasts s ++ [success "Payment recorded successfully"]
  /\ CustomerDashboard.paymentData (snd done) = CustomerDashboard.emptyPaymentData
  /\ (error (snd updated) <> None -> tbl_bills (fst done) = tbl_bills db).
Proof.
  intros form inserted updated done Hok.
  subst done. unfold run.
  rewrite (CustomerFacts.makePayment_recorded profile parseFloat on_insert on_update
             f db s Hok).
  fold form inserted updated.
  destruct (CustomerFacts.fetchData_reads profile f (fst updated)
              (CustomerDashboard.setPaymentData CustomerDashboard.emptyPaymentData
                 (CustomerDashboard.toast (success "Payment recorded successfully") s)))
    as [s' [Hs' [Ht [Hp _]]]].
  rewrite Hs'. cbn [fst snd].
  split; [rewrite Ht; reflexivity |]. split; [rewrite Hp; reflexivity |].
  intros Hbad.
  destruct (update_bill_status_outcome on_update "paid" (CustomerDashboard.bill_id form)
              (fst inserted)) as [[Hsame _] | [_ Hrun]].
  - fold updated in Hsame. rewrite Hsame.
    destruct (insert_payment_outcome on_insert
                (CustomerDashboard.paymentPayload profile parseFloat form) db)
      as [[_ Hno] | [p [_ [_ [_ [_ [_ Hins]]]]]]].
    + now elim Hno.
    + subst inserted. rewrite Hins. reflexivity.
  - fold updated in Hrun. rewrite Hrun in Hbad. now elim Hbad.
Qed.

Definition paying : CustomerDashboard.state :=
  CustomerDashboard.setPaymentData
    {| CustomerDashboard.bill_id := "bill-1"; CustomerDashboard.amount := "2500";
       CustomerDashboard.payment_method := "mpesa";
       CustomerDashboard.transaction_id := "QX1" |}
    CustomerDashboard.initial.

(** Two executions on the same bill.  In the first the update call fails.
    In the second both calls get through, for a customer whose profile was
    flagged while the dashboard was open: the only case in which the update
    rewrites a row. *)
Lemma makePayment_two_writes_scenario :
  let run_with on_update db :=
    fst (run (CustomerDashboard.makePayment (Some Scenario.amina) Scenario.plain_numeral
                (Scenario.reaching 5 "payment-1") on_update
                (Scenario.customer_reads 7))
             db paying) in
  ((exists p, tbl_payments (run_with (Scenario.failing 6 "") Scenario.billed) = [p]
              /\ payments.bill_id p = "bill-1")
   /\ tbl_bills (run_with (Scenario.failing 6 "") Scenario.billed) = [Scenario.january])
  /\ ((exists p, tbl_payments
                   (run_with (Scenario.reaching 6 "")
                      (Scenario.promoted "user-1" Scenario.billed)) = [p]
               /\ payments.bill_id p = "bill-1")
      /\ tbl_bills (run_with (Scenario.reaching 6 "")
                      (Scenario.promoted "user-1" Scenario.billed)) =
         [bills.with_status (Some "paid") 6 Scenario.january]).
Proof.
  intros run_with. split.
  - destruct (makePayment_two_writes (Some Scenario.amina) Scenario.plain_numeral
                (Scenario.reaching 5 "payment-1") (Scenario.failing 6 "")
                (Scenario.customer_reads 7) Scenario.billed paying Scenario.january)
      as [_ [Hp [_ [_ Hb]]]].
    + vm_compute. left. reflexivity.
    + reflexivity.
    + reflexivity.
    + vm_compute. reflexivity.
    + split; [exact Hp |].
      destruct Hb as [Hb _]; [left; discriminate |]. exact Hb.
  - destruct (makePayment_two_writes (Some Scenario.amina) Scenario.plain_numeral
                (Scenario.reaching 5 "payment-1") (Scenario.reaching 6 "")
                (Scenario.customer_reads 7)
                (Scenario.promoted "user-1" Scenario.billed) paying Scenario.january)
      as [_ [Hp [Hb _]]].
    + vm_compute. left. reflexivity.
    + reflexivity.
    + reflexivity.
    + vm_compute. reflexivity.
    + split; [exact Hp |].
      destruct Hb as [_ [Hb _]]; [reflexivity | vm_compute; reflexivity |]. exact Hb.
Defined.

Lemma makePayment_reports_success_scenario :
  let done :=
    run (CustomerDashboard.makePayment (Some Scenario.amina) Scenario.plain_numeral
           (Scenario.reaching 5 "payment-1") (Scenario.failing 6 "")
           (Scenario.customer_reads 7))
        Scenario.billed paying in
  CustomerDashboard.toasts (snd done) = [success "Payment recorded successfully"]
  /\ CustomerDashboard.paymentData (snd done) = CustomerDashboard.emptyPaymentData
  /\ tbl_bills (fst done) = [Scenario.january].
Proof.
  destruct (makePayment_reports_success (Some Scenario.amina) Scenario.plain_numeral
              (Scenario.reaching 5 "payment-1") (Scenario.failing 6 "")
              (Scenario.customer_reads 7) Scenario.billed paying)
    as [Ht [Hp Hb]].
  - vm_compute. reflexivity.
  - split; [exact Ht |]. split; [exact Hp |].
    rewrite Hb; [vm_compute; reflexivity | vm_compute; discriminate].
Defined.

(** When both writes get through for a customer, the policy hides the bill
    from the update: the payment is recorded and the bill is still pending. *)
Lemma makePayment_both_writes_scenario :
  let db' :=
    fst (run (CustomerDashboard.makePayment (Some Scenario.amina) Scenario.plain_numeral
                (Scenario.reaching 5 "payment-1") (Scenario.reaching 6 "")
                (Scenario.customer_reads 7))
             Scenario.billed paying) in
  tbl_bills db' = [Scenario.january] /\ List.length (tbl_payments db') = 1%nat.
Proof. vm_compute. split; reflexivity. Qed.

(** * Readings that go down *)

(** The form with its two readings exchanged. *)
Definition exchanged (n : AdminDashboard.NewBill) : AdminDashboard.NewBill :=
  {| AdminDashboard.customer_id := AdminDashboard.customer_id n;
     AdminDashboard.meter_number := AdminDashboard.meter_number n;
     AdminDashboard.previous_reading := AdminDashboard.current_reading n;
     AdminDashboard.current_reading := AdminDashboard.previous_reading n;
     AdminDashboard.bill_month := AdminDashboard.bill_month n;
     AdminDashboard.due_date := AdminDashboard.due_date n |}.

(** The row a bill form becomes once its readings are stored as [P] and [C]. *)
Definition createdBill (k : call) (n : AdminDashboard.NewBill) (P C : Z) : bills.row :=
  {| bills.id := fresh k; bills.customer_id := AdminDashboard.customer_id n;
     bills.meter_number := AdminDashboard.meter_number n;
     bills.previous_reading := P; bills.current_reading := C;
     bills.units_consumed := C - P; bills.rate_per_unit := Numeric.default_rate;
     bills.amount := 50 * (C - P);
     bills.bill_month := AdminDashboard.bill_month n;
     bills.due_date := AdminDashboard.due_date n;
     bills.status := Some "pending"; bills.created_at := now k;
     bills.updated_at := now k |}.

(** A reading as the column stores it. *)
Definition stored_reading (n : option Numeric.decimal) : option Z :=
  match n with
  | Some d => Numeric.of_decimal d
  | None => None
  end.

Section CreateBillRows.

Variable parseFloat : string -> option Numeric.decimal.
Variable k : call.
Variable n : AdminDashboard.NewBill.

Lemma build_createBill_sound (b : bills.row) :
  build_bill k (AdminDashboard.billPayload parseFloat n) = inr b ->
  exists P C,
    stored_reading (parseFloat (AdminDashboard.previous_reading n)) = Some P
    /\ stored_reading (parseFloat (AdminDashboard.current_reading n)) = Some C
    /\ Numeric.fits (C - P) = true
    /\ Numeric.fits (50 * (C - P)) = true
    /\ b = createdBill k n P C.
Proof.
  unfold build_bill, AdminDashboard.billPayload. cbn -[Z.mul Z.sub].
  destruct (parseFloat (AdminDashboard.previous_reading n)) as [dp |];
    cbn -[Z.mul Z.sub]; [| intros H; discriminate H].
  destruct (Numeric.of_decimal dp) as [P |]; cbn -[Z.mul Z.sub];
    [| intros H; discriminate H].
  destruct (parseFloat (AdminDashboard.current_reading n)) as [dc |];
    cbn -[Z.mul Z.sub]; [| intros H; discriminate H].
  destruct (Numeric.of_decimal dc) as [C |]; cbn -[Z.mul Z.sub];
    [| intros H; discriminate H].
  unfold bills.generated_units_consumed, bills.generated_amount.
  rewrite default_rate_amount. unfold Numeric.coerce.
  destruct (Numeric.fits (C - P)) eqn:Hu; cbn -[Z.mul Z.sub];
    [| intros H; discriminate H].
  destruct (Numeric.fits (50 * (C - P))) eqn:Ha; cbn -[Z.mul Z.sub];
    [| intros H; discriminate H].
  intros H. inversion H; subst; clear H. exists P, C. auto.
Qed.

Lemma build_createBill_complete (P C : Z) :
  stored_reading (parseFloat (AdminDashboard.previous_reading n)) = Some P ->
  stored_reading (parseFloat (AdminDashboard.current_reading n)) = Some C ->
  Numeric.fits (C - P) = true ->
  Numeric.fits (50 * (C - P)) = true ->
  build_bill k (AdminDashboard.billPayload parseFloat n) = inr (createdBill k n P C).
Proof.
  unfold build_bill, AdminDashboard.billPayload, stored_reading. cbn -[Z.mul Z.sub].
  destruct (parseFloat (AdminDashboard.previous_reading n)) as [dp |];
    [| intros H; discriminate H].
  destruct (parseFloat (AdminDashboard.current_reading n)) as [dc |];
    [| intros _ H; discriminate H].
  cbn -[Z.mul Z.sub]. intros -> -> Hu Ha. cbn -[Z.mul Z.sub].
  unfold bills.generated_units_consumed, bills.generated_amount.
  rewrite default_rate_amount. unfold Numeric.coerce. rewrite Hu, Ha. reflexivity.
Qed.

End CreateBillRows.

(** What it takes for the row of [createBill] to be accepted. *)
Definition bill_accepted (parseFloat : string -> option Numeric.decimal) (k : call)
    (n : AdminDashboard.NewBill) (db : database) : Prop :=
  transport k = None
  /\ has_key bills.id (fresh k) (tbl_bills db) = false
  /\ has_key profiles.id (AdminDashboard.customer_id n) (tbl_profiles db) = true
  /\ exists P C,
       stored_reading (parseFloat (AdminDashboard.previous_reading n)) = Some P
       /\ stored_reading (parseFloat (AdminDashboard.current_reading n)) = Some C
       /\ Numeric.fits (C - P) = true
       /\ Numeric.fits (50 * (C - P)) = true.

Lemma createBill_accepted_iff (parseFloat : string -> option Numeric.decimal)
    (k : call) (n : AdminDashboard.NewBill) (db : database) :
  error (snd (insert_bill k (AdminDashboard.billPayload parseFloat n) db)) = None
  <-> bill_accepted parseFloat k n db.
Proof.
  split.
  - intros Hok.
    destruct (insert_bill_outcome k (AdminDashboard.billPayload parseFloat n) db)
      as [[_ Hbad] | [b [Hb [Ht [Hk [Hp _]]]]]]; [now elim Hbad |].
    destruct (build_createBill_sound parseFloat k n b Hb)
      as [P [C [HP [HC [Hu [Ha ->]]]]]].
    cbn in Hk, Hp. repeat split; auto. exists P, C. auto.
  - intros [Ht [Hk [Hp [P [C [HP [HC [Hu Ha]]]]]]]].
    unfold insert_bill. rewrite served_through by exact Ht.
    rewrite (build_createBill_complete parseFloat k n P C HP HC Hu Ha).
    cbn [createdBill bills.id bills.customer_id]. rewrite Hk, Hp. reflexivity.
Qed.

Lemma bill_accepted_exchanged (parseFloat : string -> option Numeric.decimal)
    (k : call) (n : AdminDashboard.NewBill) (db : database) :
  bill_accepted parseFloat k n db -> bill_accepted parseFloat k (exchanged n) db.
Proof.
  intros [Ht [Hk [Hp [P [C [HP [HC [Hu Ha]]]]]]]].
  repeat split; auto. exists C, P.
  cbn [exchanged AdminDashboard.previous_reading AdminDashboard.current_reading].
  repeat split; auto.
  - replace (P - C) with (- (C - P)) by ring. now rewrite fits_opp.
  - replace (50 * (P - C)) with (- (50 * (C - P))) by ring. now rewrite fits_opp.
Qed.

Lemma exchanged_twice (n : AdminDashboard.NewBill) : exchanged (exchanged n) = n.
Proof. now destruct n. Qed.

(** C3, as stated, fails: previous reading 3000000, current reading 0.  The
    consumption, -3000000.00, fits the column; the amount at the default
    rate, -150000000.00, has eleven digits and overflows [DECIMAL(10,2)]:
    the insert is refused and no bill is stored. *)
Lemma createBill_lower_reading_overflow :
  let done :=
    run (AdminDashboard.createBill Scenario.plain_numeral (Scenario.reaching 2 "bill-1")
           (Scenario.admin_reads 3))
        Scenario.registered
        (AdminDashboard.setNewBill (Scenario.bill_form "3000000" "0")
           AdminDashboard.initial) in
  stored_reading (Scenario.plain_numeral "3000000") = Some 300000000
  /\ stored_reading (Scenario.plain_numeral "0") = Some 0
  /\ AdminDashboard.toasts (snd done) = [failure overflow]
  /\ ~ (exists b, In b (tbl_bills (fst done))
                  /\ bills.units_consumed b < 0 /\ bills.amount b < 0).
Proof.
  cbv zeta. split; [reflexivity |]. split; [reflexivity |].
  split; [vm_compute; reflexivity |].
  intros [b [Hin _]]. vm_compute in Hin. exact Hin.
Qed.

(** Readings that differ by less than a hundredth are stored equal: with
    0.004 before and 0.003 now the bill is stored with nothing consumed. *)
Lemma createBill_lower_reading_rounded :
  tbl_bills
    (fst (run (AdminDashboard.createBill Scenario.plain_numeral
                 (Scenario.reaching 2 "bill-1") (Scenario.admin_reads 3))
              Scenario.registered
              (AdminDashboard.setNewBill (Scenario.bill_form "0.004" "0.003")
                 AdminDashboard.initial))) =
  [createdBill (Scenario.reaching 2 "bill-1") (Scenario.bill_form "0.004" "0.003") 0 0].
Proof. vm_compute. reflexivity. Qed.

(** A written number in hundredths, rounded half away from zero: what a
    [DECIMAL(10,2)] column is assigned, before the check of its digits. *)
Definition hundredths (d : Numeric.decimal) : Z :=
  let e := Numeric.exponent d + 2 in
  if 0 <=? e then Numeric.mantissa d * 10 ^ e
  else Numeric.round_half_away (Numeric.mantissa d) (10 ^ (- e)).

Lemma stored_reading_hundredths (n : option Numeric.decimal) (h : Z) :
  stored_reading n = Some h <->
  exists d, n = Some d /\ h = hundredths d /\ Z.abs h < 10 ^ 10.
Proof.
  destruct n as [d |]; cbn [stored_reading].
  - change (Numeric.of_decimal d) with (Numeric.coerce (hundredths d)).
    unfold Numeric.coerce. destruct (Numeric.fits (hundredths d)) eqn:Hf.
    + split.
      * intros H. injection H as <-. exists d.
        split; [reflexivity |]. split; [reflexivity |]. now apply fits_bound.
      * intros [d' [Hd [-> _]]]. injection Hd as <-. reflexivity.
    + split; [intros H; discriminate H |].
      intros [d' [Hd [-> Hb]]]. injection Hd as <-.
      apply fits_bound in Hb. congruence.
  - split; [intros H; discriminate H | intros [d [Hd _]]; discriminate Hd].
Qed.

(** The grounds of acceptance, spelled out: the call gets through, the id is
    new, the customer is a stored profile, both fields parse to a number
    that fits the column once rounded to hundredths, and so do their
    difference and fifty times it. *)
Definition bill_within_columns (parseFloat : string -> option Numeric.decimal)
    (k : call) (n : AdminDashboard.NewBill) (db : database) : Prop :=
  transport k = None
  /\ ~ In (fresh k) (map bills.id (tbl_bills db))
  /\ In (AdminDashboard.customer_id n) (map profiles.id (tbl_profiles db))
  /\ exists dP dC,
       parseFloat (AdminDashboard.previous_reading n) = Some dP
       /\ parseFloat (AdminDashboard.current_reading n) = Some dC
       /\ Z.abs (hundredths dP) < 10 ^ 10
       /\ Z.abs (hundredths dC) < 10 ^ 10
       /\ Z.abs (hundredths dC - hundredths dP) < 10 ^ 10
       /\ Z.abs (50 * (hundredths dC - hundredths dP)) < 10 ^ 10.

Lemma bill_accepted_within_columns (parseFloat : string -> option Numeric.decimal)
    (k : call) (n : AdminDashboard.NewBill) (db : database) :
  bill_accepted parseFloat k n db <-> bill_within_columns parseFloat k n db.
Proof.
  unfold bill_accepted, bill_within_columns.
  rewrite has_key_not_map, has_key_map. split.
  - intros [Ht [Hk [Hp [P [C [HP [HC [Hu Ha]]]]]]]].
    apply stored_reading_hundredths in HP as [dP [HdP [-> HbP]]].
    apply stored_reading_hundredths in HC as [dC [HdC [-> HbC]]].
    apply fits_bound in Hu, Ha.
    split; [exact Ht |]. split; [exact Hk |]. split; [exact Hp |].
    exists dP, dC. auto 10.
  - intros [Ht [Hk [Hp [dP [dC [HdP [HdC [HbP [HbC [Hu Ha]]]]]]]]]].
    split; [exact Ht |]. split; [exact Hk |]. split; [exact Hp |].
    exists (hundredths dP), (hundredths dC).
    split; [apply stored_reading_hundredths; exists dP; auto |].
    split; [apply stored_reading_hundredths; exists dC; auto |].
    split; now apply fits_bound.
Qed.

(** C3, amended. [createBill] hands the two parsed readings to the insert as
    they are and never compares them; the tables end as that insert leaves
    them.  The store accepts the row exactly when the call gets through, the
    id is new, the customer is a stored profile, both readings parse and,
    rounded to hundredths, fit [DECIMAL(10,2)], and the consumption (current
    minus previous) and the amount (fifty times the consumption) fit it too;
    otherwise the row is refused and no table changes.  These grounds hold of
    a form exactly when they hold of the form with its two readings
    exchanged, so a refusal is never due to their order.  An accepted row
    holds the readings rounded to hundredths, their difference and fifty
    times that difference, each within the column; when the stored current
    reading is below the stored previous one, both [units_consumed] and
    [amount] are negative. *)
Theorem createBill_lower_reading
    (parseFloat : string -> option Numeric.decimal) (on_insert : call)
    (f : AdminDashboard.fetches) (db : database) (s : AdminDashboard.state) :
  let form := AdminDashboard.newBill s in
  let payload := AdminDashboard.billPayload parseFloat form in
  let inserted := insert_bill on_insert payload db in
  let db' := fst (run (AdminDashboard.createBill parseFloat on_insert f) db s) in
  (bills.new_previous_reading payload =
     number_key (parseFloat (AdminDashboard.previous_reading form))
   /\ bills.new_current_reading payload =
      number_key (parseFloat (AdminDashboard.current_reading form))
   /\ db' = fst inserted)
  /\ (error (snd inserted) = None <-> bill_within_columns parseFloat on_insert form db)
  /\ (error (snd inserted) <> None -> db' = db)
  /\ (forall dP dC,
        parseFloat (AdminDashboard.previous_reading form) = Some dP ->
        parseFloat (AdminDashboard.current_reading form) = Some dC ->
        10 ^ 10 <= Z.abs (hundredths dP)
        \/ 10 ^ 10 <= Z.abs (hundredths dC)
        \/ 10 ^ 10 <= Z.abs (hundredths dC - hundredths dP)
        \/ 10 ^ 10 <= Z.abs (50 * (hundredths dC - hundredths dP)) ->
        error (snd inserted) <> None /\ db' = db)
  /\ (bill_within_columns parseFloat on_insert form db <->
      bill_within_columns parseFloat on_insert (exchanged form) db)
  /\ (error (snd inserted) = None <->
      error (snd (insert_bill on_insert
                    (AdminDashboard.billPayload parseFloat (exchanged form)) db)) = None)
  /\ (error (snd inserted) = None ->
      exists b dP dC,
        tbl_bills db' = tbl_bills db ++ [b]
        /\ parseFloat (AdminDashboard.previous_reading form) = Some dP
        /\ parseFloat (AdminDashboard.current_reading form) = Some dC
        /\ stored_reading (parseFloat (AdminDashboard.previous_reading form)) =
           Some (bills.previous_reading b)
        /\ stored_reading (parseFloat (AdminDashboard.current_reading form)) =
           Some (bills.current_reading b)
        /\ bills.previous_reading b = hundredths dP
        /\ bills.current_reading b = hundredths dC
        /\ bills.units_consumed b = bills.current_reading b - bills.previous_reading b
        /\ bills.amount b = 50 * bills.units_consumed b
        /\ Z.abs (bills.previous_reading b) < 10 ^ 10
        /\ Z.abs (bills.current_reading b) < 10 ^ 10
        /\ Z.abs (bills.units_consumed b) < 10 ^ 10
        /\ Z.abs (bills.amount b) < 10 ^ 10
        /\ (bills.current_reading b < bills.previous_reading b ->
            bills.units_consumed b < 0 /\ bills.amount b < 0)).
Proof.
  intros form payload inserted db'.
  assert (Hdb : db' = fst inserted) by apply AdminFacts.createBill_tables.
  assert (Hsym : bill_accepted parseFloat on_insert form db <->
                 bill_accepted parseFloat on_insert (exchanged form) db).
  { split; [apply bill_accepted_exchanged |].
    intros H. apply bill_accepted_exchanged in H. now rewrite exchanged_twice in H. }
  split; [repeat split; exact Hdb |].
  split; [subst inserted payload;
          now rewrite createBill_accepted_iff, bill_accepted_within_columns |].
  assert (Hrefused : error (snd inserted) <> None -> db' = db).
  { intros Hbad. rewrite Hdb.
    destruct (insert_bill_outcome on_insert payload db)
      as [[Hsame _] | [b [_ [_ [_ [_ Hins]]]]]]; [exact Hsame |].
    subst inserted. rewrite Hins in Hbad. now elim Hbad. }
  split; [exact Hrefused |].
  split.
  { intros dP dC HdP HdC Hbig.
    assert (Hbad : error (snd inserted) <> None).
    { intros Hok. subst inserted payload.
      apply createBill_accepted_iff, bill_accepted_within_columns in Hok.
      destruct Hok as [_ [_ [_ [dP' [dC' [HdP' [HdC' [HbP [HbC [Hu Ha]]]]]]]]]].
      fold form in HdP', HdC'.
      assert (dP' = dP) by congruence. assert (dC' = dC) by congruence.
      subst dP' dC'. lia. }
    split; [exact Hbad | exact (Hrefused Hbad)]. }
  split; [now rewrite <- !bill_accepted_within_columns |].
  split; [subst inserted payload; now rewrite !createBill_accepted_iff |].
  intros Hok. rewrite Hdb.
  destruct (insert_bill_outcome on_insert payload db)
    as [[_ Hbad] | [b [Hb [_ [_ [_ Hins]]]]]]; [now elim Hbad |].
  destruct (build_createBill_sound parseFloat on_insert form b Hb)
    as [P [C [HP [HC [Hu [Ha ->]]]]]].
  destruct (proj1 (stored_reading_hundredths _ _) HP) as [dP [HdP [HeP HbP]]].
  destruct (proj1 (stored_reading_hundredths _ _) HC) as [dC [HdC [HeC HbC]]].
  apply fits_bound in Hu, Ha.
  exists (createdBill on_insert form P C), dP, dC.
  subst inserted. rewrite Hins.
  cbn [fst tbl_bills with_bills createdBill bills.previous_reading
         bills.current_reading bills.units_consumed bills.amount].
  split; [reflexivity |]. split; [exact HdP |]. split; [exact HdC |].
  split; [exact HP |]. split; [exact HC |]. split; [exact HeP |]. split; [exact HeC |].
  split; [reflexivity |]. split; [reflexivity |].
  split; [exact HbP |]. split; [exact HbC |]. split; [exact Hu |]. split; [exact Ha |].
  intros Hlt. split; lia.
Qed.

(** Readings 150 then 100 are stored, with -50 units and the amount -2500;
    readings 3000000 then 0, whose amount has eleven digits, are refused and
    leave the tables as they were. *)
Lemma createBill_lower_reading_scenario :
  let created previous current :=
    fst (run (AdminDashboard.createBill Scenario.plain_numeral
                (Scenario.reaching 2 "bill-1") (Scenario.admin_reads 3))
             Scenario.registered
             (AdminDashboard.setNewBill (Scenario.bill_form previous current)
                AdminDashboard.initial)) in
  (exists b, tbl_bills (created "150" "100") = [b]
             /\ bills.previous_reading b = 15000 /\ bills.current_reading b = 10000
             /\ bills.units_consumed b = -5000 /\ bills.amount b = -250000)
  /\ created "3000000" "0" = Scenario.registered.
Proof.
  intros created. split.
  - destruct (createBill_lower_reading Scenario.plain_numeral
                (Scenario.reaching 2 "bill-1") (Scenario.admin_reads 3)
                Scenario.registered
                (AdminDashboard.setNewBill (Scenario.bill_form "150" "100")
                   AdminDashboard.initial))
      as [_ [_ [_ [_ [_ [_ H]]]]]].
    destruct H as [b [dP [dC [Hb [_ [_ [HP [HC [_ [_ [Hu [Ha _]]]]]]]]]]]].
    + vm_compute. reflexivity.
    + exists b. split; [exact Hb |].
      assert (HP' : Some (bills.previous_reading b) = Some 15000)
        by (rewrite <- HP; vm_compute; reflexivity).
      assert (HC' : Some (bills.current_reading b) = Some 10000)
        by (rewrite <- HC; vm_compute; reflexivity).
      injection HP' as HP'. injection HC' as HC'.
      rewrite Hu in Ha. rewrite HP', HC' in Hu, Ha.
      split; [exact HP' |]. split; [exact HC' |].
      split; [exact Hu | exact Ha].
  - destruct (createBill_lower_reading Scenario.plain_numeral
                (Scenario.reaching 2 "bill-1") (Scenario.admin_reads 3)
                Scenario.registered
                (AdminDashboard.setNewBill (Scenario.bill_form "3000000" "0")
                   AdminDashboard.initial))
      as [_ [_ [_ [H _]]]].
    apply (H (Numeric.Decimal 3000000 0) (Numeric.Decimal 0 0));
      [reflexivity | reflexivity |].
    right. right. right. vm_compute. intros Hgt. discriminate Hgt.
Defined.

(** * Complaints *)

Section SubmitComplaint.

Variable profile : option profiles.row.
Variable on_insert : call.
Variable f : CustomerDashboard.fetches.
Variable db : database.
Variable s : CustomerDashboard.state.

Let inserted :=
  insert_complaint on_insert
    (CustomerDashboard.complaintPayload profile (CustomerDashboard.complaintData s)) db.

Lemma submitComplaint_recorded :
  error (snd inserted) = None ->
  CustomerDashboard.submitComplaint profile on_insert f (db, s) =
  CustomerDashboard.fetchData profile f
    (fst inserted,
     CustomerDashboard.setComplaintData CustomerDashboard.initialComplaintData
       (CustomerDashboard.toast (success "Complaint submitted successfully") s)).
Proof.
  subst inserted. intros He.
  unfold CustomerDashboard.submitComplaint, try_catch, and_then, await, throw_if_error,
    set_state.
  cbn [fst snd].
  destruct (insert_complaint _ _ db) as [db1 r1]. cbn [fst snd] in *.
  rewrite He. unfold ret. cbn [fst snd].
  destruct (CustomerFacts.fetchData_reads profile f db1
              (CustomerDashboard.setComplaintData CustomerDashboard.initialComplaintData
                 (CustomerDashboard.toast (success "Complaint submitted successfully") s)))
    as [s' [-> _]].
  reflexivity.
Qed.

(** The insert is refused: the handler shows the error and leaves the form
    as typed. *)
Lemma submitComplaint_stopped (e : PostgrestError) :
  error (snd inserted) = Some e ->
  CustomerDashboard.submitComplaint profile on_insert f (db, s) =
  ((fst inserted, CustomerDashboard.toast (failure (message e)) s), inr tt).
Proof.
  subst inserted. intros He.
  unfold CustomerDashboard.submitComplaint, try_catch, and_then, await, throw_if_error.
  cbn [fst snd].
  destruct (insert_complaint _ _ db) as [db1 r1]. cbn [fst snd] in *.
  rewrite He. reflexivity.
Qed.

End SubmitComplaint.

(** An edit that leaves the priority selector alone. *)
Definition keeps_priority (e : CustomerDashboard.ComplaintEdit) : bool :=
  match e with
  | CustomerDashboard.EditPriority _ => false
  | _ => true
  end.

Definition edited (edits : list CustomerDashboard.ComplaintEdit)
    (s : CustomerDashboard.state) : CustomerDashboard.state :=
  fold_left (fun s e => CustomerDashboard.editComplaint e s) edits s.

Lemma edited_keeps_priority (edits : list CustomerDashboard.ComplaintEdit)
    (s : CustomerDashboard.state) :
  forallb keeps_priority edits = true ->
  CustomerDashboard.priority (CustomerDashboard.complaintData (edited edits s)) =
  CustomerDashboard.priority (CustomerDashboard.complaintData s).
Proof.
  revert s. induction edits as [| e edits IH]; intros s H; cbn in *; [reflexivity |].
  apply andb_prop in H as [He Hr]. unfold edited in IH. rewrite IH by exact Hr.
  destruct e; cbn in *; congruence.
Qed.

(** ** A customer screen, from its mount to a submission *)

(** What happens on the screen and to the tables under it: an input of the
    complaint dialog changes, the payment form changes, a [fetchData]
    settles (the one of the mount or a later one), a payment or a complaint
    is submitted, or another client writes to the tables. *)
Inductive Action :=
| Types (e : CustomerDashboard.ComplaintEdit)
| Picks (d : CustomerDashboard.PaymentData)
| Fetches (f : CustomerDashboard.fetches)
| Pays (on_insert on_update : call) (f : CustomerDashboard.fetches)
| Submits (on_insert : call) (f : CustomerDashboard.fetches)
| Meanwhile (k : call) (r : request).

Definition sets_priority (a : Action) : bool :=
  match a with
  | Types (CustomerDashboard.EditPriority _) => true
  | _ => false
  end.

Definition submits (a : Action) : bool :=
  match a with
  | Submits _ _ => true
  | _ => false
  end.

Section Session.

Variable profile : option profiles.row.
Variable parseFloat : string -> option Numeric.decimal.

Definition perform (a : Action) (w : database * CustomerDashboard.state)
  : database * CustomerDashboard.state :=
  match a with
  | Types e => (fst w, CustomerDashboard.editComplaint e (snd w))
  | Picks d => (fst w, CustomerDashboard.setPaymentData d (snd w))
  | Fetches f => run (CustomerDashboard.fetchData profile f) (fst w) (snd w)
  | Pays on_insert on_update f =>
      run (CustomerDashboard.makePayment profile parseFloat on_insert on_update f)
          (fst w) (snd w)
  | Submits on_insert f =>
      run (CustomerDashboard.submitComplaint profile on_insert f) (fst w) (snd w)
  | Meanwhile k r => (fst (execute k r (fst w)), snd w)
  end.

Definition session (actions : list Action) (w : database * CustomerDashboard.state)
  : database * CustomerDashboard.state :=
  fold_left (fun w a => perform a w) actions w.

Definition form_priority (w : database * CustomerDashboard.state) : string :=
  CustomerDashboard.priority (CustomerDashboard.complaintData (snd w)).

Lemma fetchData_keeps_form (f : CustomerDashboard.fetches) (db : database)
    (s : CustomerDashboard.state) :
  CustomerDashboard.complaintData (snd (run (CustomerDashboard.fetchData profile f) db s)) =
  CustomerDashboard.complaintData s.
Proof.
  unfold run.
  destruct (CustomerFacts.fetchData_reads profile f db s) as [s' [-> [_ [_ Hc]]]].
  exact Hc.
Qed.

Lemma makePayment_keeps_form (on_insert on_update : call)
    (f : CustomerDashboard.fetches) (db : database) (s : CustomerDashboard.state) :
  CustomerDashboard.complaintData
    (snd (run (CustomerDashboard.makePayment profile parseFloat on_insert on_update f)
              db s)) =
  CustomerDashboard.complaintData s.
Proof.
  unfold run.
  destruct (error (snd (insert_payment on_insert
                          (CustomerDashboard.paymentPayload profile parseFloat
                             (CustomerDashboard.paymentData s)) db)))
    as [e |] eqn:He.
  - now rewrite (CustomerFacts.makePayment_refused profile parseFloat on_insert
                   on_update f db s e He).
  - rewrite (CustomerFacts.makePayment_recorded profile parseFloat on_insert on_update
               f db s He).
    match goal with
    | |- CustomerDashboard.complaintData
           (snd (fst (CustomerDashboard.fetchData ?p ?f (?d, ?st)))) = _ =>
        destruct (CustomerFacts.fetchData_reads p f d st) as [s' [-> [_ [_ Hc]]]]
    end.
    exact Hc.
Qed.

(** A submission empties the form when the complaint is stored, and leaves
    it as typed when it is refused. *)
Lemma submitComplaint_form (on_insert : call) (f : CustomerDashboard.fetches)
    (db : database) (s : CustomerDashboard.state) :
  CustomerDashboard.complaintData
    (snd (run (CustomerDashboard.submitComplaint profile on_insert f) db s)) =
  match error (snd (insert_complaint on_insert
                      (CustomerDashboard.complaintPayload profile
                         (CustomerDashboard.complaintData s)) db)) with
  | None => CustomerDashboard.initialComplaintData
  | Some _ => CustomerDashboard.complaintData s
  end.
Proof.
  unfold run.
  destruct (error (snd (insert_complaint on_insert
                          (CustomerDashboard.complaintPayload profile
                             (CustomerDashboard.complaintData s)) db)))
    as [e |] eqn:He.
  - now rewrite (submitComplaint_stopped profile on_insert f db s e He).
  - rewrite (submitComplaint_recorded profile on_insert f db s He).
    match goal with
    | |- CustomerDashboard.complaintData
           (snd (fst (CustomerDashboard.fetchData ?p ?f (?d, ?st)))) = _ =>
        destruct (CustomerFacts.fetchData_reads p f d st) as [s' [-> [_ [_ Hc]]]]
    end.
    exact Hc.
Qed.

(** Only the priority selector and a submission touch the priority. *)
Lemma perform_keeps_priority (a : Action) (w : database * CustomerDashboard.state) :
  sets_priority a = false -> submits a = false ->
  form_priority (perform a w) = form_priority w.
Proof.
  unfold form_priority.
  destruct a as [e | d | f | i u f | i f | k r]; cbn [perform snd]; intros Hp Hs.
  - destruct e; [reflexivity | reflexivity | discriminate Hp].
  - reflexivity.
  - now rewrite fetchData_keeps_form.
  - now rewrite makePayment_keeps_form.
  - discriminate Hs.
  - reflexivity.
Qed.

Lemma perform_keeps_medium (a : Action) (w : database * CustomerDashboard.state) :
  sets_priority a = false ->
  form_priority w = "medium" -> form_priority (perform a w) = "medium".
Proof.
  intros Hp Hw. destruct (submits a) eqn:Hs.
  - destruct a; try discriminate Hs. unfold form_priority in *. cbn [perform].
    rewrite submitComplaint_form. destruct (error _); [exact Hw | reflexivity].
  - now rewrite perform_keeps_priority.
Qed.

Lemma session_keeps_medium (actions : list Action)
    (w : database * CustomerDashboard.state) :
  forallb (fun a => negb (sets_priority a)) actions = true ->
  form_priority w = "medium" -> form_priority (session actions w) = "medium".
Proof.
  revert w. induction actions as [| a actions IH]; intros w Hall Hw; [exact Hw |].
  cbn [forallb] in Hall. apply andb_prop in Hall as [Ha Hall].
  apply negb_true_iff in Ha. cbn [session fold_left].
  change (form_priority (session actions (perform a w)) = "medium").
  apply IH; [exact Hall |]. now apply perform_keeps_medium.
Qed.

Lemma session_keeps_priority (actions : list Action)
    (w : database * CustomerDashboard.state) :
  forallb (fun a => negb (sets_priority a) && negb (submits a)) actions = true ->
  form_priority (session actions w) = form_priority w.
Proof.
  revert w. induction actions as [| a actions IH]; intros w Hall; [reflexivity |].
  cbn [forallb] in Hall. apply andb_prop in Hall as [Ha Hall].
  apply andb_prop in Ha as [Hp Hs]. apply negb_true_iff in Hp, Hs.
  cbn [session fold_left].
  change (form_priority (session actions (perform a w)) = form_priority w).
  rewrite IH by exact Hall. now apply perform_keeps_priority.
Qed.

Lemma session_chosen (before after : list Action) (v : string)
    (w : database * CustomerDashboard.state) :
  forallb (fun a => negb (sets_priority a) && negb (submits a)) after = true ->
  form_priority
    (session (before ++ Types (CustomerDashboard.EditPriority v) :: after) w) = v.
Proof.
  intros Hall. unfold session. rewrite fold_left_app. cbn [fold_left].
  change (form_priority
            (session after
               (perform (Types (CustomerDashboard.EditPriority v))
                  (session before w))) = v).
  rewrite session_keeps_priority by exact Hall. reflexivity.
Qed.

End Session.

(** C4. A complaint that [submitComplaint] gets stored is the last row of
    the table, has status 'open' and the priority of the form.  The priority
    of the form is the submitter's choice: on a screen where the priority
    selector was set to [v] and since then was not used again and no
    complaint was submitted, the stored priority is [v], whatever else
    happened on the screen (typing, fetches, payments) and to the tables.
    It is 'medium' when the selector was never used: the form starts at
    'medium', and from a form at 'medium' no typing, fetch, payment,
    submission or write of another client moves it.  After the submission
    the form is back at 'medium'. *)
Theorem submitComplaint_open_with_priority
    (profile : option profiles.row) (parseFloat : string -> option Numeric.decimal)
    (on_insert : call) (f : CustomerDashboard.fetches)
    (db : database) (s : CustomerDashboard.state) :
  let form := CustomerDashboard.complaintData s in
  let inserted :=
    insert_complaint on_insert (CustomerDashboard.complaintPayload profile form) db in
  let done := run (CustomerDashboard.submitComplaint profile on_insert f) db s in
  error (snd inserted) = None ->
  (exists c, tbl_complaints (fst done) = tbl_complaints db ++ [c]
             /\ complaints.status c = Some "open"
             /\ complaints.priority c = Some (CustomerDashboard.priority form)
             /\ (forall before after v w0,
                    forallb (fun a => negb (sets_priority a) && negb (submits a))
                            after = true ->
                    (db, s) =
                      session profile parseFloat
                        (before ++ Types (CustomerDashboard.EditPriority v) :: after)
                        w0 ->
                    complaints.priority c = Some v)
             /\ (forall actions db0,
                    forallb (fun a => negb (sets_priority a)) actions = true ->
                    (db, s) =
                      session profile parseFloat actions
                        (db0, CustomerDashboard.initial) ->
                    complaints.priority c = Some "medium")
             /\ (forall actions w0,
                    forallb (fun a => negb (sets_priority a)) actions = true ->
                    form_priority w0 = "medium" ->
                    (db, s) = session profile parseFloat actions w0 ->
                    complaints.priority c = Some "medium"))
  /\ CustomerDashboard.priority (CustomerDashboard.complaintData (snd done)) = "medium".
Proof.
  intros form inserted done Hok. subst done. unfold run.
  rewrite (submitComplaint_recorded profile on_insert f db s Hok).
  fold form inserted.
  destruct (CustomerFacts.fetchData_reads profile f (fst inserted)
              (CustomerDashboard.setComplaintData CustomerDashboard.initialComplaintData
                 (CustomerDashboard.toast (success "Complaint submitted successfully") s)))
    as [s' [Hs' [_ [_ Hc]]]].
  rewrite Hs'. cbn [fst snd]. split; [| rewrite Hc; reflexivity].
  destruct (insert_complaint_outcome on_insert
              (CustomerDashboard.complaintPayload profile form) db)
    as [[_ Hbad] | [c [Hc' [_ [_ [_ Hins]]]]]]; [now elim Hbad |].
  exists c. subst inserted. rewrite Hins. cbn [fst tbl_complaints with_complaints].
  split; [reflexivity |].
  unfold build_complaint in Hc'. cbn in Hc'. invert_checked Hc'.
  inversion Hc'; subst c; clear Hc'. cbn [complaints.status complaints.priority].
  split; [reflexivity |]. split; [reflexivity |].
  assert (Hform : forall w, (db, s) = w ->
                            CustomerDashboard.priority form = form_priority w).
  { intros w <-. reflexivity. }
  split; [| split].
  - intros before after v w0 Hall Hw. rewrite (Hform _ Hw).
    now rewrite session_chosen.
  - intros actions db0 Hall Hw. rewrite (Hform _ Hw).
    now rewrite session_keeps_medium.
  - intros actions w0 Hall Hmed Hw. rewrite (Hform _ Hw).
    now rewrite session_keeps_medium.
Qed.

Definition describing : CustomerDashboard.state :=
  edited [CustomerDashboard.EditSubject "No water";
          CustomerDashboard.EditDescription "Dry taps since Monday"]
         CustomerDashboard.initial.

(** The screen of the customer once mounted on her bill, the dialog filled
    in without a priority chosen. *)
Definition mounted : database * CustomerDashboard.state :=
  session (Some Scenario.amina) Scenario.plain_numeral
    [Fetches (Scenario.customer_reads 3);
     Types (CustomerDashboard.EditSubject "No water");
     Types (CustomerDashboard.EditDescription "Dry taps since Monday")]
    (Scenario.billed, CustomerDashboard.initial).

(** The same screen with the selector set to 'urgent', then to 'high', before
    the description is typed, a bill picked and the lists fetched again. *)
Definition escalated : database * CustomerDashboard.state :=
  session (Some Scenario.amina) Scenario.plain_numeral
    ([Fetches (Scenario.customer_reads 3);
      Types (CustomerDashboard.EditSubject "No water");
      Types (CustomerDashboard.EditPriority "urgent")]
     ++ Types (CustomerDashboard.EditPriority "high")
     :: [Types (CustomerDashboard.EditDescription "Dry taps since Monday");
         Picks (CustomerDashboard.paymentData paying);
         Fetches (Scenario.customer_reads 4)])
    (Scenario.billed, CustomerDashboard.initial).

Lemma submitComplaint_open_with_priority_scenario :
  let submitted w :=
    tbl_complaints
      (fst (run (CustomerDashboard.submitComplaint (Some Scenario.amina)
                   (Scenario.reaching 5 "complaint-1") (Scenario.customer_reads 6))
                (fst w) (snd w))) in
  List.length (CustomerDashboard.bills (snd mounted)) = 1%nat
  /\ (exists c, submitted mounted = [c]
                /\ complaints.status c = Some "open"
                /\ complaints.priority c = Some "medium")
  /\ (exists c, submitted escalated = [c]
                /\ complaints.status c = Some "open"
                /\ complaints.priority c = Some "high").
Proof.
  intros submitted. split; [vm_compute; reflexivity |]. split.
  - destruct (submitComplaint_open_with_priority (Some Scenario.amina)
                Scenario.plain_numeral
                (Scenario.reaching 5 "complaint-1") (Scenario.customer_reads 6)
                (fst mounted) (snd mounted))
      as [[c [Hc [Hs [_ [_ [Hm _]]]]]] _].
    + vm_compute. reflexivity.
    + exists c. split; [exact Hc |]. split; [exact Hs |].
      apply (Hm [Fetches (Scenario.customer_reads 3);
                 Types (CustomerDashboard.EditSubject "No water");
                 Types (CustomerDashboard.EditDescription "Dry taps since Monday")]
                Scenario.billed);
        [reflexivity | symmetry; apply surjective_pairing].
  - destruct (submitComplaint_open_with_priority (Some Scenario.amina)
                Scenario.plain_numeral
                (Scenario.reaching 5 "complaint-1") (Scenario.customer_reads 6)
                (fst escalated) (snd escalated))
      as [[c [Hc [Hs [_ [Hv _]]]]] _].
    + vm_compute. reflexivity.
    + exists c. split; [exact Hc |]. split; [exact Hs |].
      apply (Hv [Fetches (Scenario.customer_reads 3);
                 Types (CustomerDashboard.EditSubject "No water");
                 Types (CustomerDashboard.EditPriority "urgent")]
                [Types (CustomerDashboard.EditDescription "Dry taps since Monday");
                 Picks (CustomerDashboard.paymentData paying);
                 Fetches (Scenario.customer_reads 4)]
                "high" (Scenario.billed, CustomerDashboard.initial));
        [reflexivity | symmetry; apply surjective_pairing].
Defined.

(** The customer of the scenario has filed a complaint. *)
Definition complained : database :=
  fst (execute (Scenario.reaching 4 "complaint-1")
         (InsertComplaint
            (CustomerDashboard.complaintPayload (Some Scenario.amina)
               (CustomerDashboard.complaintData describing)))
         Scenario.billed).

Definition no_water : complaints.row :=
  {| complaints.id := "complaint-1"; complaints.customer_id := "profile-1";
     complaints.subject := "No water";
     complaints.description := "Dry taps since Monday";
     complaints.status := Some "open"; complaints.priority := Some "medium";
     complaints.admin_response := None; complaints.created_at := 4;
     complaints.updated_at := 4 |}.

Lemma complained_tables : complained = with_complaints [no_water] Scenario.billed.
Proof. vm_compute. reflexivity. Qed.

Lemma complained_reachable : reachable complained.
Proof. apply reachable_step, Scenario.billed_reachable. Qed.

(** C5, as stated, fails: the update also rewrites [updated_at].  The
    complaint filed at time 4 and answered at time 9 comes out with
    [updated_at = 9]: the trigger [update_complaints_updated_at] stamps it. *)
Lemma updateComplaintStatus_stamps_updated_at :
  let db' :=
    fst (run (AdminDashboard.updateComplaintStatus "complaint-1" "resolved"
                "Supply restored" (Scenario.reaching 9 "") (Scenario.admin_reads 10))
             complained AdminDashboard.initial) in
  tbl_complaints complained = [no_water]
  /\ exists c', tbl_complaints db' = [c']
                /\ complaints.id c' = complaints.id no_water
                /\ complaints.updated_at c' <> complaints.updated_at no_water.
Proof.
  cbv zeta. split; [vm_compute; reflexivity |].
  exists (complaints.updated
            {| complaints.set_status := "resolved";
               complaints.set_admin_response := "Supply restored" |} 9 no_water).
  split; [vm_compute; reflexivity |]. split; [reflexivity |].
  cbn. discriminate.
Qed.

(** C5, amended. [updateComplaintStatus] issues one update carrying the
    status and the response together.  Of the reachable tables it rewrites
    at most one row, the complaint with that id: its status and
    [admin_response] become the given ones, its [updated_at] becomes the time
    of the update, and its other columns stay.  Every other complaint, and
    every row of the other tables, is as before; when the update is refused
    nothing changes at all. *)
Theorem updateComplaintStatus_frame
    (complaintId status response : string) (on_update : call)
    (f : AdminDashboard.fetches) (db : database) (s : AdminDashboard.state) :
  let written :=
    update_complaint on_update
      {| complaints.set_status := status; complaints.set_admin_response := response |}
      complaintId db in
  let db' :=
    fst (run (AdminDashboard.updateComplaintStatus complaintId status response
                on_update f) db s) in
  reachable db ->
  db' = fst written
  /\ tbl_profiles db' = tbl_profiles db
  /\ tbl_bills db' = tbl_bills db
  /\ tbl_payments db' = tbl_payments db
  /\ List.length (tbl_complaints db') = List.length (tbl_complaints db)
  /\ (forall i c,
         nth_error (tbl_complaints db) i = Some c ->
         exists c',
           nth_error (tbl_complaints db') i = Some c'
           /\ (complaints.id c <> complaintId -> c' = c)
           /\ (error (snd written) <> None -> c' = c)
           /\ (complaints.id c = complaintId -> error (snd written) = None ->
               complaints.status c' = Some status
               /\ complaints.admin_response c' = Some response
               /\ complaints.updated_at c' = now on_update
               /\ complaints.id c' = complaints.id c
               /\ complaints.customer_id c' = complaints.customer_id c
               /\ complaints.subject c' = complaints.subject c
               /\ complaints.description c' = complaints.description c
               /\ complaints.priority c' = complaints.priority c
               /\ complaints.created_at c' = complaints.created_at c))
  /\ (forall i j ci cj,
         nth_error (tbl_complaints db) i = Some ci ->
         nth_error (tbl_complaints db) j = Some cj ->
         complaints.id ci = complaintId -> complaints.id cj = complaintId -> i = j).
Proof.
  intros written db' Hreach.
  assert (Hdb : db' = fst written) by apply AdminFacts.updateComplaintStatus_tables.
  split; [exact Hdb |].
  assert (Hkey : forall i j ci cj,
             nth_error (tbl_complaints db) i = Some ci ->
             nth_error (tbl_complaints db) j = Some cj ->
             complaints.id ci = complaintId -> complaints.id cj = complaintId -> i = j).
  { intros i j ci cj Hi Hj Hci Hcj.
    apply reachable_consistent in Hreach. destruct Hreach as [_ _ _ Hnd].
    rewrite NoDup_nth_error in Hnd. apply Hnd.
    - rewrite length_map. apply nth_error_Some. congruence.
    - rewrite !nth_error_map, Hi, Hj. cbn. congruence. }
  destruct (update_complaint_outcome on_update
              {| complaints.set_status := status;
                 complaints.set_admin_response := response |} complaintId db)
    as [[Hsame Hbad] | [_ Hrun]].
  - fold written in Hsame, Hbad. rewrite Hdb, Hsame.
    repeat split; auto. intros i c Hi. exists c.
    split; [exact Hi |]. split; [reflexivity |]. split; [reflexivity |].
    intros _ Hok. now elim Hbad.
  - fold written in Hrun. rewrite Hdb, Hrun. unfold rewrite_complaints. cbn [fst snd].
    cbn [tbl_profiles tbl_bills tbl_payments tbl_complaints with_complaints].
    split; [reflexivity |]. split; [reflexivity |]. split; [reflexivity |].
    split; [apply length_map |]. split; [| exact Hkey].
    intros i c Hi.
    exists (if String.eqb (complaints.id c) complaintId
            then complaints.updated
                   {| complaints.set_status := status;
                      complaints.set_admin_response := response |} (now on_update) c
            else c).
    split; [rewrite nth_error_map, Hi; reflexivity |].
    destruct (String.eqb_spec (complaints.id c) complaintId) as [Heq | Hne].
    + split; [now intros Hc |]. split; [intros Hc; now elim Hc |].
      intros _ _. cbn. repeat split.
    + split; [reflexivity |]. split; [reflexivity |]. intros Hc. now elim Hne.
Qed.

Lemma updateComplaintStatus_frame_scenario :
  let db' :=
    fst (run (AdminDashboard.updateComplaintStatus "complaint-1" "resolved"
                "Supply restored" (Scenario.reaching 9 "") (Scenario.admin_reads 10))
             complained AdminDashboard.initial) in
  tbl_bills db' = tbl_bills complained
  /\ exists c', nth_error (tbl_complaints db') 0 = Some c'
                /\ complaints.status c' = Some "resolved"
                /\ complaints.admin_response c' = Some "Supply restored"
                /\ complaints.subject c' = "No water".
Proof.
  destruct (updateComplaintStatus_frame "complaint-1" "resolved" "Supply restored"
              (Scenario.reaching 9 "") (Scenario.admin_reads 10) complained
              AdminDashboard.initial complained_reachable)
    as [_ [_ [Hb [_ [_ [Hrow _]]]]]].
  split; [exact Hb |].
  destruct (Hrow 0%nat no_water) as [c' [Hc' [_ [_ Hset]]]].
  - rewrite complained_tables. reflexivity.
  - exists c'. split; [exact Hc' |].
    destruct Hset as [Hs [Ha [_ [_ [_ [Hsub _]]]]]];
      [reflexivity | vm_compute; reflexivity |].
    split; [exact Hs |]. split; [exact Ha | exact Hsub].
Defined.

(** ** Ordering of a read *)

Definition descending {A} (key : A -> Z) (l : list A) : Prop :=
  StronglySorted (fun a b => key b <= key a) l.

Lemma insert_desc_perm {A} (key : A -> Z) (x : A) (l : list A) :
  Permutation (insert_desc key x l) (x :: l).
Proof.
  induction l as [| y l IH]; cbn; [reflexivity |].
  destruct (key y <=? key x); [reflexivity |].
  rewrite IH. apply perm_swap.
Qed.

Lemma order_desc_perm {A} (key : A -> Z) (l : list A) :
  Permutation (order_desc key l) l.
Proof.
  induction l as [| x l IH]; cbn; [reflexivity |].
  rewrite insert_desc_perm. now constructor.
Qed.

Lemma insert_desc_descending {A} (key : A -> Z) (x : A) (l : list A) :
  descending key l -> descending key (insert_desc key x l).
Proof.
  unfold descending. induction l as [| y l IH]; intros Hs; cbn.
  - repeat constructor.
  - inversion Hs as [| ? ? Hl Hy]; subst.
    destruct (Z.leb_spec (key y) (key x)) as [Hle | Hlt].
    + constructor; [exact Hs |]. constructor; [exact Hle |].
      eapply Forall_impl; [| exact Hy]. cbn. intros b Hb. lia.
    + constructor; [now apply IH |].
      rewrite Forall_forall. intros b Hb.
      apply (Permutation_in _ (insert_desc_perm key x l)) in Hb.
      destruct Hb as [<- | Hb]; [lia |].
      rewrite Forall_forall in Hy. now apply Hy.
Qed.

Lemma order_desc_descending {A} (key : A -> Z) (l : list A) :
  descending key (order_desc key l).
Proof.
  induction l as [| x l IH]; cbn; [constructor |].
  now apply insert_desc_descending.
Qed.

Definition all_reaching (f : CustomerDashboard.fetches) : Prop :=
  transport (CustomerDashboard.on_bills f) = None
  /\ transport (CustomerDashboard.on_payments f) = None
  /\ transport (CustomerDashboard.on_complaints f) = None.

Definition admin_all_reaching (f : AdminDashboard.fetches) : Prop :=
  transport (AdminDashboard.on_customers f) = None
  /\ transport (AdminDashboard.on_bills f) = None
  /\ transport (AdminDashboard.on_payments f) = None
  /\ transport (AdminDashboard.on_complaints f) = None.

Lemma select_embedding_served {A} (k : call) (table : database -> list A)
    (customer : A -> uuid) (key : A -> Z) (db : database) :
  transport k = None ->
  or_empty (data (snd (AdminDashboard.select_embedding k table customer key db))) =
  map (fun r => (r, AdminDashboard.embedded_profile db (customer r)))
      (order_desc key (table db)).
Proof. unfold AdminDashboard.select_embedding, served. now intros ->. Qed.

(** Two reads that get through answer alike, whatever their surroundings. *)
Lemma select_repeatable {A} (k1 k2 : call) (table : database -> list A)
    (where_ : A -> bool) (order : list A -> list A) (db : database) :
  transport k1 = None -> transport k2 = None ->
  snd (select k1 table where_ order db) = snd (select k2 table where_ order db).
Proof. unfold select, served. now intros -> ->. Qed.

Lemma select_embedding_repeatable {A} (k1 k2 : call) (table : database -> list A)
    (customer : A -> uuid) (key : A -> Z) (db : database) :
  transport k1 = None -> transport k2 = None ->
  snd (AdminDashboard.select_embedding k1 table customer key db) =
  snd (AdminDashboard.select_embedding k2 table customer key db).
Proof. unfold AdminDashboard.select_embedding, served. now intros -> ->. Qed.

(** * Reads *)

(** C7. With the tables fixed, a second [fetchData] shows the lists of the
    first, row for row, on both dashboards, and neither changes the tables.
    On the customer dashboard each list is made of exactly the rows of its
    table whose [customer_id] is the id of the viewing profile, latest first:
    bills and complaints by [created_at], payments by [payment_date]. *)
Theorem fetchData_repeatable (db : database) :
  (forall (p : profiles.row) (f1 f2 : CustomerDashboard.fetches)
          (s : CustomerDashboard.state),
      all_reaching f1 -> all_reaching f2 ->
      let first := run (CustomerDashboard.fetchData (Some p) f1) db s in
      let second :=
        run (CustomerDashboard.fetchData (Some p) f2) (fst first) (snd first) in
      fst first = db /\ fst second = db
      /\ CustomerDashboard.bills (snd second) = CustomerDashboard.bills (snd first)
      /\ CustomerDashboard.payments (snd second) = CustomerDashboard.payments (snd first)
      /\ CustomerDashboard.complaints (snd second) =
         CustomerDashboard.complaints (snd first)
      /\ (exists rows,
             CustomerDashboard.bills (snd first) = map CustomerDashboard.Bill.of_row rows
             /\ Permutation rows
                  (filter (fun b => String.eqb (bills.customer_id b) (profiles.id p))
                          (tbl_bills db))
             /\ Forall (fun b => bills.customer_id b = profiles.id p) rows
             /\ descending bills.created_at rows)
      /\ (exists rows,
             CustomerDashboard.payments (snd first) =
               map CustomerDashboard.Payment.of_row rows
             /\ Permutation rows
                  (filter (fun x => String.eqb (payments.customer_id x) (profiles.id p))
                          (tbl_payments db))
             /\ Forall (fun x => payments.customer_id x = profiles.id p) rows
             /\ descending payments.payment_date rows)
      /\ (exists rows,
             CustomerDashboard.complaints (snd first) =
               map CustomerDashboard.Complaint.of_row rows
             /\ Permutation rows
                  (filter (fun c => String.eqb (complaints.customer_id c) (profiles.id p))
                          (tbl_complaints db))
             /\ Forall (fun c => complaints.customer_id c = profiles.id p) rows
             /\ descending complaints.created_at rows))
  /\ (forall (f1 f2 : AdminDashboard.fetches) (s : AdminDashboard.state),
         admin_all_reaching f1 -> admin_all_reaching f2 ->
         let first := run (AdminDashboard.fetchData f1) db s in
         let second := run (AdminDashboard.fetchData f2) (fst first) (snd first) in
         fst first = db /\ fst second = db
         /\ AdminDashboard.customers (snd second) = AdminDashboard.customers (snd first)
         /\ AdminDashboard.bills (snd second) = AdminDashboard.bills (snd first)
         /\ AdminDashboard.payments (snd second) = AdminDashboard.payments (snd first)
         /\ AdminDashboard.complaints (snd second) =
            AdminDashboard.complaints (snd first)).
Proof.
  split.
  - intros p f1 f2 s [Hb1 [Hp1 Hc1]] [Hb2 [Hp2 Hc2]] first second.
    subst second first. unfold run. rewrite !CustomerFacts.fetchData_loaded.
    cbn [fst snd]. unfold CustomerFacts.refreshed. cbn.
    unfold CustomerFacts.shown_bills, CustomerFacts.shown_payments,
      CustomerFacts.shown_complaints, CustomerDashboard.select_bills,
      CustomerDashboard.select_payments, CustomerDashboard.select_complaints.
    rewrite (select_repeatable _ _ _ _ _ db Hb2 Hb1),
      (select_repeatable _ _ _ _ _ db Hp2 Hp1),
      (select_repeatable _ _ _ _ _ db Hc2 Hc1).
    rewrite !select_served by assumption.
    repeat (split; [reflexivity |]).
    split; [| split].
    all: eexists; split; [reflexivity |]; split; [apply order_desc_perm |];
      split; [| apply order_desc_descending].
    all: rewrite Forall_forall; intros r Hr;
      apply (Permutation_in _ (order_desc_perm _ _)) in Hr;
      apply filter_In in Hr as [_ Hr]; now apply String.eqb_eq in Hr.
  - intros f1 f2 s [Hu1 [Hb1 [Hp1 Hc1]]] [Hu2 [Hb2 [Hp2 Hc2]]] first second.
    subst second first. unfold run. rewrite !AdminFacts.admin_fetchData_reads.
    cbn [fst snd]. unfold AdminFacts.refreshed. cbn.
    unfold AdminFacts.shown_customers, AdminFacts.shown_bills,
      AdminFacts.shown_payments, AdminFacts.shown_complaints,
      AdminDashboard.select_customers.
    rewrite (select_repeatable _ _ _ _ _ db Hu2 Hu1),
      (select_embedding_repeatable _ _ _ _ _ db Hb2 Hb1),
      (select_embedding_repeatable _ _ _ _ _ db Hp2 Hp1),
      (select_embedding_repeatable _ _ _ _ _ db Hc2 Hc1).
    repeat split; reflexivity.
Qed.

(** A second bill, a month later. *)
Definition billed_twice : database :=
  fst (run (AdminDashboard.createBill Scenario.plain_numeral
              (Scenario.reaching 8 "bill-2") (Scenario.admin_reads 9))
           Scenario.billed
           (AdminDashboard.setNewBill (Scenario.bill_form "150" "180.5")
              AdminDashboard.initial)).

Lemma fetchData_repeatable_scenario :
  let first :=
    run (CustomerDashboard.fetchData (Some Scenario.amina) (Scenario.customer_reads 10))
        billed_twice CustomerDashboard.initial in
  let second :=
    run (CustomerDashboard.fetchData (Some Scenario.amina) (Scenario.customer_reads 11))
        (fst first) (snd first) in
  CustomerDashboard.bills (snd second) = CustomerDashboard.bills (snd first)
  /\ map CustomerDashboard.Bill.id (CustomerDashboard.bills (snd first)) =
     ["bill-2"; "bill-1"]
  /\ map CustomerDashboard.Bill.amount (CustomerDashboard.bills (snd first)) =
     [1525%float; 2500%float].
Proof.
  destruct (fetchData_repeatable billed_twice) as [H _].
  destruct (H Scenario.amina (Scenario.customer_reads 10) (Scenario.customer_reads 11)
              CustomerDashboard.initial)
    as [_ [_ [Hbills _]]].
  - repeat split.
  - repeat split.
  - split; [exact Hbills |]. split; vm_compute; reflexivity.
Defined.

(** ** Counting *)

Lemma filter_length_perm {A} (keep : A -> bool) (l l' : list A) :
  Permutation l l' -> List.length (filter keep l) = List.length (filter keep l').
Proof.
  induction 1 as [| x l l' _ IH | x y l | l l' l'' _ IH1 _ IH2]; cbn.
  - reflexivity.
  - destruct (keep x); cbn; congruence.
  - destruct (keep x), (keep y); reflexivity.
  - congruence.
Qed.

Lemma filter_map_length {A B} (keep : B -> bool) (g : A -> B) (l : list A) :
  List.length (filter keep (map g l)) = List.length (filter (fun a => keep (g a)) l).
Proof.
  induction l as [| a l IH]; cbn; [reflexivity |].
  destruct (keep (g a)); cbn; congruence.
Qed.

(** The rows of the table that are open. *)
Definition open_rows (l : list complaints.row) : nat :=
  List.length (filter (fun c => is_text (complaints.status c) "open") l).

Lemma pending_refreshed (f : AdminDashboard.fetches) (db : database)
    (s : AdminDashboard.state) :
  transport (AdminDashboard.on_complaints f) = None ->
  AdminDashboard.pendingComplaints (AdminDashboard.stats (AdminFacts.refreshed f db s)) =
  open_rows (tbl_complaints db).
Proof.
  intros Hc. cbn.
  unfold AdminFacts.shown_complaints. rewrite select_embedding_served by exact Hc.
  rewrite !filter_map_length. cbn. unfold open_rows.
  apply filter_length_perm, order_desc_perm.
Qed.

Lemma pending_of_fetch (f : AdminDashboard.fetches) (db : database)
    (s : AdminDashboard.state) :
  transport (AdminDashboard.on_complaints f) = None ->
  AdminDashboard.pendingComplaints
    (AdminDashboard.stats (snd (run (AdminDashboard.fetchData f) db s))) =
  open_rows (tbl_complaints db).
Proof.
  intros Hc. unfold run. rewrite AdminFacts.admin_fetchData_reads.
  now apply pending_refreshed.
Qed.

Lemma open_rows_rewritten (u : complaints.Update) (t : timestamp) (target : uuid)
    (l : list complaints.row) (c : complaints.row) :
  NoDup (map complaints.id l) ->
  In c l -> complaints.id c = target -> complaints.status c = Some "open" ->
  complaints.set_status u <> "open" ->
  (open_rows
     (map (fun r => if String.eqb (complaints.id r) target
                    then complaints.updated u t r else r) l) + 1)%nat =
  open_rows l.
Proof.
  intros Hnd Hin Hid Hst Hnew. unfold open_rows.
  induction l as [| r l IH]; [destruct Hin |].
  cbn [map complaints.id] in Hnd. inversion Hnd as [| ? ? Hfresh Hnd']; subst.
  assert (Hrest : forall r', In r' l -> complaints.id r' <> complaints.id r).
  { intros r' Hr' Heq. apply Hfresh. rewrite <- Heq. now apply in_map. }
  destruct Hin as [-> | Hin].
  - cbn [map filter]. rewrite String.eqb_refl. cbn [complaints.updated complaints.status].
    rewrite Hst. cbn [is_text].
    destruct (String.eqb_spec (complaints.set_status u) "open") as [He | _];
      [now elim Hnew |].
    rewrite String.eqb_refl. cbn [List.length].
    replace (map _ l) with l; [lia |].
    rewrite <- (map_id l) at 1. apply map_ext_in. intros r' Hr'.
    destruct (String.eqb_spec (complaints.id r') (complaints.id c)) as [He | _];
      [now elim (Hrest r' Hr') | reflexivity].
  - cbn [map filter].
    destruct (String.eqb_spec (complaints.id r) (complaints.id c)) as [He | _].
    { elim (Hrest c Hin). congruence. }
    specialize (IH Hnd' Hin).
    destruct (is_text (complaints.status r) "open"); cbn [List.length]; lia.
Qed.

(** The number of complaints whose status is exactly 'open'. *)
Fixpoint open_complaints (l : list AdminDashboard.Complaint.t) : nat :=
  match l with
  | [] => 0
  | c :: rest =>
      match AdminDashboard.Complaint.status c with
      | Some "open" => S (open_complaints rest)
      | _ => open_complaints rest
      end
  end.

Lemma pendingComplaints_open_complaints (s : AdminDashboard.state) :
  AdminDashboard.pendingComplaints (AdminDashboard.stats s) =
  open_complaints (AdminDashboard.complaints s).
Proof.
  cbn. induction (AdminDashboard.complaints s) as [| c l IH]; cbn; [reflexivity |].
  destruct (AdminDashboard.Complaint.status c) as [st |]; cbn; [| exact IH].
  destruct (String.eqb_spec st "open") as [-> | Hne]; cbn; [now rewrite IH |].
  rewrite IH. clear IH.
  repeat match goal with
         | |- context [match ?x with _ => _ end] => destruct x; try reflexivity
         end.
  now elim Hne.
Qed.

Lemma resolve_goes_through (k : call) (response : string) (target : uuid)
    (db : database) :
  transport k = None ->
  update_complaint k
    {| complaints.set_status := "resolved"; complaints.set_admin_response := response |}
    target db =
  (rewrite_complaints k
     {| complaints.set_status := "resolved"; complaints.set_admin_response := response |}
     target db,
   succeed tt).
Proof.
  intros Ht. unfold update_complaint. rewrite served_through by exact Ht.
  cbn. rewrite andb_false_r. reflexivity.
Qed.

(** C6. The "Pending Complaints" figure is the number of complaints on the
    screen whose status is exactly 'open': a complaint that is
    'in_progress', 'resolved' or 'closed' adds nothing to it, an open one
    adds one.  Marking an open complaint 'resolved' takes it out: after the
    update and the refresh that follows it, the figure is one less than the
    figure over the same tables before. *)
Theorem pendingComplaints_open_only (s : AdminDashboard.state) :
  AdminDashboard.pendingComplaints (AdminDashboard.stats s) =
    open_complaints (AdminDashboard.complaints s)
  /\ (forall c l st,
         AdminDashboard.Complaint.status c = Some st ->
         In st ["in_progress"; "resolved"; "closed"] ->
         AdminDashboard.pendingComplaints
           (AdminDashboard.stats (AdminDashboard.setComplaints (c :: l) s)) =
         AdminDashboard.pendingComplaints
           (AdminDashboard.stats (AdminDashboard.setComplaints l s)))
  /\ (forall c l,
         AdminDashboard.Complaint.status c = Some "open" ->
         AdminDashboard.pendingComplaints
           (AdminDashboard.stats (AdminDashboard.setComplaints (c :: l) s)) =
         S (AdminDashboard.pendingComplaints
              (AdminDashboard.stats (AdminDashboard.setComplaints l s))))
  /\ (forall (db : database) (f0 f : AdminDashboard.fetches) (on_update : call)
             (complaintId response : string) (c : complaints.row),
         reachable db ->
         transport (AdminDashboard.on_complaints f0) = None ->
         transport on_update = None ->
         transport (AdminDashboard.on_complaints f) = None ->
         In c (tbl_complaints db) ->
         complaints.id c = complaintId ->
         complaints.status c = Some "open" ->
         let before := snd (run (AdminDashboard.fetchData f0) db s) in
         let after :=
           snd (run (AdminDashboard.updateComplaintStatus complaintId "resolved"
                       response on_update f) db before) in
         (AdminDashboard.pendingComplaints (AdminDashboard.stats after) + 1)%nat =
         AdminDashboard.pendingComplaints (AdminDashboard.stats before)).
Proof.
  split; [apply pendingComplaints_open_complaints |]. split; [| split].
  - intros c l st Hst Hin. cbn. rewrite Hst. cbn.
    destruct Hin as [<- | [<- | [<- | []]]]; reflexivity.
  - intros c l Hst. cbn. rewrite Hst. reflexivity.
  - intros db f0 f on_update complaintId response c Hreach Hf0 Hup Hf Hin Hid Hst
           before after.
    subst after before. rewrite (pending_of_fetch f0 db s Hf0).
    unfold run at 1.
    rewrite AdminFacts.updateComplaintStatus_recorded
      by (rewrite resolve_goes_through by exact Hup; reflexivity).
    cbn [fst snd]. rewrite pending_refreshed by exact Hf.
    rewrite resolve_goes_through by exact Hup. cbn [fst].
    unfold rewrite_complaints. cbn [tbl_complaints with_complaints].
    apply reachable_consistent in Hreach. destruct Hreach as [_ _ _ Hnd].
    apply (open_rows_rewritten _ _ _ _ c); auto. cbn. discriminate.
Qed.

Lemma pendingComplaints_open_only_scenario :
  let before :=
    snd (run (AdminDashboard.fetchData (Scenario.admin_reads 8)) complained
             AdminDashboard.initial) in
  let after :=
    snd (run (AdminDashboard.updateComplaintStatus "complaint-1" "resolved"
                "Supply restored" (Scenario.reaching 9 "") (Scenario.admin_reads 10))
             complained before) in
  AdminDashboard.pendingComplaints (AdminDashboard.stats before) = 1%nat
  /\ AdminDashboard.pendingComplaints (AdminDashboard.stats after) = 0%nat.
Proof.
  destruct (pendingComplaints_open_only AdminDashboard.initial) as [_ [_ [_ H]]].
  specialize (H complained (Scenario.admin_reads 8) (Scenario.admin_reads 10)
                (Scenario.reaching 9 "") "complaint-1" "Supply restored" no_water
                complained_reachable).
  cbv zeta in H.
  assert (Hbefore :
            AdminDashboard.pendingComplaints
              (AdminDashboard.stats
                 (snd (run (AdminDashboard.fetchData (Scenario.admin_reads 8)) complained
                           AdminDashboard.initial))) = 1%nat)
    by (vm_compute; reflexivity).
  split; [exact Hbefore |].
  rewrite Hbefore in H.
  assert (Hin : In no_water (tbl_complaints complained))
    by (rewrite complained_tables; left; reflexivity).
  specialize (H eq_refl eq_refl eq_refl Hin eq_refl eq_refl). lia.
Defined.

(** * Figures of the dashboards *)

Lemma fold_left_amounts {A} (amount : A -> float) (l : list A) (start : float) :
  fold_left (fun sum x => (sum + amount x)%float) l start =
  fold_left PrimFloat.add (map amount l) start.
Proof.
  revert start. induction l as [| x l IH]; intros start; cbn; [reflexivity |].
  apply IH.
Qed.

Lemma pendingBills_without (before after : list CustomerDashboard.Bill.t)
    (b : CustomerDashboard.Bill.t) :
  is_text (CustomerDashboard.Bill.status b) "pending" = false ->
  CustomerDashboard.pendingBills (before ++ b :: after) =
  CustomerDashboard.pendingBills (before ++ after).
Proof.
  intros Hb. unfold CustomerDashboard.pendingBills.
  rewrite !filter_app. cbn [filter]. now rewrite Hb.
Qed.

(** C8. "Outstanding Bills" and "Total Outstanding" range over the bills
    whose status is exactly 'pending'.  A bill with any other status, an
    'overdue' one in particular, changes neither figure wherever it stands in
    the list, and is not among the bills the payment dialog offers; a pending
    bill counts for one, adds its amount and is offered. *)
Theorem outstanding_pending_only (before after : list CustomerDashboard.Bill.t)
    (b : CustomerDashboard.Bill.t) :
  CustomerDashboard.totalOutstanding (before ++ b :: after) =
    fold_left PrimFloat.add
      (map CustomerDashboard.Bill.amount
         (filter (fun x => is_text (CustomerDashboard.Bill.status x) "pending")
                 (before ++ b :: after)))
      0%float
  /\ (CustomerDashboard.Bill.status b = Some "overdue"
      \/ is_text (CustomerDashboard.Bill.status b) "pending" = false ->
      CustomerDashboard.outstandingBills (before ++ b :: after) =
        CustomerDashboard.outstandingBills (before ++ after)
      /\ CustomerDashboard.totalOutstanding (before ++ b :: after) =
         CustomerDashboard.totalOutstanding (before ++ after)
      /\ CustomerDashboard.selectableBills (before ++ b :: after) =
         CustomerDashboard.selectableBills (before ++ after)
      /\ ~ In b (CustomerDashboard.pendingBills (before ++ b :: after)))
  /\ (CustomerDashboard.Bill.status b = Some "pending" ->
      CustomerDashboard.outstandingBills (before ++ b :: after) =
        S (CustomerDashboard.outstandingBills (before ++ after))
      /\ CustomerDashboard.totalOutstanding (before ++ [b]) =
         (CustomerDashboard.totalOutstanding before + CustomerDashboard.Bill.amount b)%float
      /\ In (CustomerDashboard.Bill.id b)
            (CustomerDashboard.selectableBills (before ++ b :: after))).
Proof.
  split; [apply fold_left_amounts |]. split.
  - intros H.
    assert (Hb : is_text (CustomerDashboard.Bill.status b) "pending" = false).
    { destruct H as [-> | H]; [reflexivity | exact H]. }
    unfold CustomerDashboard.outstandingBills, CustomerDashboard.totalOutstanding,
      CustomerDashboard.selectableBills.
    rewrite !(pendingBills_without before after b Hb).
    repeat split. intros Hin.
    apply filter_In in Hin as [_ Hin]. congruence.
  - intros Hst.
    assert (Hb : is_text (CustomerDashboard.Bill.status b) "pending" = true)
      by (rewrite Hst; reflexivity).
    unfold CustomerDashboard.outstandingBills, CustomerDashboard.totalOutstanding,
      CustomerDashboard.selectableBills, CustomerDashboard.pendingBills.
    rewrite !filter_app. cbn [filter]. rewrite Hb. split; [| split].
    + rewrite !length_app. cbn [List.length]. lia.
    + rewrite fold_left_app. reflexivity.
    + apply in_map, in_or_app. right. left. reflexivity.
Qed.

Definition bill_on_screen (id status : string) (amount : Z) : CustomerDashboard.Bill.t :=
  {| CustomerDashboard.Bill.id := id; CustomerDashboard.Bill.meter_number := "M-1";
     CustomerDashboard.Bill.previous_reading := 0%float;
     CustomerDashboard.Bill.current_reading := 0%float;
     CustomerDashboard.Bill.units_consumed := 0%float;
     CustomerDashboard.Bill.amount := number_of_numeric amount;
     CustomerDashboard.Bill.bill_month := "January 2024";
     CustomerDashboard.Bill.due_date := "2024-02-15";
     CustomerDashboard.Bill.status := Some status;
     CustomerDashboard.Bill.created_at := 2 |}.

Lemma outstanding_pending_only_scenario :
  let pending := bill_on_screen "bill-2" "pending" 152500 in
  let overdue := bill_on_screen "bill-1" "overdue" 250000 in
  CustomerDashboard.outstandingBills [pending; overdue] = 1%nat
  /\ CustomerDashboard.totalOutstanding [pending; overdue] = 1525%float
  /\ CustomerDashboard.selectableBills [pending; overdue] = ["bill-2"].
Proof.
  cbv zeta.
  destruct (outstanding_pending_only [bill_on_screen "bill-2" "pending" 152500] []
              (bill_on_screen "bill-1" "overdue" 250000))
    as [_ [H _]].
  destruct H as [Hn [Ht [Hs _]]]; [left; reflexivity |].
  cbn [app] in Hn, Ht, Hs. rewrite Hn, Ht, Hs.
  split; [| split]; vm_compute; reflexivity.
Defined.

(** The same payment under another status. *)
Definition restatus (g : AdminDashboard.Payment.t -> option string)
    (p : AdminDashboard.Payment.t) : AdminDashboard.Payment.t :=
  {| AdminDashboard.Payment.id := AdminDashboard.Payment.id p;
     AdminDashboard.Payment.amount := AdminDashboard.Payment.amount p;
     AdminDashboard.Payment.payment_method := AdminDashboard.Payment.payment_method p;
     AdminDashboard.Payment.transaction_id := AdminDashboard.Payment.transaction_id p;
     AdminDashboard.Payment.payment_date := AdminDashboard.Payment.payment_date p;
     AdminDashboard.Payment.status := g p;
     AdminDashboard.Payment.profiles := AdminDashboard.Payment.profiles p |}.

(** C9. "Total Revenue" adds up the amount of every payment row on the
    screen, in the order of the list, and never looks at a status: relabelling
    the payments ('pending' or 'failed' for 'completed', or any other way)
    leaves the figure as it is, and one more payment adds its amount whatever
    its status. *)
Theorem totalRevenue_every_payment (s : AdminDashboard.state) :
  AdminDashboard.totalRevenue (AdminDashboard.stats s) =
    fold_left PrimFloat.add
      (map AdminDashboard.Payment.amount (AdminDashboard.payments s)) 0%float
  /\ (forall g : AdminDashboard.Payment.t -> option string,
         AdminDashboard.totalRevenue
           (AdminDashboard.stats
              (AdminDashboard.setPayments (map (restatus g) (AdminDashboard.payments s)) s)) =
         AdminDashboard.totalRevenue (AdminDashboard.stats s))
  /\ (forall p : AdminDashboard.Payment.t,
         AdminDashboard.totalRevenue
           (AdminDashboard.stats
              (AdminDashboard.setPayments (AdminDashboard.payments s ++ [p]) s)) =
         (AdminDashboard.totalRevenue (AdminDashboard.stats s)
          + AdminDashboard.Payment.amount p)%float).
Proof.
  unfold AdminDashboard.stats.
  cbn [AdminDashboard.totalRevenue AdminDashboard.payments AdminDashboard.setPayments].
  split; [apply fold_left_amounts |]. split.
  - intros g. rewrite !(fold_left_amounts AdminDashboard.Payment.amount), map_map.
    reflexivity.
  - intros p. rewrite fold_left_app. reflexivity.
Qed.

Definition payment_on_screen (id status : string) (amount : Z)
  : AdminDashboard.Payment.t :=
  {| AdminDashboard.Payment.id := id;
     AdminDashboard.Payment.amount := number_of_numeric amount;
     AdminDashboard.Payment.payment_method := "mpesa";
     AdminDashboard.Payment.transaction_id := None;
     AdminDashboard.Payment.payment_date := 5;
     AdminDashboard.Payment.status := Some status;
     AdminDashboard.Payment.profiles := Some "Amina" |}.

(** A completed, a failed and a pending payment: all three are revenue. *)
Lemma totalRevenue_scenario :
  AdminDashboard.totalRevenue
    (AdminDashboard.stats
       (AdminDashboard.setPayments
          [payment_on_screen "payment-1" "completed" 250000;
           payment_on_screen "payment-2" "failed" 152500;
           payment_on_screen "payment-3" "pending" 10000]
          AdminDashboard.initial)) = 4125%float.
Proof. vm_compute. reflexivity. Qed.

(** * Further properties of the tables *)

Lemma has_key_app {A} (key : A -> uuid) (k : uuid) (l l' : list A) :
  has_key key k (l ++ l') = has_key key k l || has_key key k l'.
Proof. unfold has_key. apply existsb_app. Qed.

Lemma has_key_rewritten {A} (key : A -> uuid) (f : A -> A) (target k : uuid)
    (l : list A) :
  (forall r, key (f r) = key r) ->
  has_key key k (map (fun r => if String.eqb (key r) target then f r else r) l) =
  has_key key k l.
Proof.
  intros Hf. unfold has_key. induction l as [| r l IH]; cbn; [reflexivity |].
  rewrite IH. f_equal. destruct (String.eqb (key r) target); [now rewrite Hf | reflexivity].
Qed.

(** The references of the rows resolve, and profile ids are unique. *)
Record referenced (db : database) : Prop := {
  profiles_key : NoDup (map profiles.id (tbl_profiles db));
  bills_customer :
    Forall (fun b => has_key profiles.id (bills.customer_id b) (tbl_profiles db) = true)
           (tbl_bills db);
  payments_bill :
    Forall (fun p => has_key bills.id (payments.bill_id p) (tbl_bills db) = true)
           (tbl_payments db);
  payments_customer :
    Forall (fun p => has_key profiles.id (payments.customer_id p) (tbl_profiles db) = true)
           (tbl_payments db);
  complaints_customer :
    Forall (fun c => has_key profiles.id (complaints.customer_id c) (tbl_profiles db) = true)
           (tbl_complaints db)
}.

Lemma Forall_has_key_grow {A B} (key : B -> uuid) (ref : A -> uuid) (l : list A)
    (tbl more : list B) :
  Forall (fun r => has_key key (ref r) tbl = true) l ->
  Forall (fun r => has_key key (ref r) (tbl ++ more) = true) l.
Proof.
  apply Forall_impl. intros r Hr. rewrite has_key_app, Hr. reflexivity.
Qed.

Ltac show_tables :=
  cbn [fst tbl_profiles tbl_bills tbl_payments tbl_complaints
       with_profiles with_bills with_payments with_complaints].

Lemma reachable_referenced (db : database) : reachable db -> referenced db.
Proof.
  induction 1 as [| db k r _ IH].
  - constructor; cbn; constructor.
  - destruct IH as [Hk Hbc Hpb Hpc Hcc]. destruct r; cbn [execute].
    + unfold handle_new_user, served.
      destruct (transport k); [now constructor |].
      destruct (match meta_full_name with Some n => Some n | None => email end);
        [| now constructor].
      destruct (has_key profiles.id (fresh k) (tbl_profiles db)) eqn:Hfresh;
        [now constructor |].
      constructor; show_tables; auto using Forall_has_key_grow.
      now apply (NoDup_keys_snoc profiles.id).
    + destruct (insert_bill_outcome k new db)
        as [[-> _] | [b [_ [_ [_ [Hp ->]]]]]]; [now constructor |].
      constructor; show_tables; auto using Forall_has_key_grow.
      apply Forall_app. split; auto.
    + destruct (insert_payment_outcome k new db)
        as [[-> _] | [p [_ [_ [_ [Hb [Hp ->]]]]]]]; [now constructor |].
      constructor; show_tables; auto; apply Forall_app; split; auto.
    + destruct (insert_complaint_outcome k new db)
        as [[-> _] | [c [_ [_ [_ [Hp ->]]]]]]; [now constructor |].
      constructor; show_tables; auto. apply Forall_app. split; auto.
    + destruct (update_bill_status_outcome k s target db) as [[-> _] | [_ ->]];
        [now constructor |].
      unfold rewrite_bills. destruct (admins_can_update_bills k db); [| now constructor].
      constructor; show_tables; auto.
      * apply Forall_map. eapply Forall_impl; [| exact Hbc].
        intros b Hb. destruct (String.eqb (bills.id b) target); exact Hb.
      * eapply Forall_impl; [| exact Hpb]. intros p Hp.
        now rewrite (has_key_rewritten bills.id).
    + destruct (update_complaint_outcome k u target db) as [[-> _] | [_ ->]];
        [now constructor |].
      unfold rewrite_complaints. constructor; show_tables; auto.
      apply Forall_map. eapply Forall_impl; [| exact Hcc].
      intros c Hc. destruct (String.eqb (complaints.id c) target); exact Hc.
Qed.

(** X1. In every state the writes can reach, each bill and each complaint
    belongs to a stored profile, and each payment points at a stored bill and
    at a stored profile. *)
Theorem references_resolve (db : database) :
  reachable db ->
  (forall b, In b (tbl_bills db) ->
             exists c, In c (tbl_profiles db) /\ profiles.id c = bills.customer_id b)
  /\ (forall p, In p (tbl_payments db) ->
                (exists b, In b (tbl_bills db) /\ bills.id b = payments.bill_id p)
                /\ (exists c, In c (tbl_profiles db)
                              /\ profiles.id c = payments.customer_id p))
  /\ (forall x, In x (tbl_complaints db) ->
                exists c, In c (tbl_profiles db)
                          /\ profiles.id c = complaints.customer_id x).
Proof.
  intros Hreach. apply reachable_referenced in Hreach.
  destruct Hreach as [_ Hbc Hpb Hpc Hcc].
  rewrite Forall_forall in Hbc, Hpb, Hpc, Hcc.
  split; [| split].
  - intros b Hb. apply has_key_in. now apply Hbc.
  - intros p Hp. split; apply has_key_in; [now apply Hpb | now apply Hpc].
  - intros x Hx. apply has_key_in. now apply Hcc.
Qed.

(** X2. Keys are unique: no two rows of a table of a reachable state share
    an id. *)
Theorem ids_unique (db : database) :
  reachable db ->
  NoDup (map profiles.id (tbl_profiles db))
  /\ NoDup (map bills.id (tbl_bills db))
  /\ NoDup (map payments.id (tbl_payments db))
  /\ NoDup (map complaints.id (tbl_complaints db)).
Proof.
  intros Hreach.
  destruct (reachable_referenced db Hreach) as [Hp _ _ _ _].
  destruct (reachable_consistent db Hreach) as [_ Hb Hy Hc].
  auto.
Qed.

(** ** Values stay within their columns *)

Definition bill_in_domain (b : bills.row) : Prop :=
  check_in (bills.status b) bills.statuses = true
  /\ Numeric.fits (bills.previous_reading b) = true
  /\ Numeric.fits (bills.current_reading b) = true
  /\ Numeric.fits (bills.units_consumed b) = true
  /\ Numeric.fits (bills.rate_per_unit b) = true
  /\ Numeric.fits (bills.amount b) = true.

Definition payment_in_domain (p : payments.row) : Prop :=
  text_in (payments.payment_method p) payments.methods = true
  /\ check_in (payments.status p) payments.statuses = true
  /\ Numeric.fits (payments.amount p) = true.

Definition complaint_in_domain (c : complaints.row) : Prop :=
  check_in (complaints.status c) complaints.statuses = true
  /\ check_in (complaints.priority c) complaints.priorities = true.

Lemma coerce_fits (h v : Z) : Numeric.coerce h = Some v -> Numeric.fits v = true.
Proof.
  unfold Numeric.coerce. destruct (Numeric.fits h) eqn:Hf; intros E; inversion E.
  now subst.
Qed.

Lemma of_decimal_fits (d : Numeric.decimal) (v : Z) :
  Numeric.of_decimal d = Some v -> Numeric.fits v = true.
Proof. unfold Numeric.of_decimal. apply coerce_fits. Qed.

Lemma numeric_column_fits (default : option Z) (f : field Numeric.decimal) (v : Z) :
  (forall d, default = Some d -> Numeric.fits d = true) ->
  numeric_column default f = inr v -> Numeric.fits v = true.
Proof.
  intros Hd. destruct f as [| | d]; cbn.
  - destruct default as [d |]; cbn; intros E; inversion E. subst. now apply Hd.
  - intros E. discriminate E.
  - destruct (Numeric.of_decimal d) as [x |] eqn:Hx; cbn; intros E; inversion E.
    subst. eapply of_decimal_fits; eauto.
Qed.

Lemma need_some {A} (msg : string) (o : option A) (a : A) :
  need msg o = inr a -> o = Some a.
Proof. destruct o; cbn; intros E; inversion E; reflexivity. Qed.

Lemma ensure_true (msg : string) (b : bool) (u : unit) :
  ensure msg b = inr u -> b = true.
Proof. destruct b; cbn; intros E; [reflexivity | discriminate E]. Qed.

Lemma build_bill_in_domain (k : call) (new : bills.Insert) (b : bills.row) :
  build_bill k new = inr b -> bill_in_domain b.
Proof.
  unfold build_bill. intros H. invert_checked H.
  inversion H; subst; clear H. unfold bill_in_domain. cbn.
  repeat match goal with
         | H : ensure _ _ = inr _ |- _ => apply ensure_true in H
         | H : need _ _ = inr _ |- _ => apply need_some in H
         end.
  unfold bills.generated_units_consumed, bills.generated_amount in *.
  repeat split; eauto using coerce_fits.
  all: eapply numeric_column_fits; [| eassumption];
    intros d Hd; inversion Hd; reflexivity.
Qed.

Lemma build_payment_in_domain (k : call) (new : payments.Insert) (p : payments.row) :
  build_payment k new = inr p -> payment_in_domain p.
Proof.
  unfold build_payment. intros H. invert_checked H.
  inversion H; subst; clear H. unfold payment_in_domain. cbn.
  repeat match goal with
         | H : ensure _ _ = inr _ |- _ => apply ensure_true in H
         end.
  repeat split; auto.
  eapply numeric_column_fits; [| eassumption]. intros d Hd. discriminate Hd.
Qed.

Lemma build_complaint_in_domain (k : call) (new : complaints.Insert)
    (c : complaints.row) :
  build_complaint k new = inr c -> complaint_in_domain c.
Proof.
  unfold build_complaint. intros H. invert_checked H.
  inversion H; subst; clear H. unfold complaint_in_domain. cbn.
  repeat match goal with
         | H : ensure _ _ = inr _ |- _ => apply ensure_true in H
         end.
  split; auto.
Qed.

Record in_domain (db : database) : Prop := {
  bills_domain : Forall bill_in_domain (tbl_bills db);
  payments_domain : Forall payment_in_domain (tbl_payments db);
  complaints_domain : Forall complaint_in_domain (tbl_complaints db)
}.

Lemma Forall_rewritten {A} (P : A -> Prop) (key : A -> uuid) (f : A -> A)
    (target : uuid) (l : list A) :
  Forall P l ->
  (forall r, In r l -> key r = target -> P (f r)) ->
  Forall P (map (fun r => if String.eqb (key r) target then f r else r) l).
Proof.
  intros Hl Hf. apply Forall_map. rewrite Forall_forall in *. intros r Hr.
  destruct (String.eqb_spec (key r) target); auto.
Qed.

Lemma reachable_in_domain (db : database) : reachable db -> in_domain db.
Proof.
  induction 1 as [| db k r _ IH].
  - constructor; cbn; constructor.
  - destruct IH as [Hb Hp Hc]. destruct r; cbn [execute].
    + unfold handle_new_user, served.
      destruct (transport k); [now constructor |].
      destruct (match meta_full_name with Some n => Some n | None => email end);
        [| now constructor].
      destruct (has_key profiles.id (fresh k) (tbl_profiles db)); now constructor.
    + destruct (insert_bill_outcome k new db)
        as [[-> _] | [b [Hb1 [_ [_ [_ ->]]]]]]; [now constructor |].
      constructor; show_tables; auto. apply Forall_app. split; auto.
      constructor; auto. eapply build_bill_in_domain; eauto.
    + destruct (insert_payment_outcome k new db)
        as [[-> _] | [p [Hp1 [_ [_ [_ [_ ->]]]]]]]; [now constructor |].
      constructor; show_tables; auto. apply Forall_app. split; auto.
      constructor; auto. eapply build_payment_in_domain; eauto.
    + destruct (insert_complaint_outcome k new db)
        as [[-> _] | [c [Hc1 [_ [_ [_ ->]]]]]]; [now constructor |].
      constructor; show_tables; auto. apply Forall_app. split; auto.
      constructor; auto. eapply build_complaint_in_domain; eauto.
    + unfold update_bill_status, served.
      destruct (transport k); [now constructor |].
      destruct (admins_can_update_bills k db); cbn [negb]; [| now constructor].
      destruct (has_key bills.id target (tbl_bills db)) eqn:Hkey;
        destruct (text_in s bills.statuses) eqn:Hs; cbn [andb negb fst];
        try now constructor.
      * constructor; show_tables; auto.
        apply Forall_rewritten; auto. intros b Hin _.
        rewrite Forall_forall in Hb. destruct (Hb b Hin) as [_ Hrest].
        split; [exact Hs | exact Hrest].
      * constructor; show_tables; auto.
        apply Forall_rewritten; auto. intros b Hin _.
        rewrite Forall_forall in Hb. destruct (Hb b Hin) as [_ Hrest].
        split; [exact Hs | exact Hrest].
      * constructor; show_tables; auto.
        apply Forall_rewritten; auto. intros b Hin Hid.
        assert (has_key bills.id target (tbl_bills db) = true) as Hyes
            by (apply has_key_in; eauto).
        congruence.
    + unfold update_complaint, served.
      destruct (transport k); [now constructor |].
      destruct (has_key complaints.id target (tbl_complaints db)) eqn:Hkey;
        destruct (text_in (complaints.set_status u) complaints.statuses) eqn:Hs;
        cbn [andb negb fst]; try now constructor.
      * constructor; show_tables; auto.
        apply Forall_rewritten; auto. intros c Hin _.
        rewrite Forall_forall in Hc. destruct (Hc c Hin) as [_ Hprio].
        split; [exact Hs | exact Hprio].
      * constructor; show_tables; auto.
        apply Forall_rewritten; auto. intros c Hin _.
        rewrite Forall_forall in Hc. destruct (Hc c Hin) as [_ Hprio].
        split; [exact Hs | exact Hprio].
      * constructor; show_tables; auto.
        apply Forall_rewritten; auto. intros c Hin Hid.
        assert (has_key complaints.id target (tbl_complaints db) = true) as Hyes
            by (apply has_key_in; eauto).
        congruence.
Qed.

Lemma text_in_In (s : string) (l : list string) : text_in s l = true <-> In s l.
Proof.
  unfold text_in. rewrite existsb_exists. split.
  - intros [x [Hin Hx]]. apply String.eqb_eq in Hx. now subst.
  - intros Hin. exists s. split; [exact Hin | apply String.eqb_refl].
Qed.

Lemma check_in_In (v : option string) (l : list string) :
  check_in v l = true <-> v = None \/ exists s, v = Some s /\ In s l.
Proof.
  destruct v as [s |]; cbn.
  - rewrite text_in_In. split.
    + intros H. right. eauto.
    + intros [H | [x [H Hin]]]; [discriminate H | now inversion H; subst].
  - split; auto.
Qed.

(** X3. The CHECK constraints and the column type hold of every row of a
    reachable state: a status or priority is NULL or one of the listed
    words, a payment method is one of the three, and every [DECIMAL(10,2)]
    value has at most ten digits. *)
Theorem rows_within_domain (db : database) :
  reachable db ->
  (forall b, In b (tbl_bills db) ->
     (bills.status b = None
      \/ exists s, bills.status b = Some s /\ In s ["pending"; "paid"; "overdue"])
     /\ Z.abs (bills.previous_reading b) < 10 ^ 10
     /\ Z.abs (bills.current_reading b) < 10 ^ 10
     /\ Z.abs (bills.units_consumed b) < 10 ^ 10
     /\ Z.abs (bills.rate_per_unit b) < 10 ^ 10
     /\ Z.abs (bills.amount b) < 10 ^ 10)
  /\ (forall p, In p (tbl_payments db) ->
        In (payments.payment_method p) ["mpesa"; "bank_transfer"; "cash"]
        /\ (payments.status p = None
            \/ exists s, payments.status p = Some s
                         /\ In s ["pending"; "completed"; "failed"])
        /\ Z.abs (payments.amount p) < 10 ^ 10)
  /\ (forall c, In c (tbl_complaints db) ->
        (complaints.status c = None
         \/ exists s, complaints.status c = Some s
                      /\ In s ["open"; "in_progress"; "resolved"; "closed"])
        /\ (complaints.priority c = None
            \/ exists s, complaints.priority c = Some s
                         /\ In s ["low"; "medium"; "high"; "urgent"])).
Proof.
  intros Hreach. destruct (reachable_in_domain db Hreach) as [Hb Hp Hc].
  rewrite Forall_forall in Hb, Hp, Hc. split; [| split].
  - intros b Hin. destruct (Hb b Hin) as [Hs [H1 [H2 [H3 [H4 H5]]]]].
    apply check_in_In in Hs. rewrite fits_bound in H1, H2, H3, H4, H5. auto 10.
  - intros p Hin. destruct (Hp p Hin) as [Hm [Hs Ha]].
    apply text_in_In in Hm. apply check_in_In in Hs. rewrite fits_bound in Ha. auto.
  - intros c Hin. destruct (Hc c Hin) as [Hs Hprio].
    apply check_in_In in Hs. apply check_in_In in Hprio. auto.
Qed.

(** ** Handlers act through requests *)

Lemma makePayment_tables
    (profile : option profiles.row) (parseFloat : string -> option Numeric.decimal)
    (on_insert on_update : call) (f : CustomerDashboard.fetches)
    (db : database) (s : CustomerDashboard.state) :
  let form := CustomerDashboard.paymentData s in
  let inserted :=
    insert_payment on_insert (CustomerDashboard.paymentPayload profile parseFloat form) db in
  fst (run (CustomerDashboard.makePayment profile parseFloat on_insert on_update f) db s) =
  match error (snd inserted) with
  | Some _ => fst inserted
  | None =>
      fst (update_bill_status on_update "paid" (CustomerDashboard.bill_id form)
             (fst inserted))
  end.
Proof.
  intros form inserted. unfold run.
  destruct (error (snd inserted)) as [e |] eqn:He.
  - subst inserted form.
    now rewrite (CustomerFacts.makePayment_refused profile parseFloat on_insert
                   on_update f db s e He).
  - subst inserted form.
    rewrite (CustomerFacts.makePayment_recorded profile parseFloat on_insert on_update
               f db s He).
    match goal with
    | |- fst (fst (CustomerDashboard.fetchData ?p ?f (?d, ?st))) = _ =>
        destruct (CustomerFacts.fetchData_reads p f d st) as [s' [-> _]]
    end.
    reflexivity.
Qed.

Lemma submitComplaint_tables
    (profile : option profiles.row) (on_insert : call) (f : CustomerDashboard.fetches)
    (db : database) (s : CustomerDashboard.state) :
  fst (run (CustomerDashboard.submitComplaint profile on_insert f) db s) =
  fst (insert_complaint on_insert
         (CustomerDashboard.complaintPayload profile (CustomerDashboard.complaintData s))
         db).
Proof.
  unfold run.
  destruct (error (snd (insert_complaint on_insert
                          (CustomerDashboard.complaintPayload profile
                             (CustomerDashboard.complaintData s)) db)))
    as [e |] eqn:He.
  - unfold CustomerDashboard.submitComplaint, try_catch, and_then, await,
      throw_if_error.
    cbn [fst snd].
    destruct (insert_complaint _ _ db) as [db1 r1]. cbn [fst snd] in *.
    rewrite He. reflexivity.
  - rewrite (submitComplaint_recorded profile on_insert f db s He).
    match goal with
    | |- fst (fst (CustomerDashboard.fetchData ?p ?f (?d, ?st))) = _ =>
        destruct (CustomerFacts.fetchData_reads p f d st) as [s' [-> _]]
    end.
    reflexivity.
Qed.

Lemma makePayment_reachable
    (profile : option profiles.row) (parseFloat : string -> option Numeric.decimal)
    (on_insert on_update : call) (f : CustomerDashboard.fetches)
    (db : database) (s : CustomerDashboard.state) :
  reachable db ->
  reachable
    (fst (run (CustomerDashboard.makePayment profile parseFloat on_insert on_update f)
              db s)).
Proof.
  intros Hreach. rewrite makePayment_tables.
  pose proof (reachable_step db on_insert
                (InsertPayment
                   (CustomerDashboard.paymentPayload profile parseFloat
                      (CustomerDashboard.paymentData s))) Hreach) as H1.
  cbn [execute] in H1.
  destruct (error _); [exact H1 |].
  apply (reachable_step _ on_update (UpdateBillStatus "paid" _) H1).
Qed.

Lemma submitComplaint_reachable
    (profile : option profiles.row) (on_insert : call) (f : CustomerDashboard.fetches)
    (db : database) (s : CustomerDashboard.state) :
  reachable db ->
  reachable (fst (run (CustomerDashboard.submitComplaint profile on_insert f) db s)).
Proof.
  intros Hreach. rewrite submitComplaint_tables.
  apply (reachable_step db on_insert (InsertComplaint _) Hreach).
Qed.

Lemma createBill_reachable
    (parseFloat : string -> option Numeric.decimal) (on_insert : call)
    (f : AdminDashboard.fetches) (db : database) (s : AdminDashboard.state) :
  reachable db ->
  reachable (fst (run (AdminDashboard.createBill parseFloat on_insert f) db s)).
Proof.
  intros Hreach. rewrite AdminFacts.createBill_tables.
  apply (reachable_step db on_insert (InsertBill _) Hreach).
Qed.

Lemma updateComplaintStatus_reachable
    (complaintId status response : string) (on_update : call)
    (f : AdminDashboard.fetches) (db : database) (s : AdminDashboard.state) :
  reachable db ->
  reachable
    (fst (run (AdminDashboard.updateComplaintStatus complaintId status response
                 on_update f) db s)).
Proof.
  intros Hreach. rewrite AdminFacts.updateComplaintStatus_tables.
  apply (reachable_step db on_update (UpdateComplaint _ _) Hreach).
Qed.

(** The customer of the scenario has paid her bill, both calls through: the
    payment is recorded, and the bill, which the policy hides from her
    update, is as it was. *)
Definition settled : database :=
  fst (run (CustomerDashboard.makePayment (Some Scenario.amina) Scenario.plain_numeral
              (Scenario.reaching 5 "payment-1") (Scenario.reaching 6 "")
              (Scenario.customer_reads 7))
           complained paying).

Definition first_payment : payments.row :=
  {| payments.id := "payment-1"; payments.bill_id := "bill-1";
     payments.customer_id := "profile-1"; payments.amount := 250000;
     payments.payment_method := "mpesa"; payments.transaction_id := Some "QX1";
     payments.payment_date := 5; payments.status := Some "completed";
     payments.created_at := 5 |}.

Lemma settled_tables :
  settled =
  with_payments [first_payment] complained.
Proof. vm_compute. reflexivity. Qed.

Lemma settled_reachable : reachable settled.
Proof. apply makePayment_reachable, complained_reachable. Qed.

Lemma references_resolve_scenario :
  exists b, In b (tbl_bills settled) /\ bills.id b = "bill-1".
Proof.
  destruct (references_resolve settled settled_reachable) as [_ [H _]].
  destruct (H first_payment) as [Hb _].
  - rewrite settled_tables. left. reflexivity.
  - exact Hb.
Defined.

(** A busier run: a second customer, bill, payment and complaint, each
    first attempted under an id already taken and refused for it. *)
Definition busy : database :=
  let second_bill :=
    InsertBill (AdminDashboard.billPayload Scenario.plain_numeral
                  (Scenario.bill_form "150" "180")) in
  let second_payment :=
    InsertPayment (CustomerDashboard.paymentPayload (Some Scenario.amina)
                     Scenario.plain_numeral (CustomerDashboard.paymentData paying)) in
  let second_complaint :=
    InsertComplaint (CustomerDashboard.complaintPayload (Some Scenario.amina)
                       (CustomerDashboard.complaintData describing)) in
  replay [(Scenario.reaching 8 "profile-1", NewUser "user-2" (Some "Baraka") None None);
          (Scenario.reaching 9 "profile-2", NewUser "user-2" (Some "Baraka") None None);
          (Scenario.reaching 10 "bill-1", second_bill);
          (Scenario.reaching 11 "bill-2", second_bill);
          (Scenario.reaching 12 "payment-1", second_payment);
          (Scenario.reaching 13 "payment-2", second_payment);
          (Scenario.reaching 14 "complaint-1", second_complaint);
          (Scenario.reaching 15 "complaint-2", second_complaint)]
         settled.

Lemma busy_reachable : reachable busy.
Proof. apply replay_reachable, settled_reachable. Qed.

Lemma ids_unique_scenario :
  (map profiles.id (tbl_profiles busy) = ["profile-1"; "profile-2"]
   /\ map bills.id (tbl_bills busy) = ["bill-1"; "bill-2"]
   /\ map payments.id (tbl_payments busy) = ["payment-1"; "payment-2"]
   /\ map complaints.id (tbl_complaints busy) = ["complaint-1"; "complaint-2"])
  /\ (NoDup (map profiles.id (tbl_profiles busy))
      /\ NoDup (map bills.id (tbl_bills busy))
      /\ NoDup (map payments.id (tbl_payments busy))
      /\ NoDup (map complaints.id (tbl_complaints busy))).
Proof.
  split.
  - vm_compute. repeat split; reflexivity.
  - exact (ids_unique busy busy_reachable).
Defined.

Lemma rows_within_domain_scenario :
  In (payments.payment_method first_payment) ["mpesa"; "bank_transfer"; "cash"]
  /\ Z.abs (payments.amount first_payment) < 10 ^ 10.
Proof.
  destruct (rows_within_domain settled settled_reachable) as [_ [H _]].
  destruct (H first_payment) as [Hm [_ Ha]].
  - rewrite settled_tables. left. reflexivity.
  - split; [exact Hm | exact Ha].
Defined.

(** ** Rows are kept *)

(** [new] holds the rows of [old], in place and related by [R], then
    possibly more rows. *)
Definition extends {A} (R : A -> A -> Prop) (old new : list A) : Prop :=
  exists kept more, new = kept ++ more /\ Forall2 R old kept.

Section Extends.

Context {A : Type} (R : A -> A -> Prop).
Hypothesis R_refl : forall a, R a a.
Hypothesis R_trans : forall a b c, R a b -> R b c -> R a c.

Lemma Forall2_same (l : list A) : Forall2 R l l.
Proof. induction l; constructor; auto. Qed.

Lemma Forall2_chain (l1 l2 l3 : list A) :
  Forall2 R l1 l2 -> Forall2 R l2 l3 -> Forall2 R l1 l3.
Proof.
  intros H. revert l3. induction H as [| a b l1 l2 Hab _ IH]; intros l3 H23.
  - inversion H23. constructor.
  - inversion H23; subst. constructor; eauto.
Qed.

Lemma extends_same (l : list A) : extends R l l.
Proof. exists l, []. split; [now rewrite app_nil_r | apply Forall2_same]. Qed.

Lemma extends_snoc (l : list A) (x : A) : extends R l (l ++ [x]).
Proof. exists l, [x]. split; [reflexivity | apply Forall2_same]. Qed.

Lemma extends_map (g : A -> A) (l : list A) :
  (forall a, R a (g a)) -> extends R l (map g l).
Proof.
  intros Hg. exists (map g l), []. split; [now rewrite app_nil_r |].
  induction l; cbn; constructor; auto.
Qed.

Lemma extends_chain (l1 l2 l3 : list A) :
  extends R l1 l2 -> extends R l2 l3 -> extends R l1 l3.
Proof.
  intros [k1 [m1 [-> H1]]] [k2 [m2 [-> H2]]].
  apply Forall2_app_inv_l in H2 as [k2a [k2b [Ha [Hb ->]]]].
  exists k2a, (k2b ++ m2). split; [now rewrite app_assoc |].
  eapply Forall2_chain; eauto.
Qed.

End Extends.

(** What a bill is, apart from its status and the stamp of its last update. *)
Definition bill_kept (b b' : bills.row) : Prop :=
  bills.id b' = bills.id b
  /\ bills.customer_id b' = bills.customer_id b
  /\ bills.meter_number b' = bills.meter_number b
  /\ bills.previous_reading b' = bills.previous_reading b
  /\ bills.current_reading b' = bills.current_reading b
  /\ bills.units_consumed b' = bills.units_consumed b
  /\ bills.rate_per_unit b' = bills.rate_per_unit b
  /\ bills.amount b' = bills.amount b
  /\ bills.bill_month b' = bills.bill_month b
  /\ bills.due_date b' = bills.due_date b
  /\ bills.created_at b' = bills.created_at b.

(** What a complaint is, apart from its status, its response and the stamp
    of its last update. *)
Definition complaint_kept (c c' : complaints.row) : Prop :=
  complaints.id c' = complaints.id c
  /\ complaints.customer_id c' = complaints.customer_id c
  /\ complaints.subject c' = complaints.subject c
  /\ complaints.description c' = complaints.description c
  /\ complaints.priority c' = complaints.priority c
  /\ complaints.created_at c' = complaints.created_at c.

Lemma bill_kept_refl (b : bills.row) : bill_kept b b.
Proof. unfold bill_kept. auto 12. Qed.

Lemma bill_kept_trans (a b c : bills.row) : bill_kept a b -> bill_kept b c -> bill_kept a c.
Proof. unfold bill_kept. intuition congruence. Qed.

Lemma complaint_kept_refl (c : complaints.row) : complaint_kept c c.
Proof. unfold complaint_kept. auto 8. Qed.

Lemma complaint_kept_trans (a b c : complaints.row) :
  complaint_kept a b -> complaint_kept b c -> complaint_kept a c.
Proof. unfold complaint_kept. intuition congruence. Qed.

Lemma execute_keeps (k : call) (r : request) (db : database) :
  extends eq (tbl_profiles db) (tbl_profiles (fst (execute k r db)))
  /\ extends bill_kept (tbl_bills db) (tbl_bills (fst (execute k r db)))
  /\ extends eq (tbl_payments db) (tbl_payments (fst (execute k r db)))
  /\ extends complaint_kept (tbl_complaints db) (tbl_complaints (fst (execute k r db))).
Proof.
  assert (Hsame : extends eq (tbl_profiles db) (tbl_profiles db)
                  /\ extends bill_kept (tbl_bills db) (tbl_bills db)
                  /\ extends eq (tbl_payments db) (tbl_payments db)
                  /\ extends complaint_kept (tbl_complaints db) (tbl_complaints db)).
  { repeat split; apply extends_same;
      auto using bill_kept_refl, complaint_kept_refl. }
  destruct Hsame as [H1 [H2 [H3 H4]]].
  destruct r; cbn [execute].
  - unfold handle_new_user, served.
    destruct (transport k); [auto |].
    destruct (match meta_full_name with Some n => Some n | None => email end); [| auto].
    destruct (has_key profiles.id (fresh k) (tbl_profiles db)); [auto |].
    show_tables. repeat split; auto. now apply extends_snoc.
  - destruct (insert_bill_outcome k new db) as [[-> _] | [b [_ [_ [_ [_ ->]]]]]];
      [auto |].
    show_tables. repeat split; auto. apply extends_snoc, bill_kept_refl.
  - destruct (insert_payment_outcome k new db)
      as [[-> _] | [p [_ [_ [_ [_ [_ ->]]]]]]]; [auto |].
    show_tables. repeat split; auto. now apply extends_snoc.
  - destruct (insert_complaint_outcome k new db)
      as [[-> _] | [c [_ [_ [_ [_ ->]]]]]]; [auto |].
    show_tables. repeat split; auto. apply extends_snoc, complaint_kept_refl.
  - destruct (update_bill_status_outcome k s target db) as [[-> _] | [_ ->]]; [auto |].
    unfold rewrite_bills. destruct (admins_can_update_bills k db); [| auto].
    show_tables. repeat split; auto.
    apply extends_map. intros b.
    destruct (String.eqb (bills.id b) target); [| apply bill_kept_refl].
    unfold bill_kept. cbn. auto 12.
  - destruct (update_complaint_outcome k u target db) as [[-> _] | [_ ->]]; [auto |].
    unfold rewrite_complaints. show_tables. repeat split; auto.
    apply extends_map. intros c.
    destruct (String.eqb (complaints.id c) target); [| apply complaint_kept_refl].
    unfold complaint_kept. cbn. auto 8.
Qed.

Lemma replay_keeps (l : list (call * request)) (db : database) :
  extends eq (tbl_profiles db) (tbl_profiles (replay l db))
  /\ extends bill_kept (tbl_bills db) (tbl_bills (replay l db))
  /\ extends eq (tbl_payments db) (tbl_payments (replay l db))
  /\ extends complaint_kept (tbl_complaints db) (tbl_complaints (replay l db)).
Proof.
  revert db. induction l as [| [k r] l IH]; intros db; cbn.
  - repeat split; apply extends_same;
      auto using bill_kept_refl, complaint_kept_refl.
  - destruct (execute_keeps k r db) as [H1 [H2 [H3 H4]]].
    destruct (IH (fst (execute k r db))) as [G1 [G2 [G3 G4]]].
    repeat split.
    + eapply extends_chain; eauto. intros; congruence.
    + eapply extends_chain; eauto using bill_kept_trans.
    + eapply extends_chain; eauto. intros; congruence.
    + eapply extends_chain; eauto using complaint_kept_trans.
Qed.

Lemma Forall2_eq_same {A} (l l' : list A) : Forall2 eq l l' -> l = l'.
Proof. induction 1; congruence. Qed.

Lemma Forall2_at {A} (R : A -> A -> Prop) (l l' : list A) (i : nat) (a : A) :
  Forall2 R l l' -> nth_error l i = Some a ->
  exists b, nth_error l' i = Some b /\ R a b.
Proof.
  intros H. revert i. induction H as [| x y l l' Hxy _ IH]; intros i Hi.
  - destruct i; discriminate Hi.
  - destruct i as [| i]; cbn in *.
    + inversion Hi; subst. eauto.
    + now apply IH.
Qed.

(** X4. Payments are only ever added: whatever requests follow, the
    payments table still begins with the rows it had, unchanged and in
    place.  (No statement of the application updates or deletes a payment.) *)
Theorem payments_append_only (l : list (call * request)) (db : database) :
  exists more, tbl_payments (replay l db) = tbl_payments db ++ more.
Proof.
  destruct (replay_keeps l db) as [_ [_ [[kept [more [Heq Hk]]] _]]].
  apply Forall2_eq_same in Hk. subst kept. now exists more.
Qed.

(** X5. No bill or complaint is ever removed or moved, and the requests
    change only a bill's status and a complaint's status and response (with
    the [updated_at] stamps): the readings, the rate, the generated
    [units_consumed] and [amount], the owner, the month and the due date of
    a bill, and the subject, description, priority and owner of a complaint,
    stay as first stored. *)
Theorem rows_keep_their_content (l : list (call * request)) (db : database) :
  (forall i b, nth_error (tbl_bills db) i = Some b ->
     exists b', nth_error (tbl_bills (replay l db)) i = Some b' /\ bill_kept b b')
  /\ (forall i c, nth_error (tbl_complaints db) i = Some c ->
        exists c', nth_error (tbl_complaints (replay l db)) i = Some c'
                   /\ complaint_kept c c').
Proof.
  destruct (replay_keeps l db)
    as [_ [[kb [mb [Hb Hkb]]] [_ [kc [mc [Hc Hkc]]]]]].
  split.
  - intros i b Hi. rewrite Hb.
    destruct (Forall2_at _ _ _ i b Hkb Hi) as [b' [Hb' Hk]].
    exists b'. split; [| exact Hk].
    rewrite nth_error_app1; [exact Hb' |]. apply nth_error_Some. congruence.
  - intros i c Hi. rewrite Hc.
    destruct (Forall2_at _ _ _ i c Hkc Hi) as [c' [Hc' Hk]].
    exists c'. split; [| exact Hk].
    rewrite nth_error_app1; [exact Hc' |]. apply nth_error_Some. congruence.
Qed.

(** Two updates that rewrite the bill, issued by a caller the policy passes:
    the status and the stamp change, the amounts stay. *)
Lemma rows_keep_their_content_scenario :
  exists b',
    nth_error
      (tbl_bills
         (replay [(Scenario.reaching 6 "", UpdateBillStatus "paid" "bill-1");
                  (Scenario.reaching 7 "", UpdateBillStatus "overdue" "bill-1")]
                 (Scenario.promoted "user-1" Scenario.billed))) 0 = Some b'
    /\ bills.amount b' = 250000 /\ bills.units_consumed b' = 5000.
Proof.
  destruct (rows_keep_their_content
              [(Scenario.reaching 6 "", UpdateBillStatus "paid" "bill-1");
               (Scenario.reaching 7 "", UpdateBillStatus "overdue" "bill-1")]
              (Scenario.promoted "user-1" Scenario.billed)) as [H _].
  destruct (H 0%nat Scenario.january) as [b' [Hb' Hk]].
  - vm_compute. reflexivity.
  - exists b'. split; [exact Hb' |].
    destruct Hk as [_ [_ [_ [_ [_ [Hu [_ [Ha _]]]]]]]].
    split; [exact Ha | exact Hu].
Defined.

Lemma promoted_bill_rewritten :
  tbl_bills
    (replay [(Scenario.reaching 6 "", UpdateBillStatus "paid" "bill-1");
             (Scenario.reaching 7 "", UpdateBillStatus "overdue" "bill-1")]
            (Scenario.promoted "user-1" Scenario.billed)) =
  [bills.with_status (Some "overdue") 7 Scenario.january].
Proof. vm_compute. reflexivity. Qed.

(** * Further properties of the customer dashboard *)

(** The row a payment form becomes for the profile [pr], its amount stored
    as [a]. *)
Definition createdPayment (k : call) (pr : profiles.row)
    (form : CustomerDashboard.PaymentData) (a : Z) : payments.row :=
  {| payments.id := fresh k; payments.bill_id := CustomerDashboard.bill_id form;
     payments.customer_id := profiles.id pr; payments.amount := a;
     payments.payment_method := CustomerDashboard.payment_method form;
     payments.transaction_id := Some (CustomerDashboard.transaction_id form);
     payments.payment_date := now k; payments.status := Some "completed";
     payments.created_at := now k |}.

Section PaymentRows.

Variable profile : option profiles.row.
Variable parseFloat : string -> option Numeric.decimal.
Variable k : call.
Variable form : CustomerDashboard.PaymentData.

Lemma build_makePayment_sound (p : payments.row) :
  build_payment k (CustomerDashboard.paymentPayload profile parseFloat form) = inr p ->
  exists pr a,
    profile = Some pr
    /\ stored_reading (parseFloat (CustomerDashboard.amount form)) = Some a
    /\ text_in (CustomerDashboard.payment_method form) payments.methods = true
    /\ p = createdPayment k pr form a.
Proof.
  unfold build_payment, CustomerDashboard.paymentPayload, CustomerDashboard.profile_id.
  destruct profile as [pr |]; cbn -[text_in]; [| intros H; discriminate H].
  destruct (parseFloat (CustomerDashboard.amount form)) as [d |]; cbn -[text_in];
    [| intros H; discriminate H].
  destruct (Numeric.of_decimal d) as [a |] eqn:Ha; cbn -[text_in];
    [| intros H; discriminate H].
  destruct (text_in (CustomerDashboard.payment_method form) payments.methods) eqn:Hm;
    cbn -[text_in]; [| intros H; discriminate H].
  intros H. inversion H; subst; clear H. exists pr, a. auto.
Qed.

Lemma build_makePayment_complete (pr : profiles.row) (a : Z) :
  profile = Some pr ->
  stored_reading (parseFloat (CustomerDashboard.amount form)) = Some a ->
  text_in (CustomerDashboard.payment_method form) payments.methods = true ->
  build_payment k (CustomerDashboard.paymentPayload profile parseFloat form) =
  inr (createdPayment k pr form a).
Proof.
  unfold build_payment, CustomerDashboard.paymentPayload, CustomerDashboard.profile_id,
    stored_reading.
  intros -> Ha Hm. cbn -[text_in].
  destruct (parseFloat (CustomerDashboard.amount form)) as [d |]; [| discriminate Ha].
  cbn -[text_in]. rewrite Ha. cbn -[text_in]. rewrite Hm. reflexivity.
Qed.

End PaymentRows.

Lemma payment_accepted_iff
    (profile : option profiles.row) (parseFloat : string -> option Numeric.decimal)
    (k : call) (form : CustomerDashboard.PaymentData) (db : database) :
  error (snd (insert_payment k
                (CustomerDashboard.paymentPayload profile parseFloat form) db)) = None
  <-> transport k = None
      /\ (exists pr, profile = Some pr
                     /\ In (profiles.id pr) (map profiles.id (tbl_profiles db)))
      /\ In (CustomerDashboard.bill_id form) (map bills.id (tbl_bills db))
      /\ In (CustomerDashboard.payment_method form) ["mpesa"; "bank_transfer"; "cash"]
      /\ (exists a, stored_reading (parseFloat (CustomerDashboard.amount form)) = Some a)
      /\ ~ In (fresh k) (map payments.id (tbl_payments db)).
Proof.
  split.
  - intros Hok.
    destruct (insert_payment_outcome k
                (CustomerDashboard.paymentPayload profile parseFloat form) db)
      as [[_ Hbad] | [p [Hp [Ht [Hk [Hb [Hc _]]]]]]]; [now elim Hbad |].
    destruct (build_makePayment_sound profile parseFloat k form p Hp)
      as [pr [a [Hpr [Ha [Hm ->]]]]].
    cbn in Hk, Hb, Hc.
    split; [exact Ht |]. split; [exists pr; split; [exact Hpr | now apply has_key_map] |].
    split; [now apply has_key_map |]. split; [now apply text_in_In |].
    split; [now exists a | now apply has_key_not_map].
  - intros [Ht [[pr [Hpr Hc]] [Hb [Hm [[a Ha] Hk]]]]].
    unfold insert_payment. rewrite served_through by exact Ht.
    rewrite (build_makePayment_complete profile parseFloat k form pr a Hpr Ha)
      by now apply text_in_In.
    cbn [createdPayment payments.id payments.bill_id payments.customer_id].
    apply has_key_not_map in Hk. apply has_key_map in Hb, Hc.
    rewrite Hk, Hb, Hc. reflexivity.
Qed.

(** X6. The insert of [makePayment] is accepted exactly when the call gets
    through, the profile is loaded and stored, the chosen bill exists, the
    method is one of the three, the amount parses to a number that fits the
    column, and the new id is unused.  Nothing else is looked at: not the
    status of the bill, not its amount, not its owner. *)
Theorem makePayment_accepted_iff
    (profile : option profiles.row) (parseFloat : string -> option Numeric.decimal)
    (k : call) (form : CustomerDashboard.PaymentData) (db : database) :
  error (snd (insert_payment k
                (CustomerDashboard.paymentPayload profile parseFloat form) db)) = None
  <-> transport k = None
      /\ (exists pr, profile = Some pr
                     /\ In (profiles.id pr) (map profiles.id (tbl_profiles db)))
      /\ In (CustomerDashboard.bill_id form) (map bills.id (tbl_bills db))
      /\ In (CustomerDashboard.payment_method form) ["mpesa"; "bank_transfer"; "cash"]
      /\ (exists a, stored_reading (parseFloat (CustomerDashboard.amount form)) = Some a)
      /\ ~ In (fresh k) (map payments.id (tbl_payments db)).
Proof. apply payment_accepted_iff. Qed.

(** X7. When its insert is refused, [makePayment] writes nothing (no bill
    is marked paid), shows the store's message as an Error notification and
    leaves the form and the lists as they were. *)
Theorem makePayment_refused_outcome
    (profile : option profiles.row) (parseFloat : string -> option Numeric.decimal)
    (on_insert on_update : call) (f : CustomerDashboard.fetches)
    (db : database) (s : CustomerDashboard.state) (e : PostgrestError) :
  error (snd (insert_payment on_insert
                (CustomerDashboard.paymentPayload profile parseFloat
                   (CustomerDashboard.paymentData s)) db)) = Some e ->
  run (CustomerDashboard.makePayment profile parseFloat on_insert on_update f) db s =
  (db, CustomerDashboard.toast (failure (message e)) s).
Proof.
  intros He. unfold run.
  rewrite (CustomerFacts.makePayment_refused profile parseFloat on_insert on_update
             f db s e He).
  cbn [fst].
  destruct (insert_payment_outcome on_insert
              (CustomerDashboard.paymentPayload profile parseFloat
                 (CustomerDashboard.paymentData s)) db)
    as [[-> _] | [p [_ [_ [_ [_ [_ Hins]]]]]]]; [reflexivity |].
  rewrite Hins in He. discriminate He.
Qed.

Definition blank : CustomerDashboard.state := CustomerDashboard.initial.

Lemma makePayment_accepted_iff_scenario :
  error (snd (insert_payment (Scenario.reaching 5 "payment-1")
                (CustomerDashboard.paymentPayload (Some Scenario.amina)
                   Scenario.plain_numeral (CustomerDashboard.paymentData paying))
                Scenario.billed)) = None.
Proof.
  apply (proj2 (makePayment_accepted_iff (Some Scenario.amina) Scenario.plain_numeral
                  (Scenario.reaching 5 "payment-1")
                  (CustomerDashboard.paymentData paying) Scenario.billed)).
  split; [reflexivity |].
  split; [exists Scenario.amina; split; [reflexivity | vm_compute; auto] |].
  split; [vm_compute; auto |]. split; [vm_compute; auto |].
  split; [exists 250000; reflexivity |].
  vm_compute. intros H. exact H.
Defined.

Lemma makePayment_refused_outcome_scenario :
  run (CustomerDashboard.makePayment (Some Scenario.amina) Scenario.plain_numeral
         (Scenario.reaching 5 "payment-1") (Scenario.reaching 6 "")
         (Scenario.customer_reads 7))
      Scenario.billed blank =
  (Scenario.billed, CustomerDashboard.toast (failure not_null) blank).
Proof.
  apply (makePayment_refused_outcome (Some Scenario.amina) Scenario.plain_numeral
           (Scenario.reaching 5 "payment-1") (Scenario.reaching 6 "")
           (Scenario.customer_reads 7) Scenario.billed blank
           {| message := not_null |}).
  vm_compute. reflexivity.
Defined.

(** X8. A bill can be paid again: once [makePayment] has recorded a
    payment, the same form submitted once more (with a new id) is accepted as
    well, although the bill may by then be marked paid. *)
Theorem makePayment_again_accepted
    (profile : option profiles.row) (parseFloat : string -> option Numeric.decimal)
    (on_insert on_update again : call) (f : CustomerDashboard.fetches)
    (db : database) (s : CustomerDashboard.state) :
  let payload :=
    CustomerDashboard.paymentPayload profile parseFloat (CustomerDashboard.paymentData s) in
  let db' :=
    fst (run (CustomerDashboard.makePayment profile parseFloat on_insert on_update f)
             db s) in
  error (snd (insert_payment on_insert payload db)) = None ->
  transport again = None ->
  fresh again <> fresh on_insert ->
  ~ In (fresh again) (map payments.id (tbl_payments db)) ->
  error (snd (insert_payment again payload db')) = None
  /\ exists p1 p2,
       tbl_payments (fst (insert_payment again payload db')) =
         tbl_payments db ++ [p1; p2]
       /\ payments.bill_id p1 = payments.bill_id p2.
Proof.
  intros payload db' Hok Hagain Hne Hfresh.
  pose proof (proj1 (payment_accepted_iff profile parseFloat on_insert _ db) Hok)
    as [Ht [[pr [Hpr Hc]] [Hb [Hm [[a Ha] Hk]]]]].
  assert (Hins : insert_payment on_insert payload db =
                 (with_payments
                    (tbl_payments db
                     ++ [createdPayment on_insert pr (CustomerDashboard.paymentData s) a])
                    db, succeed tt)).
  { subst payload. unfold insert_payment. rewrite served_through by exact Ht.
    rewrite (build_makePayment_complete profile parseFloat on_insert _ pr a Hpr Ha)
      by now apply text_in_In.
    cbn [createdPayment payments.id payments.bill_id payments.customer_id].
    apply has_key_not_map in Hk. apply has_key_map in Hb, Hc.
    rewrite Hk, Hb, Hc. reflexivity. }
  assert (Hdb' : tbl_profiles db' = tbl_profiles db
                 /\ map bills.id (tbl_bills db') = map bills.id (tbl_bills db)
                 /\ tbl_payments db' =
                    tbl_payments db
                    ++ [createdPayment on_insert pr (CustomerDashboard.paymentData s) a]).
  { subst db'. rewrite makePayment_tables. fold payload. rewrite Hok, Hins.
    cbn [fst].
    destruct (update_bill_status_outcome on_update "paid"
                (CustomerDashboard.bill_id (CustomerDashboard.paymentData s))
                (with_payments
                   (tbl_payments db
                    ++ [createdPayment on_insert pr (CustomerDashboard.paymentData s) a])
                   db))
      as [[-> _] | [_ ->]]; [auto |].
    unfold rewrite_bills. destruct (admins_can_update_bills on_update _); [| auto].
    show_tables. repeat split.
    now apply (map_key_rewrite bills.id). }
  destruct Hdb' as [Hprof [Hbills Hpay]].
  assert (Hok2 : error (snd (insert_payment again payload db')) = None).
  { apply payment_accepted_iff. split; [exact Hagain |].
    split; [exists pr; split; [exact Hpr | now rewrite Hprof] |].
    split; [now rewrite Hbills |]. split; [exact Hm |]. split; [now exists a |].
    rewrite Hpay, map_app, in_app_iff. cbn. intuition congruence. }
  split; [exact Hok2 |].
  destruct (insert_payment_outcome again payload db')
    as [[_ Hbad] | [p2 [Hp2 [_ [_ [_ [_ Hins2]]]]]]]; [now elim Hbad |].
  destruct (build_makePayment_sound profile parseFloat again _ p2 Hp2)
    as [pr2 [a2 [_ [_ [_ ->]]]]].
  eexists _, _. rewrite Hins2. show_tables. rewrite Hpay, <- app_assoc. cbn [app].
  split; reflexivity.
Qed.

Lemma makePayment_again_accepted_scenario :
  exists p1 p2,
    tbl_payments
      (fst (insert_payment (Scenario.reaching 8 "payment-2")
              (CustomerDashboard.paymentPayload (Some Scenario.amina)
                 Scenario.plain_numeral (CustomerDashboard.paymentData paying))
              settled)) = [p1; p2]
    /\ payments.bill_id p1 = payments.bill_id p2.
Proof.
  destruct (makePayment_again_accepted (Some Scenario.amina) Scenario.plain_numeral
              (Scenario.reaching 5 "payment-1") (Scenario.reaching 6 "")
              (Scenario.reaching 8 "payment-2") (Scenario.customer_reads 7)
              complained paying)
    as [_ [p1 [p2 [H1 H2]]]].
  - vm_compute. reflexivity.
  - reflexivity.
  - vm_compute. discriminate.
  - vm_compute. intros H. exact H.
  - exists p1, p2. split; [exact H1 | exact H2].
Defined.

(** X9. When both writes of [makePayment] get through, the payment is
    appended with the defaults of its table (status 'completed',
    [payment_date] the time of the insert, the transaction id as typed, empty
    or not), and the profiles and the complaints are untouched.  What becomes
    of the bills is decided by the policy "Admins can update bills": for a
    caller it passes, every bill with the chosen id becomes 'paid' whatever
    its status was, stamped with the time of the update, and the other bills
    are untouched; for any other caller no bill changes, and the call
    answers without an error all the same.  In the states the requests of the
    application reach, the policy passes nobody: there a payment leaves
    every bill as it was. *)
Theorem makePayment_both_through
    (profile : option profiles.row) (parseFloat : string -> option Numeric.decimal)
    (on_insert on_update : call) (f : CustomerDashboard.fetches)
    (db : database) (s : CustomerDashboard.state) :
  let form := CustomerDashboard.paymentData s in
  let inserted :=
    insert_payment on_insert (CustomerDashboard.paymentPayload profile parseFloat form) db in
  let db' :=
    fst (run (CustomerDashboard.makePayment profile parseFloat on_insert on_update f)
             db s) in
  error (snd inserted) = None ->
  transport on_update = None ->
  (exists p,
      tbl_payments db' = tbl_payments db ++ [p]
      /\ payments.status p = Some "completed"
      /\ payments.payment_date p = now on_insert
      /\ payments.bill_id p = CustomerDashboard.bill_id form
      /\ payments.payment_method p = CustomerDashboard.payment_method form
      /\ payments.transaction_id p = Some (CustomerDashboard.transaction_id form)
      /\ stored_reading (parseFloat (CustomerDashboard.amount form)) =
         Some (payments.amount p))
  /\ error (snd (update_bill_status on_update "paid" (CustomerDashboard.bill_id form)
                   (fst inserted))) = None
  /\ tbl_bills db' =
     (if admins_can_update_bills on_update db
      then map (fun b => if String.eqb (bills.id b) (CustomerDashboard.bill_id form)
                         then bills.with_status (Some "paid") (now on_update) b else b)
               (tbl_bills db)
      else tbl_bills db)
  /\ (admins_can_update_bills on_update db = true ->
      forall b, In b (tbl_bills db') ->
                bills.id b = CustomerDashboard.bill_id form ->
                bills.status b = Some "paid" /\ bills.updated_at b = now on_update)
  /\ (forall b, In b (tbl_bills db) ->
                bills.id b <> CustomerDashboard.bill_id form -> In b (tbl_bills db'))
  /\ (reachable db -> tbl_bills db' = tbl_bills db)
  /\ tbl_profiles db' = tbl_profiles db
  /\ tbl_complaints db' = tbl_complaints db.
Proof.
  intros form inserted db' Hok Hup.
  destruct (insert_payment_outcome on_insert
              (CustomerDashboard.paymentPayload profile parseFloat form) db)
    as [[_ Hbad] | [p [Hp [_ [_ [_ [_ Hins]]]]]]]; [now elim Hbad |].
  destruct (build_makePayment_sound profile parseFloat on_insert form p Hp)
    as [pr [a [_ [Ha [_ ->]]]]].
  assert (Hdb : db' = fst (update_bill_status on_update "paid"
                             (CustomerDashboard.bill_id form) (fst inserted))).
  { subst db'. rewrite makePayment_tables. fold form inserted. now rewrite Hok. }
  assert (Hupd := update_bill_status_paid on_update (CustomerDashboard.bill_id form)
                    (fst inserted)).
  rewrite Hup in Hupd. subst inserted. rewrite Hins in Hdb, Hupd |- *.
  cbn [fst] in Hdb, Hupd |- *. rewrite policy_with_payments in Hupd.
  pose proof (reachable_policy_fails db on_update) as Hnone.
  rewrite Hupd in Hdb |- *.
  destruct (admins_can_update_bills on_update db) eqn:Hpass;
    cbn [fst snd] in Hdb |- *; rewrite Hdb; show_tables.
  - split; [eexists; split; [reflexivity |]; cbn; auto 10 |].
    split; [reflexivity |]. split; [reflexivity |].
    split; [| split; [| split; [| split; reflexivity]]].
    + intros _ b Hin Hid. apply in_map_iff in Hin as [b0 [Hb0 Hin]].
      destruct (String.eqb_spec (bills.id b0) (CustomerDashboard.bill_id form)).
      * subst b. cbn. auto.
      * subst b. contradiction.
    + intros b Hin Hne. apply in_map_iff. exists b. split; [| exact Hin].
      destruct (String.eqb_spec (bills.id b) (CustomerDashboard.bill_id form));
        [contradiction | reflexivity].
    + intros Hreach. specialize (Hnone Hreach). discriminate Hnone.
  - split; [eexists; split; [reflexivity |]; cbn; auto 10 |].
    split; [reflexivity |]. split; [reflexivity |].
    split; [intros Hno; discriminate Hno |].
    split; [auto |]. split; [reflexivity |]. split; reflexivity.
Qed.

(** The customer pays with both calls through: the payment is recorded and
    her bill is still pending.  The same payment once her profile carries the
    flag marks the bill. *)
Lemma makePayment_both_through_scenario :
  let db' db :=
    fst (run (CustomerDashboard.makePayment (Some Scenario.amina) Scenario.plain_numeral
                (Scenario.reaching 5 "payment-1") (Scenario.reaching 6 "")
                (Scenario.customer_reads 7)) db paying) in
  (tbl_bills (db' complained) = [Scenario.january]
   /\ exists p, tbl_payments (db' complained) = [p]
                /\ payments.status p = Some "completed")
  /\ (tbl_bills (db' (Scenario.promoted "user-1" complained)) =
        [bills.with_status (Some "paid") 6 Scenario.january]
      /\ exists p, tbl_payments (db' (Scenario.promoted "user-1" complained)) = [p]
                   /\ payments.status p = Some "completed").
Proof.
  intros db'. split.
  - destruct (makePayment_both_through (Some Scenario.amina) Scenario.plain_numeral
                (Scenario.reaching 5 "payment-1") (Scenario.reaching 6 "")
                (Scenario.customer_reads 7) complained paying)
      as [[p [Hp [Hs _]]] [_ [_ [_ [_ [Hb _]]]]]].
    + vm_compute. reflexivity.
    + reflexivity.
    + split; [exact (Hb complained_reachable) |].
      exists p. split; [exact Hp | exact Hs].
  - destruct (makePayment_both_through (Some Scenario.amina) Scenario.plain_numeral
                (Scenario.reaching 5 "payment-1") (Scenario.reaching 6 "")
                (Scenario.customer_reads 7) (Scenario.promoted "user-1" complained)
                paying)
      as [[p [Hp [Hs _]]] [_ [Hb _]]].
    + vm_compute. reflexivity.
    + reflexivity.
    + split; [exact Hb |]. exists p. split; [exact Hp | exact Hs].
Defined.

(** ** The outstanding figure after a payment *)

Lemma filter_filter_length {A} (p q : A -> bool) (l : list A) :
  List.length (filter p (filter q l)) = List.length (filter (fun x => q x && p x) l).
Proof.
  induction l as [| x l IH]; cbn; [reflexivity |].
  destruct (q x); cbn; [destruct (p x); cbn; congruence | exact IH].
Qed.

Lemma filter_length_rewritten {A} (key : A -> uuid) (keep : A -> bool) (g : A -> A)
    (target : uuid) (l : list A) (c : A) :
  NoDup (map key l) ->
  In c l -> key c = target -> keep c = true -> keep (g c) = false ->
  (List.length
     (filter keep (map (fun r => if String.eqb (key r) target then g r else r) l)) + 1)%nat =
  List.length (filter keep l).
Proof.
  intros Hnd Hin Hid Hc Hgc.
  induction l as [| r l IH]; [destruct Hin |].
  cbn [map] in Hnd. inversion Hnd as [| ? ? Hfresh Hnd']; subst.
  assert (Hrest : forall r', In r' l -> key r' <> key r).
  { intros r' Hr' Heq. apply Hfresh. rewrite <- Heq. now apply in_map. }
  destruct Hin as [-> | Hin].
  - cbn [map filter]. rewrite String.eqb_refl, Hgc, Hc. cbn [List.length].
    replace (map _ l) with l; [lia |].
    rewrite <- (map_id l) at 1. apply map_ext_in. intros r' Hr'.
    destruct (String.eqb_spec (key r') (key c)) as [He | _];
      [now elim (Hrest r' Hr') | reflexivity].
  - cbn [map filter].
    destruct (String.eqb_spec (key r) (key c)) as [He | _].
    { elim (Hrest c Hin). congruence. }
    specialize (IH Hnd' Hin).
    destruct (keep r); cbn [List.length]; lia.
Qed.

(** The pending bills of a customer, counted in the table. *)
Definition pending_rows (customer : uuid) (l : list bills.row) : nat :=
  List.length
    (filter (fun b => String.eqb (bills.customer_id b) customer
                      && is_text (bills.status b) "pending") l).

Lemma outstanding_refreshed (pr : profiles.row) (f : CustomerDashboard.fetches)
    (db : database) (s : CustomerDashboard.state) :
  transport (CustomerDashboard.on_bills f) = None ->
  CustomerDashboard.outstandingBills
    (CustomerDashboard.bills (CustomerFacts.refreshed pr f db s)) =
  pending_rows (profiles.id pr) (tbl_bills db).
Proof.
  intros Hb. cbn [CustomerFacts.refreshed CustomerDashboard.bills
                    CustomerDashboard.setLoading CustomerDashboard.setComplaints
                    CustomerDashboard.setPayments CustomerDashboard.setBills].
  unfold CustomerFacts.shown_bills, CustomerDashboard.select_bills.
  rewrite select_served by exact Hb.
  unfold CustomerDashboard.outstandingBills, CustomerDashboard.pendingBills.
  rewrite filter_map_length. cbn [CustomerDashboard.Bill.of_row CustomerDashboard.Bill.status].
  rewrite (filter_length_perm _ _ _ (order_desc_perm _ _)).
  apply filter_filter_length.
Qed.

(** X10. After a payment whose two writes get through, the refreshed
    "Outstanding Bills" figure is the figure a fetch of the same tables gave
    before when the policy "Admins can update bills" does not pass the caller
    (the paid bill is still counted), and one less when it does, provided the
    bill was a pending bill of the paying customer. *)
Theorem makePayment_outstanding_after
    (pr : profiles.row) (parseFloat : string -> option Numeric.decimal)
    (on_insert on_update : call) (f0 f : CustomerDashboard.fetches)
    (db : database) (s : CustomerDashboard.state) (bill : bills.row) :
  let form := CustomerDashboard.paymentData s in
  let before := snd (run (CustomerDashboard.fetchData (Some pr) f0) db s) in
  let after :=
    snd (run (CustomerDashboard.makePayment (Some pr) parseFloat on_insert on_update f)
             db before) in
  NoDup (map bills.id (tbl_bills db)) ->
  In bill (tbl_bills db) ->
  bills.id bill = CustomerDashboard.bill_id form ->
  bills.customer_id bill = profiles.id pr ->
  bills.status bill = Some "pending" ->
  transport (CustomerDashboard.on_bills f0) = None ->
  transport (CustomerDashboard.on_bills f) = None ->
  transport on_update = None ->
  error (snd (insert_payment on_insert
                (CustomerDashboard.paymentPayload (Some pr) parseFloat form) db)) = None ->
  (CustomerDashboard.outstandingBills (CustomerDashboard.bills after)
   + (if admins_can_update_bills on_update db then 1 else 0))%nat =
  CustomerDashboard.outstandingBills (CustomerDashboard.bills before)
  /\ (1 <= CustomerDashboard.outstandingBills (CustomerDashboard.bills before))%nat.
Proof.
  intros form before after Hnd Hin Hid Hcust Hst Hf0 Hf Hup Hok.
  assert (Hbefore : before = CustomerFacts.refreshed pr f0 db s).
  { subst before. unfold run. now rewrite CustomerFacts.fetchData_loaded. }
  assert (Hform : CustomerDashboard.paymentData before = form).
  { rewrite Hbefore. reflexivity. }
  destruct (insert_payment_outcome on_insert
              (CustomerDashboard.paymentPayload (Some pr) parseFloat form) db)
    as [[_ Hbad] | [p [_ [_ [_ [_ [_ Hins]]]]]]]; [now elim Hbad |].
  assert (Hafter : CustomerDashboard.bills after =
                   CustomerDashboard.bills
                     (CustomerFacts.refreshed pr f
                        (rewrite_bills on_update "paid" (CustomerDashboard.bill_id form)
                           (with_payments (tbl_payments db ++ [p]) db))
                        before)).
  { subst after. unfold run.
    rewrite CustomerFacts.makePayment_recorded by (rewrite Hform; exact Hok).
    rewrite Hform, Hins. cbn [fst].
    rewrite update_bill_status_paid, Hup. unfold rewrite_bills.
    destruct (admins_can_update_bills on_update _);
      cbn [fst snd]; rewrite CustomerFacts.fetchData_loaded; reflexivity. }
  rewrite Hafter, Hbefore.
  change (CustomerDashboard.bills
            (CustomerFacts.refreshed pr f
               (rewrite_bills on_update "paid" (CustomerDashboard.bill_id form)
                  (with_payments (tbl_payments db ++ [p]) db))
               (CustomerFacts.refreshed pr f0 db s)))
    with (CustomerDashboard.bills
            (CustomerFacts.refreshed pr f
               (rewrite_bills on_update "paid" (CustomerDashboard.bill_id form)
                  (with_payments (tbl_payments db ++ [p]) db)) s)).
  rewrite !outstanding_refreshed by assumption.
  assert (Hone : (1 <= pending_rows (profiles.id pr) (tbl_bills db))%nat).
  { unfold pending_rows. clear Hnd Hins Hafter.
    induction (tbl_bills db) as [| b l IH]; [destruct Hin |].
    cbn [filter]. destruct Hin as [-> | Hin].
    - rewrite Hcust, Hst, String.eqb_refl. cbn. lia.
    - specialize (IH Hin). destruct (_ && _); cbn [List.length]; lia. }
  split; [| exact Hone].
  unfold rewrite_bills. rewrite policy_with_payments.
  destruct (admins_can_update_bills on_update db); show_tables; [| lia].
  unfold pending_rows.
  apply (filter_length_rewritten bills.id _ _ _ _ bill); auto.
  - rewrite Hcust, Hst, String.eqb_refl. reflexivity.
  - cbn. now rewrite andb_false_r.
Qed.

Lemma makePayment_outstanding_after_scenario :
  let before db :=
    snd (run (CustomerDashboard.fetchData (Some Scenario.amina)
                (Scenario.customer_reads 4)) db paying) in
  let after db :=
    snd (run (CustomerDashboard.makePayment (Some Scenario.amina)
                Scenario.plain_numeral (Scenario.reaching 5 "payment-1")
                (Scenario.reaching 6 "") (Scenario.customer_reads 7))
             db (before db)) in
  (CustomerDashboard.outstandingBills (CustomerDashboard.bills (before complained)) = 1%nat
   /\ CustomerDashboard.outstandingBills
        (CustomerDashboard.bills (after complained)) = 1%nat)
  /\ (CustomerDashboard.outstandingBills
        (CustomerDashboard.bills (before (Scenario.promoted "user-1" complained))) = 1%nat
      /\ CustomerDashboard.outstandingBills
           (CustomerDashboard.bills (after (Scenario.promoted "user-1" complained))) =
         0%nat).
Proof.
  cbv zeta.
  assert (Hnd : NoDup (map bills.id (tbl_bills complained))).
  { vm_compute. constructor; [intros H; exact H | constructor]. }
  assert (Hin : In Scenario.january (tbl_bills complained))
    by (vm_compute; left; reflexivity).
  split.
  - destruct (makePayment_outstanding_after Scenario.amina Scenario.plain_numeral
                (Scenario.reaching 5 "payment-1") (Scenario.reaching 6 "")
                (Scenario.customer_reads 4) (Scenario.customer_reads 7)
                complained paying Scenario.january Hnd Hin
                eq_refl eq_refl eq_refl eq_refl eq_refl eq_refl) as [H _].
    + vm_compute. reflexivity.
    + assert (Hbefore :
                CustomerDashboard.outstandingBills
                  (CustomerDashboard.bills
                     (snd (run (CustomerDashboard.fetchData (Some Scenario.amina)
                                  (Scenario.customer_reads 4)) complained paying))) =
                1%nat)
        by (vm_compute; reflexivity).
      split; [exact Hbefore |]. rewrite Hbefore in H.
      change (admins_can_update_bills (Scenario.reaching 6 "") complained)
        with false in H.
      rewrite Nat.add_0_r in H. exact H.
  - destruct (makePayment_outstanding_after Scenario.amina Scenario.plain_numeral
                (Scenario.reaching 5 "payment-1") (Scenario.reaching 6 "")
                (Scenario.customer_reads 4) (Scenario.customer_reads 7)
                (Scenario.promoted "user-1" complained) paying Scenario.january Hnd Hin
                eq_refl eq_refl eq_refl eq_refl eq_refl eq_refl) as [H _].
    + vm_compute. reflexivity.
    + assert (Hbefore :
                CustomerDashboard.outstandingBills
                  (CustomerDashboard.bills
                     (snd (run (CustomerDashboard.fetchData (Some Scenario.amina)
                                  (Scenario.customer_reads 4))
                               (Scenario.promoted "user-1" complained) paying))) =
                1%nat)
        by (vm_compute; reflexivity).
      split; [exact Hbefore |]. rewrite Hbefore in H.
      change (admins_can_update_bills (Scenario.reaching 6 "")
                (Scenario.promoted "user-1" complained))
        with true in H.
      rewrite Nat.add_1_r in H. exact (Nat.succ_inj _ _ H).
Defined.

(** The row a complaint form becomes for the profile [pr]. *)
Definition createdComplaint (k : call) (pr : profiles.row)
    (form : CustomerDashboard.ComplaintData) : complaints.row :=
  {| complaints.id := fresh k; complaints.customer_id := profiles.id pr;
     complaints.subject := CustomerDashboard.subject form;
     complaints.description := CustomerDashboard.description form;
     complaints.status := Some "open";
     complaints.priority := Some (CustomerDashboard.priority form);
     complaints.admin_response := None;
     complaints.created_at := now k; complaints.updated_at := now k |}.

Lemma build_submitComplaint (profile : option profiles.row) (k : call)
    (form : CustomerDashboard.ComplaintData) :
  build_complaint k (CustomerDashboard.complaintPayload profile form) =
  match profile with
  | None => inl not_null
  | Some pr =>
      if text_in (CustomerDashboard.priority form) complaints.priorities
      then inr (createdComplaint k pr form)
      else inl check_violation
  end.
Proof.
  unfold build_complaint, CustomerDashboard.complaintPayload,
    CustomerDashboard.profile_id.
  destruct profile as [pr |]; cbn -[text_in]; [| reflexivity].
  destruct (text_in (CustomerDashboard.priority form) complaints.priorities);
    reflexivity.
Qed.

(** X11. The insert of [submitComplaint] is accepted exactly when the call
    gets through, the profile is loaded and stored, the priority is one of
    the four and the new id is unused.  The subject and the description are
    not looked at: empty texts are stored as they are. *)
Theorem submitComplaint_accepted_iff
    (profile : option profiles.row) (k : call)
    (form : CustomerDashboard.ComplaintData) (db : database) :
  error (snd (insert_complaint k (CustomerDashboard.complaintPayload profile form) db))
  = None
  <-> transport k = None
      /\ (exists pr, profile = Some pr
                     /\ In (profiles.id pr) (map profiles.id (tbl_profiles db)))
      /\ In (CustomerDashboard.priority form) ["low"; "medium"; "high"; "urgent"]
      /\ ~ In (fresh k) (map complaints.id (tbl_complaints db)).
Proof.
  unfold insert_complaint, served. rewrite build_submitComplaint.
  rewrite <- text_in_In, <- has_key_not_map.
  destruct (transport k) as [e |]; [cbn; split; [discriminate | intros [H _]; discriminate H] |].
  destruct profile as [pr |].
  - destruct (text_in (CustomerDashboard.priority form) complaints.priorities) eqn:Hp.
    + cbn [createdComplaint complaints.id complaints.customer_id].
      destruct (has_key complaints.id (fresh k) (tbl_complaints db)) eqn:Hk.
      * cbn. split; [discriminate | intros [_ [_ [_ H]]]; discriminate H].
      * destruct (has_key profiles.id (profiles.id pr) (tbl_profiles db)) eqn:Hc.
        -- cbn. split; [| reflexivity]. intros _.
           split; [reflexivity |]. split; [| auto].
           exists pr. split; [reflexivity | now apply has_key_map].
        -- cbn. split; [discriminate |].
           intros [_ [[pr' [Hpr Hin]] _]]. inversion Hpr; subst pr'.
           apply has_key_map in Hin. congruence.
    + cbn -[text_in]. split; [discriminate |]. intros [_ [_ [H _]]].
      unfold complaints.priorities in Hp. congruence.
  - cbn. split; [discriminate |]. intros [_ [[pr [Hpr _]] _]]. discriminate Hpr.
Qed.

Lemma submitComplaint_accepted_iff_scenario :
  error (snd (insert_complaint (Scenario.reaching 4 "complaint-1")
                (CustomerDashboard.complaintPayload (Some Scenario.amina)
                   CustomerDashboard.initialComplaintData)
                Scenario.billed)) = None.
Proof.
  apply (proj2 (submitComplaint_accepted_iff (Some Scenario.amina)
                  (Scenario.reaching 4 "complaint-1")
                  CustomerDashboard.initialComplaintData Scenario.billed)).
  split; [reflexivity |].
  split; [exists Scenario.amina; split; [reflexivity | vm_compute; auto] |].
  split; [vm_compute; auto |]. vm_compute. intros H. exact H.
Defined.

(** X12. When its insert is refused, [submitComplaint] stores nothing,
    shows the store's message as an Error notification and keeps the text of
    the form. *)
Theorem submitComplaint_refused_outcome
    (profile : option profiles.row) (on_insert : call) (f : CustomerDashboard.fetches)
    (db : database) (s : CustomerDashboard.state) (e : PostgrestError) :
  error (snd (insert_complaint on_insert
                (CustomerDashboard.complaintPayload profile
                   (CustomerDashboard.complaintData s)) db)) = Some e ->
  run (CustomerDashboard.submitComplaint profile on_insert f) db s =
  (db, CustomerDashboard.toast (failure (message e)) s).
Proof.
  intros He. unfold run.
  unfold CustomerDashboard.submitComplaint, try_catch, and_then, await, throw_if_error.
  cbn [fst snd].
  destruct (insert_complaint_outcome on_insert
              (CustomerDashboard.complaintPayload profile
                 (CustomerDashboard.complaintData s)) db)
    as [[Hsame _] | [c [_ [_ [_ [_ Hins]]]]]].
  - destruct (insert_complaint _ _ db) as [db1 r1]. cbn [fst snd] in *.
    rewrite He. cbn. now subst db1.
  - rewrite Hins in He. discriminate He.
Qed.

Lemma submitComplaint_refused_outcome_scenario :
  run (CustomerDashboard.submitComplaint None (Scenario.reaching 4 "complaint-1")
         (Scenario.customer_reads 5))
      Scenario.billed describing =
  (Scenario.billed, CustomerDashboard.toast (failure not_null) describing).
Proof.
  apply (submitComplaint_refused_outcome None (Scenario.reaching 4 "complaint-1")
           (Scenario.customer_reads 5) Scenario.billed describing
           {| message := not_null |}).
  reflexivity.
Defined.

(** * Further properties of the admin dashboard *)

(** X13. When its insert is refused, [createBill] stores nothing, shows the
    store's message as an Error notification and keeps the form as typed. *)
Theorem createBill_refused_outcome
    (parseFloat : string -> option Numeric.decimal) (on_insert : call)
    (f : AdminDashboard.fetches) (db : database) (s : AdminDashboard.state)
    (e : PostgrestError) :
  error (snd (insert_bill on_insert
                (AdminDashboard.billPayload parseFloat (AdminDashboard.newBill s)) db))
  = Some e ->
  run (AdminDashboard.createBill parseFloat on_insert f) db s =
  (db, AdminDashboard.toast (failure (message e)) s).
Proof.
  intros He. unfold run.
  rewrite (AdminFacts.createBill_refused parseFloat on_insert f db s e He). cbn [fst].
  destruct (insert_bill_outcome on_insert
              (AdminDashboard.billPayload parseFloat (AdminDashboard.newBill s)) db)
    as [[-> _] | [b [_ [_ [_ [_ Hins]]]]]]; [reflexivity |].
  rewrite Hins in He. discriminate He.
Qed.

Lemma createBill_refused_outcome_scenario :
  run (AdminDashboard.createBill Scenario.plain_numeral (Scenario.reaching 2 "bill-1")
         (Scenario.admin_reads 3))
      Scenario.registered
      (AdminDashboard.setNewBill (Scenario.bill_form "3000000" "0")
         AdminDashboard.initial) =
  (Scenario.registered,
   AdminDashboard.toast (failure overflow)
     (AdminDashboard.setNewBill (Scenario.bill_form "3000000" "0")
        AdminDashboard.initial)).
Proof.
  apply (createBill_refused_outcome Scenario.plain_numeral
           (Scenario.reaching 2 "bill-1") (Scenario.admin_reads 3) Scenario.registered
           (AdminDashboard.setNewBill (Scenario.bill_form "3000000" "0")
              AdminDashboard.initial)
           {| message := overflow |}).
  vm_compute. reflexivity.
Defined.

(** X14. A reading that does not parse to a number is sent as [null] and
    refused by the NOT NULL constraint: for the previous reading too, whose
    column default of zero applies only to a key that is left out, and
    [createBill] always sends the key. *)
Theorem createBill_blank_reading
    (parseFloat : string -> option Numeric.decimal) (on_insert : call)
    (f : AdminDashboard.fetches) (db : database) (s : AdminDashboard.state) :
  transport on_insert = None ->
  parseFloat (AdminDashboard.previous_reading (AdminDashboard.newBill s)) = None
  \/ ((exists P,
          stored_reading
            (parseFloat (AdminDashboard.previous_reading (AdminDashboard.newBill s)))
          = Some P)
      /\ parseFloat (AdminDashboard.current_reading (AdminDashboard.newBill s)) = None) ->
  run (AdminDashboard.createBill parseFloat on_insert f) db s =
  (db, AdminDashboard.toast (failure not_null) s).
Proof.
  intros Ht Hblank.
  assert (Hbuild : build_bill on_insert
                     (AdminDashboard.billPayload parseFloat (AdminDashboard.newBill s)) =
                   inl not_null).
  { unfold build_bill, AdminDashboard.billPayload. cbn -[Z.mul Z.sub].
    destruct Hblank as [-> | [[P HP] ->]]; [reflexivity |].
    unfold stored_reading in HP.
    destruct (parseFloat (AdminDashboard.previous_reading (AdminDashboard.newBill s)))
      as [d |]; [| discriminate HP].
    cbn -[Z.mul Z.sub]. rewrite HP. reflexivity. }
  assert (Hins : insert_bill on_insert
                   (AdminDashboard.billPayload parseFloat (AdminDashboard.newBill s)) db =
                 (db, fail not_null)).
  { unfold insert_bill. rewrite served_through by exact Ht. now rewrite Hbuild. }
  unfold run.
  rewrite (AdminFacts.createBill_refused parseFloat on_insert f db s
             {| message := not_null |}) by now rewrite Hins.
  rewrite Hins. reflexivity.
Qed.

Lemma createBill_blank_reading_scenario :
  run (AdminDashboard.createBill Scenario.plain_numeral (Scenario.reaching 2 "bill-1")
         (Scenario.admin_reads 3))
      Scenario.registered
      (AdminDashboard.setNewBill (Scenario.bill_form "" "150") AdminDashboard.initial) =
  (Scenario.registered,
   AdminDashboard.toast (failure not_null)
     (AdminDashboard.setNewBill (Scenario.bill_form "" "150") AdminDashboard.initial)).
Proof.
  apply (createBill_blank_reading Scenario.plain_numeral (Scenario.reaching 2 "bill-1")
           (Scenario.admin_reads 3) Scenario.registered
           (AdminDashboard.setNewBill (Scenario.bill_form "" "150")
              AdminDashboard.initial)).
  - reflexivity.
  - left. reflexivity.
Defined.

Lemma order_desc_length {A} (key : A -> Z) (l : list A) :
  List.length (order_desc key l) = List.length l.
Proof. apply Permutation_length, order_desc_perm. Qed.

(** X15. When the insert of [createBill] is accepted, the bill is stored
    last with the table's defaults (rate 50.00, status 'pending', both stamps
    at the time of the insert), the Success notification is shown, the form is
    emptied, and, the refresh of the bills getting through, "Total Bills"
    is the number of stored bills, one more than before. *)
Theorem createBill_accepted_outcome
    (parseFloat : string -> option Numeric.decimal) (on_insert : call)
    (f : AdminDashboard.fetches) (db : database) (s : AdminDashboard.state) :
  let done := run (AdminDashboard.createBill parseFloat on_insert f) db s in
  error (snd (insert_bill on_insert
                (AdminDashboard.billPayload parseFloat (AdminDashboard.newBill s)) db))
  = None ->
  (exists b,
      tbl_bills (fst done) = tbl_bills db ++ [b]
      /\ bills.rate_per_unit b = 5000
      /\ bills.status b = Some "pending"
      /\ bills.created_at b = now on_insert
      /\ bills.updated_at b = now on_insert
      /\ bills.customer_id b = AdminDashboard.customer_id (AdminDashboard.newBill s))
  /\ AdminDashboard.toasts (snd done) =
     AdminDashboard.toasts s ++ [success "Bill created successfully"]
  /\ AdminDashboard.newBill (snd done) = AdminDashboard.emptyNewBill
  /\ (transport (AdminDashboard.on_bills f) = None ->
      AdminDashboard.totalBills (AdminDashboard.stats (snd done)) =
      S (List.length (tbl_bills db))).
Proof.
  intros done Hok. subst done. unfold run.
  rewrite (AdminFacts.createBill_recorded parseFloat on_insert f db s Hok).
  cbn [fst snd].
  destruct (insert_bill_outcome on_insert
              (AdminDashboard.billPayload parseFloat (AdminDashboard.newBill s)) db)
    as [[_ Hbad] | [b [Hb [_ [_ [_ Hins]]]]]]; [now elim Hbad |].
  destruct (build_createBill_sound parseFloat on_insert _ b Hb)
    as [P [C [_ [_ [_ [_ ->]]]]]].
  rewrite Hins. cbn [fst]. show_tables.
  split; [eexists; split; [reflexivity |]; cbn -[Z.mul Z.sub]; auto 10 |].
  split; [reflexivity |]. split; [reflexivity |].
  intros Hread.
  unfold AdminDashboard.stats, AdminFacts.refreshed.
  cbn [AdminDashboard.totalBills AdminDashboard.bills AdminDashboard.setLoading
         AdminDashboard.setComplaints AdminDashboard.setPayments AdminDashboard.setBills].
  unfold AdminFacts.shown_bills. rewrite select_embedding_served by exact Hread.
  rewrite !length_map, order_desc_length. show_tables.
  rewrite length_app. cbn [List.length]. lia.
Qed.

Lemma createBill_accepted_outcome_scenario :
  AdminDashboard.totalBills
    (AdminDashboard.stats
       (snd (run (AdminDashboard.createBill Scenario.plain_numeral
                    (Scenario.reaching 8 "bill-2") (Scenario.admin_reads 9))
                 Scenario.billed
                 (AdminDashboard.setNewBill (Scenario.bill_form "150" "180.5")
                    AdminDashboard.initial)))) = 2%nat.
Proof.
  destruct (createBill_accepted_outcome Scenario.plain_numeral
              (Scenario.reaching 8 "bill-2") (Scenario.admin_reads 9) Scenario.billed
              (AdminDashboard.setNewBill (Scenario.bill_form "150" "180.5")
                 AdminDashboard.initial))
    as [_ [_ [_ H]]].
  - vm_compute. reflexivity.
  - rewrite H by reflexivity. rewrite Scenario.billed_tables. reflexivity.
Defined.

Lemma update_complaint_accepted_iff (k : call) (u : complaints.Update) (target : uuid)
    (db : database) :
  error (snd (update_complaint k u target db)) = None
  <-> transport k = None
      /\ (~ In target (map complaints.id (tbl_complaints db))
          \/ In (complaints.set_status u) complaints.statuses).
Proof.
  unfold update_complaint, served.
  rewrite <- has_key_not_map, <- text_in_In.
  destruct (transport k); [cbn; split; [discriminate | intros [H _]; discriminate H] |].
  destruct (has_key complaints.id target (tbl_complaints db));
    destruct (text_in (complaints.set_status u) complaints.statuses); cbn;
    (split; [intros H; try discriminate H; auto | intros [_ [H | H]]; auto; discriminate H]).
Qed.

(** X16. The update of [updateComplaintStatus] is accepted exactly when the
    call gets through and either no complaint has the id or the status is one
    of the four words; the current status of the complaint plays no part, so
    any of the four can follow any other.  The handler shows Success when it
    is accepted, and when it is refused changes nothing and shows the store's
    message as an Error. *)
Theorem updateComplaintStatus_outcome
    (complaintId status response : string) (on_update : call)
    (f : AdminDashboard.fetches) (db : database) (s : AdminDashboard.state) :
  let written :=
    update_complaint on_update
      {| complaints.set_status := status; complaints.set_admin_response := response |}
      complaintId db in
  let done :=
    run (AdminDashboard.updateComplaintStatus complaintId status response on_update f)
        db s in
  (error (snd written) = None
   <-> transport on_update = None
       /\ (~ In complaintId (map complaints.id (tbl_complaints db))
           \/ In status ["open"; "in_progress"; "resolved"; "closed"]))
  /\ (error (snd written) = None ->
      AdminDashboard.toasts (snd done) =
      AdminDashboard.toasts s ++ [success "Complaint updated successfully"])
  /\ (forall e, error (snd written) = Some e ->
                done = (db, AdminDashboard.toast (failure (message e)) s)).
Proof.
  intros written done. split; [apply update_complaint_accepted_iff |]. split.
  - intros Hok. subst done. unfold run.
    now rewrite (AdminFacts.updateComplaintStatus_recorded complaintId status response
                   on_update f db s Hok).
  - intros e He. subst done. unfold run.
    rewrite (AdminFacts.updateComplaintStatus_refused complaintId status response
               on_update f db s e He).
    cbn [fst].
    destruct (update_complaint_outcome on_update
                {| complaints.set_status := status;
                   complaints.set_admin_response := response |} complaintId db)
      as [[Hsame _] | [_ Hrun]].
    + now rewrite Hsame.
    + subst written. rewrite Hrun in He. discriminate He.
Qed.

Lemma updateComplaintStatus_outcome_scenario :
  run (AdminDashboard.updateComplaintStatus "complaint-1" "reopened" "" 
         (Scenario.reaching 9 "") (Scenario.admin_reads 10))
      complained AdminDashboard.initial =
  (complained, AdminDashboard.toast (failure check_violation) AdminDashboard.initial).
Proof.
  destruct (updateComplaintStatus_outcome "complaint-1" "reopened" ""
              (Scenario.reaching 9 "") (Scenario.admin_reads 10) complained
              AdminDashboard.initial) as [_ [_ H]].
  apply (H {| message := check_violation |}). vm_compute. reflexivity.
Defined.

(** X17. An update for an id that no complaint has is no error: the tables
    stay as they are and the handler still shows "Complaint updated
    successfully". *)
Theorem updateComplaintStatus_unknown_id
    (complaintId status response : string) (on_update : call)
    (f : AdminDashboard.fetches) (db : database) (s : AdminDashboard.state) :
  let done :=
    run (AdminDashboard.updateComplaintStatus complaintId status response on_update f)
        db s in
  transport on_update = None ->
  ~ In complaintId (map complaints.id (tbl_complaints db)) ->
  fst done = db
  /\ AdminDashboard.toasts (snd done) =
     AdminDashboard.toasts s ++ [success "Complaint updated successfully"].
Proof.
  intros done Ht Hno.
  assert (Hrun : update_complaint on_update
                   {| complaints.set_status := status;
                      complaints.set_admin_response := response |} complaintId db =
                 (db, succeed tt)).
  { unfold update_complaint. rewrite served_through by exact Ht.
    apply has_key_not_map in Hno. rewrite Hno. cbn [andb fst snd].
    replace (map _ (tbl_complaints db)) with (tbl_complaints db);
      [now destruct db |].
    rewrite <- (map_id (tbl_complaints db)) at 1. apply map_ext_in. intros c Hc.
    destruct (String.eqb_spec (complaints.id c) complaintId) as [He | _];
      [| reflexivity].
    assert (has_key complaints.id complaintId (tbl_complaints db) = true) as Hyes
        by (apply has_key_in; eauto).
    congruence. }
  subst done. unfold run.
  rewrite AdminFacts.updateComplaintStatus_recorded by now rewrite Hrun.
  rewrite Hrun. cbn [fst snd]. split; reflexivity.
Qed.

Lemma updateComplaintStatus_unknown_id_scenario :
  let done :=
    run (AdminDashboard.updateComplaintStatus "complaint-9" "resolved" "Done"
           (Scenario.reaching 9 "") (Scenario.admin_reads 10))
        complained AdminDashboard.initial in
  fst done = complained
  /\ AdminDashboard.toasts (snd done) = [success "Complaint updated successfully"].
Proof.
  apply (updateComplaintStatus_unknown_id "complaint-9" "resolved" "Done"
           (Scenario.reaching 9 "") (Scenario.admin_reads 10) complained
           AdminDashboard.initial).
  - reflexivity.
  - vm_compute. intros [H | H]; [discriminate H | exact H].
Defined.

(** X18. The last write wins: when a second update of the same complaint is
    accepted, the tables are those it would have left had the first update
    never been made. *)
Theorem updateComplaintStatus_last_wins
    (complaintId status1 response1 status2 response2 : string)
    (first second : call) (f1 f2 : AdminDashboard.fetches)
    (db : database) (s1 s2 : AdminDashboard.state) :
  let db1 :=
    fst (run (AdminDashboard.updateComplaintStatus complaintId status1 response1
                first f1) db s1) in
  transport second = None ->
  In status2 ["open"; "in_progress"; "resolved"; "closed"] ->
  fst (run (AdminDashboard.updateComplaintStatus complaintId status2 response2
              second f2) db1 s2) =
  fst (run (AdminDashboard.updateComplaintStatus complaintId status2 response2
              second f2) db s2).
Proof.
  intros db1 Ht Hst. subst db1. rewrite !AdminFacts.updateComplaintStatus_tables.
  assert (Hsecond : forall d,
             update_complaint second
               {| complaints.set_status := status2;
                  complaints.set_admin_response := response2 |} complaintId d =
             (rewrite_complaints second
                {| complaints.set_status := status2;
                   complaints.set_admin_response := response2 |} complaintId d,
              succeed tt)).
  { intros d. unfold update_complaint. rewrite served_through by exact Ht.
    apply text_in_In in Hst. cbn [complaints.set_status].
    unfold complaints.statuses. rewrite Hst. cbn [negb]. rewrite andb_false_r.
    reflexivity. }
  rewrite !Hsecond. cbn [fst].
  destruct (update_complaint_outcome first
              {| complaints.set_status := status1;
                 complaints.set_admin_response := response1 |} complaintId db)
    as [[-> _] | [_ ->]]; [reflexivity |].
  cbn [fst]. unfold rewrite_complaints. show_tables.
  unfold with_complaints. cbn. f_equal. rewrite map_map. apply map_ext. intros c.
  destruct (String.eqb_spec (complaints.id c) complaintId) as [He | Hne].
  - cbn. rewrite He, String.eqb_refl. reflexivity.
  - destruct (String.eqb_spec (complaints.id c) complaintId); [contradiction |].
    reflexivity.
Qed.

Lemma updateComplaintStatus_last_wins_scenario :
  tbl_complaints
    (fst (run (AdminDashboard.updateComplaintStatus "complaint-1" "open" "Reopened"
                 (Scenario.reaching 12 "") (Scenario.admin_reads 13))
              (fst (run (AdminDashboard.updateComplaintStatus "complaint-1" "resolved"
                           "Supply restored" (Scenario.reaching 9 "")
                           (Scenario.admin_reads 10))
                        complained AdminDashboard.initial))
              AdminDashboard.initial)) =
  [complaints.updated
     {| complaints.set_status := "open"; complaints.set_admin_response := "Reopened" |}
     12 no_water].
Proof.
  rewrite (updateComplaintStatus_last_wins "complaint-1" "resolved" "Supply restored"
             "open" "Reopened" (Scenario.reaching 9 "") (Scenario.reaching 12 "")
             (Scenario.admin_reads 10) (Scenario.admin_reads 13) complained
             AdminDashboard.initial AdminDashboard.initial).
  - vm_compute. reflexivity.
  - reflexivity.
  - vm_compute. auto.
Defined.

(** * Reads that fail *)

Lemma select_failed {A} (k : call) (table : database -> list A) (where_ : A -> bool)
    (order : list A -> list A) (db : database) (e : PostgrestError) :
  transport k = Some e ->
  or_empty (data (snd (select k table where_ order db))) = [].
Proof. unfold select, served. now intros ->. Qed.

Lemma select_embedding_failed {A} (k : call) (table : database -> list A)
    (customer : A -> uuid) (key : A -> Z) (db : database) (e : PostgrestError) :
  transport k = Some e ->
  or_empty (data (snd (AdminDashboard.select_embedding k table customer key db))) = [].
Proof. unfold AdminDashboard.select_embedding, served. now intros ->. Qed.

(** X19. The customer's [fetchData] never writes and never notifies: it
    ends with [loading] off and the forms and notifications as they were.  A
    read that fails is not reported; its list is shown empty, so a failed
    read of the bills shows no outstanding bill and nothing to pay.  Without
    a loaded profile the function does nothing at all. *)
Theorem fetchData_failure_silent
    (p : profiles.row) (f : CustomerDashboard.fetches) (db : database)
    (s : CustomerDashboard.state) :
  let done := run (CustomerDashboard.fetchData (Some p) f) db s in
  fst done = db
  /\ CustomerDashboard.toasts (snd done) = CustomerDashboard.toasts s
  /\ CustomerDashboard.loading (snd done) = false
  /\ CustomerDashboard.paymentData (snd done) = CustomerDashboard.paymentData s
  /\ CustomerDashboard.complaintData (snd done) = CustomerDashboard.complaintData s
  /\ (forall e, transport (CustomerDashboard.on_bills f) = Some e ->
                CustomerDashboard.bills (snd done) = []
                /\ CustomerDashboard.outstandingBills
                     (CustomerDashboard.bills (snd done)) = 0%nat
                /\ CustomerDashboard.selectableBills
                     (CustomerDashboard.bills (snd done)) = [])
  /\ (forall e, transport (CustomerDashboard.on_payments f) = Some e ->
                CustomerDashboard.payments (snd done) = [])
  /\ (forall e, transport (CustomerDashboard.on_complaints f) = Some e ->
                CustomerDashboard.complaints (snd done) = [])
  /\ run (CustomerDashboard.fetchData None f) db s = (db, s).
Proof.
  intros done. subst done. unfold run. rewrite CustomerFacts.fetchData_loaded.
  cbn [fst snd]. unfold CustomerFacts.refreshed.
  cbn [CustomerDashboard.toasts CustomerDashboard.loading CustomerDashboard.paymentData
         CustomerDashboard.complaintData CustomerDashboard.bills
         CustomerDashboard.payments CustomerDashboard.complaints
         CustomerDashboard.setLoading CustomerDashboard.setComplaints
         CustomerDashboard.setPayments CustomerDashboard.setBills].
  repeat (split; [reflexivity |]). split; [| split; [| split; [| reflexivity]]].
  - intros e He. unfold CustomerFacts.shown_bills, CustomerDashboard.select_bills.
    rewrite (select_failed _ _ _ _ _ e He). repeat split.
  - intros e He. unfold CustomerFacts.shown_payments, CustomerDashboard.select_payments.
    now rewrite (select_failed _ _ _ _ _ e He).
  - intros e He.
    unfold CustomerFacts.shown_complaints, CustomerDashboard.select_complaints.
    now rewrite (select_failed _ _ _ _ _ e He).
Qed.

Lemma fetchData_failure_silent_scenario :
  let done :=
    run (CustomerDashboard.fetchData (Some Scenario.amina)
           {| CustomerDashboard.on_bills := Scenario.failing 10 "";
              CustomerDashboard.on_payments := Scenario.reaching 10 "";
              CustomerDashboard.on_complaints := Scenario.reaching 10 "" |})
        billed_twice CustomerDashboard.initial in
  CustomerDashboard.outstandingBills (CustomerDashboard.bills (snd done)) = 0%nat
  /\ CustomerDashboard.toasts (snd done) = [].
Proof.
  destruct (fetchData_failure_silent Scenario.amina
              {| CustomerDashboard.on_bills := Scenario.failing 10 "";
                 CustomerDashboard.on_payments := Scenario.reaching 10 "";
                 CustomerDashboard.on_complaints := Scenario.reaching 10 "" |}
              billed_twice CustomerDashboard.initial)
    as [_ [Ht [_ [_ [_ [Hb _]]]]]].
  destruct (Hb {| message := "Failed to fetch" |}) as [_ [Hn _]]; [reflexivity |].
  split; [exact Hn | exact Ht].
Defined.

(** X20. The admin's [fetchData] behaves alike: no write, no
    notification, [loading] off at the end, the form kept; a list whose read
    fails is shown empty, so the figure computed from it reads zero ("Total
    Bills" 0, "Total Revenue" 0, "Pending Complaints" 0) although the
    tables are not empty. *)
Theorem admin_fetchData_failure_silent
    (f : AdminDashboard.fetches) (db : database) (s : AdminDashboard.state) :
  let done := run (AdminDashboard.fetchData f) db s in
  fst done = db
  /\ AdminDashboard.toasts (snd done) = AdminDashboard.toasts s
  /\ AdminDashboard.loading (snd done) = false
  /\ AdminDashboard.newBill (snd done) = AdminDashboard.newBill s
  /\ (forall e, transport (AdminDashboard.on_customers f) = Some e ->
                AdminDashboard.totalCustomers (AdminDashboard.stats (snd done)) = 0%nat)
  /\ (forall e, transport (AdminDashboard.on_bills f) = Some e ->
                AdminDashboard.totalBills (AdminDashboard.stats (snd done)) = 0%nat)
  /\ (forall e, transport (AdminDashboard.on_payments f) = Some e ->
                AdminDashboard.totalRevenue (AdminDashboard.stats (snd done)) = 0%float)
  /\ (forall e, transport (AdminDashboard.on_complaints f) = Some e ->
                AdminDashboard.pendingComplaints (AdminDashboard.stats (snd done))
                = 0%nat).
Proof.
  intros done. subst done. unfold run. rewrite AdminFacts.admin_fetchData_reads.
  cbn [fst snd]. unfold AdminFacts.refreshed, AdminDashboard.stats.
  cbn [AdminDashboard.toasts AdminDashboard.loading AdminDashboard.newBill
         AdminDashboard.customers AdminDashboard.bills AdminDashboard.payments
         AdminDashboard.complaints AdminDashboard.setLoading
         AdminDashboard.setComplaints AdminDashboard.setPayments
         AdminDashboard.setBills AdminDashboard.setCustomers
         AdminDashboard.totalCustomers AdminDashboard.totalBills
         AdminDashboard.totalRevenue AdminDashboard.pendingComplaints].
  repeat (split; [reflexivity |]). split; [| split; [| split]].
  - intros e He. unfold AdminFacts.shown_customers, AdminDashboard.select_customers.
    now rewrite (select_failed _ _ _ _ _ e He).
  - intros e He. unfold AdminFacts.shown_bills.
    now rewrite (select_embedding_failed _ _ _ _ _ e He).
  - intros e He. unfold AdminFacts.shown_payments.
    now rewrite (select_embedding_failed _ _ _ _ _ e He).
  - intros e He. unfold AdminFacts.shown_complaints.
    now rewrite (select_embedding_failed _ _ _ _ _ e He).
Qed.

Lemma admin_fetchData_failure_silent_scenario :
  let done :=
    run (AdminDashboard.fetchData
           {| AdminDashboard.on_customers := Scenario.reaching 10 "";
              AdminDashboard.on_bills := Scenario.failing 10 "";
              AdminDashboard.on_payments := Scenario.reaching 10 "";
              AdminDashboard.on_complaints := Scenario.reaching 10 "" |})
        billed_twice AdminDashboard.initial in
  AdminDashboard.totalBills (AdminDashboard.stats (snd done)) = 0%nat
  /\ List.length (tbl_bills billed_twice) = 2%nat.
Proof.
  destruct (admin_fetchData_failure_silent
              {| AdminDashboard.on_customers := Scenario.reaching 10 "";
                 AdminDashboard.on_bills := Scenario.failing 10 "";
                 AdminDashboard.on_payments := Scenario.reaching 10 "";
                 AdminDashboard.on_complaints := Scenario.reaching 10 "" |}
              billed_twice AdminDashboard.initial)
    as [_ [_ [_ [_ [_ [Hb _]]]]]].
  split; [apply (Hb {| message := "Failed to fetch" |}); reflexivity |].
  vm_compute. reflexivity.
Defined.

(** * The rest of the screens *)

(** ** Badges *)

(** [getStatusBadgeVariant], the same [switch] in both dashboards: labels
    that share a [return] are one group, anything else is the [default]. *)
Definition getStatusBadgeVariant (status : string) : string :=
  if text_in status ["paid"; "completed"; "resolved"] then "default"
  else if text_in status ["pending"; "open"] then "secondary"
  else if text_in status ["overdue"; "failed"] then "destructive"
  else if text_in status ["in_progress"] then "outline"
  else "default".

(** ** Dashboard.tsx *)

Inductive Screen :=
| LoadingCard
| AccessDenied
| ShowAdminDashboard
| ShowCustomerDashboard.

(** [Dashboard]: the loading card, then the access check, then
    [profile.is_admin ? <AdminDashboard /> : <CustomerDashboard />]. *)
Definition Dashboard (user : option uuid) (profile : option profiles.row)
    (loading : bool) : Screen :=
  if loading then LoadingCard
  else
    match user, profile with
    | Some _, Some p =>
        match profiles.is_admin p with
        | Some true => ShowAdminDashboard
        | _ => ShowCustomerDashboard
        end
    | _, _ => AccessDenied
    end.

(** ** The response boxes of the complaints tab *)

(** The object [complaintsResponse], from complaint id to typed text. *)
Definition Responses := list (string * string).

(** [complaintsResponse[id]] *)
Definition typed (m : Responses) (id : string) : option string :=
  option_map snd (find (fun kv => String.eqb (fst kv) id) m).

(** [{ ...prev, [id]: value }] *)
Definition setResponse (id value : string) (m : Responses) : Responses :=
  (id, value) :: filter (fun kv => negb (String.eqb (fst kv) id)) m.

(** [complaintsResponse[id] || ''] *)
Definition responseText (m : Responses) (id : string) : string :=
  match typed m id with
  | Some t => t
  | None => ""
  end.

(** The box and its two buttons are rendered for a complaint that is
    neither resolved nor closed. *)
Definition canRespond (c : AdminDashboard.Complaint.t) : bool :=
  negb (is_text (AdminDashboard.Complaint.status c) "resolved")
  && negb (is_text (AdminDashboard.Complaint.status c) "closed").

(** [onClick] of "Mark In Progress" and of "Mark Resolved". *)
Definition markInProgress (m : Responses) (c : AdminDashboard.Complaint.t)
  : call -> AdminDashboard.fetches -> task unit :=
  AdminDashboard.updateComplaintStatus (AdminDashboard.Complaint.id c) "in_progress"
    (responseText m (AdminDashboard.Complaint.id c)).

Definition markResolved (m : Responses) (c : AdminDashboard.Complaint.t)
  : call -> AdminDashboard.fetches -> task unit :=
  AdminDashboard.updateComplaintStatus (AdminDashboard.Complaint.id c) "resolved"
    (responseText m (AdminDashboard.Complaint.id c)).

(** X21. Badges: the three statuses of a bill get three different
    variants, and so do the three statuses of a payment; of the four
    statuses of a complaint, 'closed' has no case of its own and falls to the
    default, the variant of 'resolved'.  'destructive' marks exactly
    'overdue' and 'failed'. *)
Theorem badge_variants :
  (forall s t, In s bills.statuses -> In t bills.statuses ->
               getStatusBadgeVariant s = getStatusBadgeVariant t -> s = t)
  /\ (forall s t, In s payments.statuses -> In t payments.statuses ->
                  getStatusBadgeVariant s = getStatusBadgeVariant t -> s = t)
  /\ getStatusBadgeVariant "closed" = getStatusBadgeVariant "resolved"
  /\ (forall s, getStatusBadgeVariant s = "destructive"
                <-> s = "overdue" \/ s = "failed")
  /\ (forall s, In s complaints.statuses ->
                getStatusBadgeVariant s = "default" <-> s = "resolved" \/ s = "closed").
Proof.
  split; [| split; [| split; [reflexivity | split]]].
  - intros s t Hs Ht. cbn in Hs, Ht.
    destruct Hs as [<- | [<- | [<- | []]]]; destruct Ht as [<- | [<- | [<- | []]]];
      cbn; intros H; try reflexivity; discriminate H.
  - intros s t Hs Ht. cbn in Hs, Ht.
    destruct Hs as [<- | [<- | [<- | []]]]; destruct Ht as [<- | [<- | [<- | []]]];
      cbn; intros H; try reflexivity; discriminate H.
  - intros s. unfold getStatusBadgeVariant. split.
    + destruct (text_in s ["paid"; "completed"; "resolved"]); [intros H; discriminate H |].
      destruct (text_in s ["pending"; "open"]); [intros H; discriminate H |].
      destruct (text_in s ["overdue"; "failed"]) eqn:Hd.
      * intros _. apply text_in_In in Hd. cbn in Hd. intuition.
      * destruct (text_in s ["in_progress"]); intros H; discriminate H.
    + intros [-> | ->]; reflexivity.
  - intros s Hs. cbn in Hs.
    destruct Hs as [<- | [<- | [<- | [<- | []]]]]; cbn; split; intros H; auto;
      try discriminate H; destruct H as [H | H]; discriminate H.
Qed.

Lemma badge_variants_scenario :
  getStatusBadgeVariant "overdue" = "destructive"
  /\ getStatusBadgeVariant "closed" = "default".
Proof.
  destruct badge_variants as [_ [_ [_ [Hd Hc]]]].
  split.
  - apply (proj2 (Hd "overdue")). left. reflexivity.
  - apply (proj2 (Hc "closed" ltac:(cbn; auto))). right. reflexivity.
Defined.

(** X22. Routing and the customer list read the same flag differently.
    [Dashboard] shows the admin dashboard exactly to a profile whose
    [is_admin] is true and the customer dashboard to every other loaded
    profile, a NULL flag included; the admin's customer list holds exactly
    the profiles whose flag is false.  So a profile with a NULL flag uses the
    customer dashboard without being listed as a customer.  While loading,
    or without a user or a profile, no dashboard is shown. *)
Theorem routing_and_customer_list
    (db : database) (f : AdminDashboard.fetches) (s : AdminDashboard.state)
    (p : profiles.row) (user : uuid) :
  NoDup (map profiles.id (tbl_profiles db)) ->
  In p (tbl_profiles db) ->
  transport (AdminDashboard.on_customers f) = None ->
  let listed :=
    In (profiles.id p)
       (map AdminDashboard.Customer.id
            (AdminDashboard.customers (snd (run (AdminDashboard.fetchData f) db s)))) in
  (Dashboard (Some user) (Some p) false = ShowAdminDashboard
   <-> profiles.is_admin p = Some true)
  /\ (Dashboard (Some user) (Some p) false = ShowCustomerDashboard
      <-> profiles.is_admin p <> Some true)
  /\ (listed <-> profiles.is_admin p = Some false)
  /\ (profiles.is_admin p = None ->
      Dashboard (Some user) (Some p) false = ShowCustomerDashboard /\ ~ listed)
  /\ (forall u q, Dashboard u q true = LoadingCard)
  /\ (forall q, Dashboard None q false = AccessDenied)
  /\ (forall u, Dashboard u None false = AccessDenied).
Proof.
  intros Hnd Hin Hread listed.
  assert (Hlisted : listed <-> profiles.is_admin p = Some false).
  { subst listed. unfold run. rewrite AdminFacts.admin_fetchData_reads.
    cbn [fst snd]. unfold AdminFacts.refreshed.
    cbn [AdminDashboard.customers AdminDashboard.setLoading
           AdminDashboard.setComplaints AdminDashboard.setPayments
           AdminDashboard.setBills AdminDashboard.setCustomers].
    unfold AdminFacts.shown_customers, AdminDashboard.select_customers.
    rewrite select_served by exact Hread. unfold unordered.
    rewrite map_map. cbn [AdminDashboard.Customer.of_row AdminDashboard.Customer.id].
    rewrite in_map_iff. split.
    - intros [q [Hid Hq]]. apply filter_In in Hq as [Hq Hflag].
      assert (q = p) as ->.
      { apply In_nth_error in Hq as [i Hi]. apply In_nth_error in Hin as [j Hj].
        rewrite NoDup_nth_error in Hnd.
        assert (i = j) as ->.
        { apply Hnd.
          - rewrite length_map. apply nth_error_Some. congruence.
          - rewrite !nth_error_map, Hi, Hj. cbn. congruence. }
        congruence. }
      destruct (profiles.is_admin p) as [[|] |]; [discriminate | reflexivity | discriminate].
    - intros Hflag. exists p. split; [reflexivity |].
      apply filter_In. split; [exact Hin | now rewrite Hflag]. }
  unfold Dashboard. cbn.
  split; [| split; [| split; [exact Hlisted | split; [| repeat split]]]].
  - destruct (profiles.is_admin p) as [[|] |]; split; intros H; auto; discriminate H.
  - destruct (profiles.is_admin p) as [[|] |]; split; intros H; auto;
      try discriminate H; try (intros H'; discriminate H'). now elim H.
  - intros Hnone. rewrite Hlisted, Hnone. split; [reflexivity | discriminate].
  - intros u. now destruct u.
Qed.

(** A profile entered outside the application, its flag left NULL. *)
Definition unflagged : profiles.row :=
  {| profiles.id := "profile-7"; profiles.user_id := "user-7";
     profiles.full_name := "Baraka"; profiles.phone_number := None;
     profiles.address := None; profiles.meter_number := None;
     profiles.is_admin := None; profiles.created_at := 1;
     profiles.updated_at := 1 |}.

Lemma routing_and_customer_list_scenario :
  Dashboard (Some "user-7") (Some unflagged) false = ShowCustomerDashboard
  /\ ~ In "profile-7"
         (map AdminDashboard.Customer.id
              (AdminDashboard.customers
                 (snd (run (AdminDashboard.fetchData (Scenario.admin_reads 3))
                           (with_profiles [Scenario.amina; unflagged] empty_database)
                           AdminDashboard.initial)))).
Proof.
  destruct (routing_and_customer_list
              (with_profiles [Scenario.amina; unflagged] empty_database)
              (Scenario.admin_reads 3) AdminDashboard.initial unflagged "user-7")
    as [_ [_ [_ [H _]]]].
  - cbn. repeat constructor; cbn; intuition discriminate.
  - right. left. reflexivity.
  - reflexivity.
  - apply H. reflexivity.
Defined.

(** X23. Registration: the trigger stores a profile exactly when the call
    gets through, a name or an email is given and the new id is unused.  The
    profile is the last row, named after the metadata or else the email, with
    no address and no meter, and never an administrator: it is routed to the
    customer dashboard.  A refused registration changes nothing. *)
Theorem registration_outcome
    (k : call) (new_user : uuid) (meta_full_name email meta_phone_number : option string)
    (db : database) :
  let r := handle_new_user k new_user meta_full_name email meta_phone_number db in
  (error (snd r) = None
   <-> transport k = None
       /\ (meta_full_name <> None \/ email <> None)
       /\ ~ In (fresh k) (map profiles.id (tbl_profiles db)))
  /\ (error (snd r) = None ->
      exists p,
        fst r = with_profiles (tbl_profiles db ++ [p]) db
        /\ profiles.id p = fresh k
        /\ profiles.user_id p = new_user
        /\ Some (profiles.full_name p) =
           match meta_full_name with Some n => Some n | None => email end
        /\ profiles.phone_number p = meta_phone_number
        /\ profiles.address p = None
        /\ profiles.meter_number p = None
        /\ profiles.is_admin p = Some false
        /\ Dashboard (Some new_user) (Some p) false = ShowCustomerDashboard)
  /\ (error (snd r) <> None -> fst r = db).
Proof.
  intros r. subst r. unfold handle_new_user, served.
  rewrite <- has_key_not_map.
  destruct (transport k) as [e |].
  { cbn. split; [split; [discriminate | intros [H _]; discriminate H] |].
    split; [discriminate | reflexivity]. }
  assert (Hname : meta_full_name <> None \/ email <> None <->
                  match meta_full_name with Some n => Some n | None => email end <> None).
  { destruct meta_full_name, email; split; intros H; auto;
      try (left; discriminate); try (right; discriminate); try discriminate.
    destruct H as [H | H]; now elim H. }
  rewrite Hname. clear Hname.
  destruct (match meta_full_name with Some n => Some n | None => email end) as [name |].
  - destruct (has_key profiles.id (fresh k) (tbl_profiles db)).
    + cbn. split; [split; [discriminate | intros [_ [_ H]]; discriminate H] |].
      split; [discriminate | reflexivity].
    + cbn [fst snd error succeed]. split; [split; [| reflexivity] |].
      * intros _. split; [reflexivity |]. split; [discriminate | reflexivity].
      * split; [| intros H; now elim H].
        intros _. eexists. split; [reflexivity |]. cbn. auto 10.
  - cbn. split; [split; [discriminate | intros [_ [H _]]; now elim H] |].
    split; [discriminate | reflexivity].
Qed.

Lemma registration_outcome_scenario :
  exists p,
    Scenario.registered = with_profiles [p] empty_database
    /\ profiles.full_name p = "Amina" /\ profiles.is_admin p = Some false.
Proof.
  destruct (registration_outcome (Scenario.reaching 1 "profile-1") "user-1"
              (Some "Amina") None None empty_database) as [_ [H _]].
  destruct H as [p [Hp [_ [_ [Hn [_ [_ [_ [Ha _]]]]]]]]]; [reflexivity |].
  exists p. split; [exact Hp |]. split; [now inversion Hn | exact Ha].
Defined.

Lemma typed_setResponse (id value other : string) (m : Responses) :
  typed (setResponse id value m) other =
  if String.eqb id other then Some value else typed m other.
Proof.
  unfold typed, setResponse. cbn [find fst].
  destruct (String.eqb_spec id other) as [-> | Hne]; [reflexivity |].
  f_equal. induction m as [| [k v] m IH]; cbn; [reflexivity |].
  destruct (String.eqb_spec k id) as [-> | Hk]; cbn.
  - destruct (String.eqb_spec id other); [contradiction | exact IH].
  - destruct (String.eqb k other); [reflexivity | exact IH].
Qed.

(** X24. The two buttons of a complaint send the text of its response box
    as it stands: what was typed for that complaint (typing in another box
    does not touch it), and the empty text when nothing was typed.  Once the
    update gets through, every complaint with that id holds the new status
    and exactly that text as its response, so a click with an empty box
    replaces an earlier response by the empty text. *)
Theorem mark_sends_box_text
    (m : Responses) (c : AdminDashboard.Complaint.t) (on_update : call)
    (f : AdminDashboard.fetches) (db : database) (s : AdminDashboard.state) :
  let id := AdminDashboard.Complaint.id c in
  transport on_update = None ->
  (forall row, In row (tbl_complaints (fst (run (markResolved m c on_update f) db s))) ->
               complaints.id row = id ->
               complaints.status row = Some "resolved"
               /\ complaints.admin_response row = Some (responseText m id))
  /\ (forall row,
         In row (tbl_complaints (fst (run (markInProgress m c on_update f) db s))) ->
         complaints.id row = id ->
         complaints.status row = Some "in_progress"
         /\ complaints.admin_response row = Some (responseText m id))
  /\ (typed m id = None -> responseText m id = "")
  /\ (forall value, responseText (setResponse id value m) id = value)
  /\ (forall other value, other <> id ->
                          responseText (setResponse other value m) id = responseText m id).
Proof.
  intros id Ht.
  assert (Hmark : forall status,
             In status complaints.statuses ->
             forall row,
               In row
                 (tbl_complaints
                    (fst (run (AdminDashboard.updateComplaintStatus id status
                                 (responseText m id) on_update f) db s))) ->
               complaints.id row = id ->
               complaints.status row = Some status
               /\ complaints.admin_response row = Some (responseText m id)).
  { intros status Hst row Hin Hid.
    rewrite AdminFacts.updateComplaintStatus_tables in Hin.
    unfold update_complaint in Hin. rewrite served_through in Hin by exact Ht.
    apply text_in_In in Hst. cbn [complaints.set_status] in Hin.
    rewrite Hst in Hin. cbn [negb] in Hin. rewrite andb_false_r in Hin.
    cbn [fst] in Hin. show_tables. cbn [tbl_complaints with_complaints] in Hin.
    apply in_map_iff in Hin as [row0 [Hrow Hin]].
    destruct (String.eqb_spec (complaints.id row0) id) as [He | Hne].
    - subst row. cbn. auto.
    - subst row. contradiction. }
  split; [apply (Hmark "resolved"); cbn; auto |].
  split; [apply (Hmark "in_progress"); cbn; auto |].
  split; [intros Hnone; unfold responseText; now rewrite Hnone |].
  split.
  - intros value. unfold responseText. rewrite typed_setResponse, String.eqb_refl.
    reflexivity.
  - intros other value Hne. unfold responseText. rewrite typed_setResponse.
    destruct (String.eqb_spec other id); [contradiction | reflexivity].
Qed.

(** The complaint of the scenario, answered and in progress. *)
Definition answered : database :=
  fst (run (AdminDashboard.updateComplaintStatus "complaint-1" "in_progress"
              "A crew is on its way" (Scenario.reaching 9 "") (Scenario.admin_reads 10))
           complained AdminDashboard.initial).

Lemma mark_sends_box_text_scenario :
  let earlier :=
    complaints.updated
      {| complaints.set_status := "in_progress";
         complaints.set_admin_response := "A crew is on its way" |} 9 no_water in
  tbl_complaints answered = [earlier]
  /\ exists row,
       tbl_complaints
         (fst (run (markResolved [] (AdminDashboard.Complaint.of_row (earlier, Some "Amina"))
                      (Scenario.reaching 12 "") (Scenario.admin_reads 13)) answered
                   AdminDashboard.initial)) = [row]
       /\ complaints.admin_response row = Some "".
Proof.
  cbv zeta. split; [vm_compute; reflexivity |].
  eexists. split; [vm_compute; reflexivity |].
  destruct (mark_sends_box_text []
              (AdminDashboard.Complaint.of_row
                 (complaints.updated
                    {| complaints.set_status := "in_progress";
                       complaints.set_admin_response := "A crew is on its way" |}
                    9 no_water, Some "Amina"))
              (Scenario.reaching 12 "") (Scenario.admin_reads 13) answered
              AdminDashboard.initial eq_refl) as [H _].
  refine (proj2 (H _ _ _)); [vm_compute; left; reflexivity | reflexivity].
Defined.

(** X25. Storing a written number in a [DECIMAL(10,2)] column: a number
    with at most two fractional digits is stored as written, any other is
    stored within half a hundredth of what was written, and in both cases the
    stored value has at most ten digits (a larger one is refused). *)
Theorem decimal_assignment (d : Numeric.decimal) (h : Z) :
  Numeric.of_decimal d = Some h ->
  Z.abs h < 10 ^ 10
  /\ (- 2 <= Numeric.exponent d ->
      h = Numeric.mantissa d * 10 ^ (Numeric.exponent d + 2))
  /\ (Numeric.exponent d < - 2 ->
      2 * Z.abs (10 ^ (- (Numeric.exponent d + 2)) * h - Numeric.mantissa d)
      <= 10 ^ (- (Numeric.exponent d + 2))).
Proof.
  unfold Numeric.of_decimal. intros H. apply coerce_some in H as [-> Hfit].
  split; [exact Hfit |]. split.
  - intros He. destruct (Z.leb_spec 0 (Numeric.exponent d + 2)); [reflexivity | lia].
  - intros He. destruct (Z.leb_spec 0 (Numeric.exponent d + 2)); [lia |].
    apply round_half_away_error. apply Z.pow_pos_nonneg; lia.
Qed.

Lemma decimal_assignment_scenario :
  Numeric.of_decimal (Numeric.Decimal 180505 (-3)) = Some 18051
  /\ 2 * Z.abs (10 * 18051 - 180505) <= 10.
Proof.
  assert (H : Numeric.of_decimal (Numeric.Decimal 180505 (-3)) = Some 18051)
    by reflexivity.
  split; [exact H |].
  destruct (decimal_assignment _ _ H) as [_ [_ Hr]]. apply Hr. cbn. lia.
Defined.

(** X26. On the screen 'resolved' is final: after "Mark Resolved" gets
    through and the list is refreshed, the complaint is shown resolved and
    its response box and buttons are no longer rendered; after "Mark In
    Progress" they still are. *)
Theorem resolved_is_final_on_screen
    (m : Responses) (c : AdminDashboard.Complaint.t) (on_update : call)
    (f : AdminDashboard.fetches) (db : database) (s : AdminDashboard.state) :
  transport on_update = None ->
  transport (AdminDashboard.on_complaints f) = None ->
  (forall c',
      In c' (AdminDashboard.complaints (snd (run (markResolved m c on_update f) db s))) ->
      AdminDashboard.Complaint.id c' = AdminDashboard.Complaint.id c ->
      AdminDashboard.Complaint.status c' = Some "resolved" /\ canRespond c' = false)
  /\ (forall c',
         In c' (AdminDashboard.complaints
                  (snd (run (markInProgress m c on_update f) db s))) ->
         AdminDashboard.Complaint.id c' = AdminDashboard.Complaint.id c ->
         AdminDashboard.Complaint.status c' = Some "in_progress"
         /\ canRespond c' = true).
Proof.
  intros Ht Hread.
  assert (Hshown : forall status,
             In status complaints.statuses ->
             forall c',
               In c' (AdminDashboard.complaints
                        (snd (run (AdminDashboard.updateComplaintStatus
                                     (AdminDashboard.Complaint.id c) status
                                     (responseText m (AdminDashboard.Complaint.id c))
                                     on_update f) db s))) ->
               AdminDashboard.Complaint.id c' = AdminDashboard.Complaint.id c ->
               AdminDashboard.Complaint.status c' = Some status).
  { intros status Hst c' Hin Hid.
    assert (Hrun : update_complaint on_update
                     {| complaints.set_status := status;
                        complaints.set_admin_response :=
                          responseText m (AdminDashboard.Complaint.id c) |}
                     (AdminDashboard.Complaint.id c) db =
                   (rewrite_complaints on_update
                      {| complaints.set_status := status;
                         complaints.set_admin_response :=
                           responseText m (AdminDashboard.Complaint.id c) |}
                      (AdminDashboard.Complaint.id c) db, succeed tt)).
    { unfold update_complaint. rewrite served_through by exact Ht.
      apply text_in_In in Hst. cbn [complaints.set_status]. rewrite Hst.
      cbn [negb]. rewrite andb_false_r. reflexivity. }
    unfold run in Hin.
    rewrite AdminFacts.updateComplaintStatus_recorded in Hin by now rewrite Hrun.
    rewrite Hrun in Hin. cbn [fst snd] in Hin. unfold AdminFacts.refreshed in Hin.
    cbn [AdminDashboard.complaints AdminDashboard.setLoading
           AdminDashboard.setComplaints] in Hin.
    unfold AdminFacts.shown_complaints in Hin.
    rewrite select_embedding_served in Hin by exact Hread.
    apply in_map_iff in Hin as [[row name] [Hc' Hin]].
    apply in_map_iff in Hin as [row0 [Hrow Hin]]. inversion Hrow; subst row0 name.
    apply (Permutation_in _ (order_desc_perm _ _)) in Hin.
    unfold rewrite_complaints in Hin. cbn [tbl_complaints with_complaints] in Hin.
    apply in_map_iff in Hin as [row1 [Hrow1 Hin]].
    subst c'. cbn [AdminDashboard.Complaint.of_row AdminDashboard.Complaint.id
                     AdminDashboard.Complaint.status fst] in *.
    destruct (String.eqb_spec (complaints.id row1) (AdminDashboard.Complaint.id c))
      as [He | Hne].
    - subst row. reflexivity.
    - subst row. contradiction. }
  split.
  - intros c' Hin Hid.
    assert (Hs : AdminDashboard.Complaint.status c' = Some "resolved")
      by (apply (Hshown "resolved"); cbn; auto).
    split; [exact Hs |]. unfold canRespond. now rewrite Hs.
  - intros c' Hin Hid.
    assert (Hs : AdminDashboard.Complaint.status c' = Some "in_progress")
      by (apply (Hshown "in_progress"); cbn; auto).
    split; [exact Hs |]. unfold canRespond. now rewrite Hs.
Qed.

Lemma resolved_is_final_on_screen_scenario :
  exists c',
    AdminDashboard.complaints
      (snd (run (markResolved [("complaint-1", "Supply restored")]
                   (AdminDashboard.Complaint.of_row (no_water, Some "Amina"))
                   (Scenario.reaching 9 "") (Scenario.admin_reads 10))
                complained AdminDashboard.initial)) = [c']
    /\ canRespond c' = false.
Proof.
  eexists. split; [vm_compute; reflexivity |].
  destruct (resolved_is_final_on_screen [("complaint-1", "Supply restored")]
              (AdminDashboard.Complaint.of_row (no_water, Some "Amina"))
              (Scenario.reaching 9 "") (Scenario.admin_reads 10) complained
              AdminDashboard.initial eq_refl eq_refl) as [H _].
  refine (proj2 (H _ _ _)); [vm_compute; left; reflexivity | reflexivity].
Defined.
